(** * Apollo action gateway (mcp-server): a shallow embedding and its properties

    The gateway is a single JavaScript module.  This development embeds the
    parts of it that the specification talks about:

    - JavaScript strings as sequences of UTF-16 code units, with the string
      methods the module calls ([substring], [lastIndexOf], [includes],
      [trim]);
    - the fragment of JavaScript regular expressions the module uses, as a
      backtracking matcher, with [replace] and [test];
    - [splitMessage] (the chunker) and [mdToTelegramHtml] (the formatter);
    - the effectful part ([sendTelegram], [queryApollo], [autonomousScan],
      the tool handlers and the [/mcp] dispatcher) in a state-and-exception
      monad over an abstract outside world.

    The notification and read handlers, the handlers that file tickets,
    pages, postmortems, status updates and issues, one cycle of the
    Telegram bot and the health endpoint are embedded the same way
    (modules [Tools] and [Bot]).

    An invocation is run from start to end: what other invocations do
    while one of them waits at an [await] is not part of the model. *)

From Stdlib Require Import ZArith QArith Qabs Qround Lia.
From Stdlib Require Import Strings.String Strings.Ascii DecimalString.
From stdpp Require Import base option list gmap.

Local Open Scope Z_scope.
Set Warnings "-register-all".

(** ** JavaScript strings *)

Module JsString.

(** A string is its sequence of UTF-16 code units, so that [length] is the
    JavaScript [.length]. *)
Abbreviation jsstring := (list N).

(** ASCII literals of the source, unit by unit. *)
Definition lit (s : string) : jsstring :=
  map N_of_ascii (list_ascii_of_string s).
Global Arguments lit : simpl never.

(** The units that have no ASCII literal here: line feed, double quote. *)
Definition nl : jsstring := [10%N].
Definition dquote : jsstring := [34%N].

Definition js_length (s : jsstring) : Z := Z.of_nat (length s).

(** [s.substring(a, b)]: both indices are clamped to [0, s.length] and
    swapped when out of order. *)
Definition substring (s : jsstring) (a b : Z) : jsstring :=
  let len := js_length s in
  let a' := Z.min (Z.max a 0) len in
  let b' := Z.min (Z.max b 0) len in
  let lo := Z.min a' b' in
  let hi := Z.max a' b' in
  take (Z.to_nat (hi - lo)) (drop (Z.to_nat lo) s).

(** [s.substring(a)] *)
Definition substring_from (s : jsstring) (a : Z) : jsstring :=
  substring s a (js_length s).

Definition code_eqb (x y : N) : bool := N.eqb x y.

Fixpoint starts_with (needle s : jsstring) : bool :=
  match needle with
  | [] => true
  | c :: needle' =>
      match s with
      | [] => false
      | x :: s' => code_eqb c x && starts_with needle' s'
      end
  end.

(** [s.includes(needle)] *)
Fixpoint includes (s needle : jsstring) : bool :=
  starts_with needle s ||
  match s with
  | [] => false
  | _ :: s' => includes s' needle
  end.

(** Downward scan of [lastIndexOf]: the largest [i <= start] at which
    [needle] occurs, or -1. *)
Fixpoint lastIndexOf_down (s needle : jsstring) (start : nat) : Z :=
  if starts_with needle (drop start s) then Z.of_nat start
  else match start with
       | O => -1
       | S start' => lastIndexOf_down s needle start'
       end.

(** [s.lastIndexOf(needle, position)]: the search starts at
    [min(max(position, 0), s.length - needle.length)]. *)
Definition lastIndexOf (s needle : jsstring) (position : Z) : Z :=
  let room := js_length s - js_length needle in
  if room <? 0 then -1
  else lastIndexOf_down s needle (Z.to_nat (Z.min (Z.max position 0) room)).

(** White space and line terminators of ECMAScript: what [\s] matches and
    what [trim] removes. *)
Definition is_space (c : N) : bool :=
  ((9 <=? c) && (c <=? 13) || (c =? 32) || (c =? 160) || (c =? 5760)
   || ((8192 <=? c) && (c <=? 8202)) || (c =? 8232) || (c =? 8233)
   || (c =? 8239) || (c =? 8287) || (c =? 12288) || (c =? 65279))%N.

Fixpoint trim_start (s : jsstring) : jsstring :=
  match s with
  | [] => []
  | x :: s' => if is_space x then trim_start s' else s
  end.

(** [s.trim()] *)
Definition trim (s : jsstring) : jsstring :=
  rev (trim_start (rev (trim_start s))).

End JsString.
Import JsString.

(** ** Regular expressions

    Every regular expression of the module is an alternation of sequences
    of: a character class; a quantified character class, greedy or lazy,
    possibly captured; an anchor; a negative one-character lookaround.  The
    matcher below is the ECMAScript backtracking matcher restricted to that
    fragment.  Flags are part of the expression: [m] is the argument of the
    anchors, [i] is folded into the classes, and [g] is the choice between
    [replace_all] and [replace_first]. *)

Module Regex.

Definition cls := N -> bool.

Inductive atom :=
| Chr (c : cls)
| Rep (greedy : bool) (lo : nat) (hi : option nat) (c : cls)
| Grp (greedy : bool) (lo : nat) (hi : option nat) (c : cls)
| Bol (multiline : bool)
| Eol (multiline : bool)
| NotBehind (c : cls)
| NotAhead (c : cls).

Definition regex := list (list atom).

(** Classes *)
Definition one (a : ascii) : cls := fun x => N.eqb x (N_of_ascii a).
Definition any_of (chars : jsstring) : cls :=
  fun x => existsb (N.eqb x) chars.
Definition none_of (chars : jsstring) : cls := fun x => negb (any_of chars x).
Definition is_line_terminator : cls :=
  fun x => ((x =? 10) || (x =? 13) || (x =? 8232) || (x =? 8233))%N.
Definition dot : cls := fun x => negb (is_line_terminator x).
Definition anything : cls := fun _ => true.
Definition space : cls := is_space.
Definition digit : cls := fun x => ((48 <=? x) && (x <=? 57))%N.
Definition word : cls :=
  fun x => (((65 <=? x) && (x <=? 90)) || ((97 <=? x) && (x <=? 122))
            || digit x || (x =? 95))%N.
(** A letter under the [i] flag (no [u] flag): canonicalisation is simple
    upper-casing and never maps a non-ASCII unit to an ASCII one. *)
Definition letter_i (a : ascii) : cls :=
  fun x =>
    let n := N_of_ascii a in
    if ((97 <=? n) && (n <=? 122))%N then ((x =? n) || (x =? n - 32))%N
    else if ((65 <=? n) && (n <=? 90))%N then ((x =? n) || (x =? n + 32))%N
    else (x =? n)%N.

(** The literal [s] as a sequence of atoms. *)
Definition str (s : string) : list atom :=
  map (fun a => Chr (one a)) (list_ascii_of_string s).
Definition str_i (s : string) : list atom :=
  map (fun a => Chr (letter_i a)) (list_ascii_of_string s).

Definition allows (hi : option nat) : bool :=
  match hi with Some O => false | _ => true end.
Definition dec (hi : option nat) : option nat :=
  match hi with Some n => Some (pred n) | None => None end.

(** Repetition of a class, then the continuation [k].  Greedy: one more
    unit is tried before stopping; lazy: stopping is tried first.  The
    result counts the units the repetition took. *)
Fixpoint rep {R} (greedy : bool) (c : cls)
    (k : option N -> jsstring -> option R)
    (lo : nat) (hi : option nat) (prev : option N) (s : jsstring)
    : option (nat * R) :=
  let stop :=
    match lo with
    | O => (fun r => (O, r)) <$> k prev s
    | S _ => None
    end in
  let more :=
    match s with
    | x :: s' =>
        if c x && allows hi
        then (fun nr => (S (fst nr), snd nr)) <$>
               rep greedy c k (pred lo) (dec hi) (Some x) s'
        else None
    | [] => None
    end in
  if greedy
  then match more with Some r => Some r | None => stop end
  else match stop with Some r => Some r | None => more end.

(** A match: how many units it spans, and the captures in order. *)
Definition found := (nat * list jsstring)%type.

Definition at_bol (multiline : bool) (prev : option N) : bool :=
  match prev with
  | None => true
  | Some p => multiline && is_line_terminator p
  end.

Definition at_eol (multiline : bool) (s : jsstring) : bool :=
  match s with
  | [] => true
  | x :: _ => multiline && is_line_terminator x
  end.

(** Matching a sequence at one position: [prev] is the unit before the
    position, [s] the input from the position on. *)
Fixpoint match_seq (r : list atom) (prev : option N) (s : jsstring)
    : option found :=
  match r with
  | [] => Some (O, [])
  | Chr c :: r' =>
      match s with
      | x :: s' =>
          if c x
          then (fun f : found => (S (fst f), snd f)) <$> match_seq r' (Some x) s'
          else None
      | [] => None
      end
  | Rep g lo hi c :: r' =>
      (fun nf : nat * found => ((fst nf + fst (snd nf))%nat, snd (snd nf))) <$>
        rep g c (match_seq r') lo hi prev s
  | Grp g lo hi c :: r' =>
      (fun nf : nat * found =>
         ((fst nf + fst (snd nf))%nat, take (fst nf) s :: snd (snd nf))) <$>
        rep g c (match_seq r') lo hi prev s
  | Bol m :: r' => if at_bol m prev then match_seq r' prev s else None
  | Eol m :: r' => if at_eol m s then match_seq r' prev s else None
  | NotBehind c :: r' =>
      match prev with
      | Some p => if c p then None else match_seq r' prev s
      | None => match_seq r' prev s
      end
  | NotAhead c :: r' =>
      match s with
      | x :: _ => if c x then None else match_seq r' prev s
      | [] => match_seq r' prev s
      end
  end.

(** Alternatives are tried left to right. *)
Fixpoint match_re (re : regex) (prev : option N) (s : jsstring)
    : option found :=
  match re with
  | [] => None
  | r :: re' =>
      match match_seq r prev s with
      | Some f => Some f
      | None => match_re re' prev s
      end
  end.

(** [re.test(s)]: is there a match at some position. *)
Fixpoint search (re : regex) (prev : option N) (s : jsstring) : bool :=
  match match_re re prev s with
  | Some _ => true
  | None =>
      match s with
      | [] => false
      | x :: s' => search re (Some x) s'
      end
  end.

Definition test (re : regex) (s : jsstring) : bool := search re None s.

(** Replacement templates: literal text and [$n] references. *)
Inductive piece := Lit (s : jsstring) | Ref (n : nat).

Definition expand (tmpl : list piece) (caps : list jsstring) : jsstring :=
  concat (map (fun p => match p with
                        | Lit s => s
                        | Ref n => nth (pred n) caps []
                        end) tmpl).

(** [s.replace(re, tmpl)] for a global [re].  [skip] counts the units of
    the last match that are still to be passed over; after an empty match
    the next unit is copied and the search resumes behind it. *)
Fixpoint replace_go (re : regex) (tmpl : list piece) (prev : option N)
    (s : jsstring) (skip : nat) {struct s} : jsstring :=
  match skip with
  | S skip' =>
      match s with
      | [] => []
      | x :: s' => replace_go re tmpl (Some x) s' skip'
      end
  | O =>
      match match_re re prev s with
      | Some (n, caps) =>
          expand tmpl caps ++
          match s with
          | [] => []
          | x :: s' =>
              match n with
              | O => x :: replace_go re tmpl (Some x) s' O
              | S n' => replace_go re tmpl (Some x) s' n'
              end
          end
      | None =>
          match s with
          | [] => []
          | x :: s' => x :: replace_go re tmpl (Some x) s' O
          end
      end
  end.

Definition replace_all (re : regex) (tmpl : list piece) (s : jsstring)
    : jsstring :=
  replace_go re tmpl None s O.

(** [s.replace(re, tmpl)] for a non-global [re]: the first match only. *)
Fixpoint replace_first_go (re : regex) (tmpl : list piece) (prev : option N)
    (s : jsstring) : jsstring :=
  match match_re re prev s with
  | Some (n, caps) => expand tmpl caps ++ drop n s
  | None =>
      match s with
      | [] => []
      | x :: s' => x :: replace_first_go re tmpl (Some x) s'
      end
  end.

Definition replace_first (re : regex) (tmpl : list piece) (s : jsstring)
    : jsstring :=
  replace_first_go re tmpl None s.

(** The unit before the position reached after the units [l], starting
    behind [prev]. *)
Fixpoint last_or (prev : option N) (l : jsstring) : option N :=
  match l with
  | [] => prev
  | x :: l' => last_or (Some x) l'
  end.

End Regex.
Import Regex.

(** ** The chunker: [splitMessage] *)

Module Chunker.

Definition newline : jsstring := nl.

(** [/^\n/] *)
Definition re_leading_newline : regex := [[Bol false; Chr (one "010")]].

(** [splitIdx < maxLen * 0.3] for integers.  [0.3] is the double nearest to
    3/10, short of it by about 1.1e-17; for an integer [maxLen] below 2^50
    the rounded product is [3 * maxLen / 10] itself when that is an integer
    and lies between the same two integers otherwise, so the comparison with
    an integer is the exact one. *)
Definition below_threshold (splitIdx maxLen : Z) : bool :=
  10 * splitIdx <? 3 * maxLen.

(** The [while] loop.  Each iteration of the loop consumes one unit of
    [fuel]; [None] is a loop that has not finished within the fuel. *)
Fixpoint splitMessage_loop (fuel : nat) (maxLen : Z) (remaining : jsstring)
    (chunks : list jsstring) : option (list jsstring) :=
  if negb (0 <? js_length remaining) then Some chunks
  else
    match fuel with
    | O => None
    | S fuel' =>
        if js_length remaining <=? maxLen
        then Some (chunks ++ [remaining])
        else
          let splitIdx := lastIndexOf remaining newline maxLen in
          let splitIdx :=
            if below_threshold splitIdx maxLen then maxLen else splitIdx in
          splitMessage_loop fuel' maxLen
            (replace_first re_leading_newline []
               (substring_from remaining splitIdx))
            (chunks ++ [substring remaining 0 splitIdx])
    end.

Definition splitMessage_fuel (fuel : nat) (text : jsstring) (maxLen : Z)
    : option (list jsstring) :=
  if js_length text <=? maxLen then Some [text]
  else splitMessage_loop fuel maxLen text [].

(** One iteration per unit of the text is enough when the loop makes
    progress, which it does for every positive [maxLen]. *)
Definition splitMessage (text : jsstring) (maxLen : Z)
    : option (list jsstring) :=
  splitMessage_fuel (S (length text)) text maxLen.

(** The same loop, recording beside each segment whether the line break
    behind it was removed by the [replace]. *)
Definition break_removed (rest : jsstring) : bool :=
  starts_with newline rest.

Fixpoint splitMessage_marked_loop (fuel : nat) (maxLen : Z)
    (remaining : jsstring) (chunks : list (jsstring * bool))
    : option (list (jsstring * bool)) :=
  if negb (0 <? js_length remaining) then Some chunks
  else
    match fuel with
    | O => None
    | S fuel' =>
        if js_length remaining <=? maxLen
        then Some (chunks ++ [(remaining, false)])
        else
          let splitIdx := lastIndexOf remaining newline maxLen in
          let splitIdx :=
            if below_threshold splitIdx maxLen then maxLen else splitIdx in
          let rest := substring_from remaining splitIdx in
          splitMessage_marked_loop fuel' maxLen
            (replace_first re_leading_newline [] rest)
            (chunks ++ [(substring remaining 0 splitIdx, break_removed rest)])
    end.

Definition splitMessage_marked (text : jsstring) (maxLen : Z)
    : option (list (jsstring * bool)) :=
  if js_length text <=? maxLen then Some [(text, false)]
  else splitMessage_marked_loop (S (length text)) maxLen text [].

(** Putting the segments back together, with a line break wherever one was
    removed. *)
Fixpoint rejoin (segs : list (jsstring * bool)) : jsstring :=
  match segs with
  | [] => []
  | (c, b) :: segs' => c ++ (if b then newline else []) ++ rejoin segs'
  end.

(** The segments occur in the text one after the other, without overlap. *)
Fixpoint in_order (chunks : list jsstring) (text : jsstring) : Prop :=
  match chunks with
  | [] => True
  | c :: chunks' =>
      exists pre post, text = pre ++ c ++ post /\ in_order chunks' post
  end.

(** What [replace(/^\n/, empty)] comes to. *)
Definition strip_newline (s : jsstring) : jsstring :=
  match s with
  | x :: s' => if (x =? 10)%N then s' else s
  | [] => []
  end.

(** Where one iteration of the loop splits. *)
Definition split_index (remaining : jsstring) (maxLen : Z) : Z :=
  let splitIdx := lastIndexOf remaining newline maxLen in
  if below_threshold splitIdx maxLen then maxLen else splitIdx.

End Chunker.

(** ** The formatter: [mdToTelegramHtml] *)

Module Formatter.

(** [/^#{1,6}\s+(.+)$/gm] *)
Definition re_header : regex :=
  [[Bol true; Rep true 1 (Some 6%nat) (one "#"); Rep true 1 None space;
    Grp true 1 None dot; Eol true]].
(** [/\*\*(.+?)\*\*/g] *)
Definition re_bold_star : regex :=
  [str "**" ++ [Grp false 1 None dot] ++ str "**"].
(** [/__(.+?)__/g] *)
Definition re_bold_underscore : regex :=
  [str "__" ++ [Grp false 1 None dot] ++ str "__"].
(** [/(?<!\w)\*([^*\n]+?)\*(?!\w)/g] *)
Definition re_italic_star : regex :=
  [[NotBehind word; Chr (one "*"); Grp false 1 None (none_of (lit "*" ++ nl));
    Chr (one "*"); NotAhead word]].
(** [/(?<!\w)_([^_\n]+?)_(?!\w)/g] *)
Definition re_italic_underscore : regex :=
  [[NotBehind word; Chr (one "_"); Grp false 1 None (none_of (lit "_" ++ nl));
    Chr (one "_"); NotAhead word]].
(** [/`([^`\n]+?)`/g] *)
Definition re_inline_code : regex :=
  [[Chr (one "`"); Grp false 1 None (none_of (lit "`" ++ nl)); Chr (one "`")]].
(** [/```[\w]*\n?([\s\S]*?)```/g] *)
Definition re_code_block : regex :=
  [str "```" ++
   [Rep true 0 None word; Rep true 0 (Some 1%nat) (one "010");
    Grp false 0 None anything] ++
   str "```"].
(** [/~~(.+?)~~/g] *)
Definition re_strike : regex :=
  [str "~~" ++ [Grp false 1 None dot] ++ str "~~"].
(** [/\[([^\]]+)\]\(([^)]+)\)/g] *)
Definition re_link : regex :=
  [[Chr (one "["); Grp true 1 None (none_of (lit "]")); Chr (one "]");
    Chr (one "("); Grp true 1 None (none_of (lit ")")); Chr (one ")")]].
(** [/^[-*]{3,}$/gm] *)
Definition re_rule : regex :=
  [[Bol true; Rep true 3 None (any_of (lit "-*")); Eol true]].
(** [/^[\s]*[-*+]\s+/gm] *)
Definition re_bullet : regex :=
  [[Bol true; Rep true 0 None space; Chr (any_of (lit "-*+"));
    Rep true 1 None space]].
(** [/^[\s]*\d+\.\s+/gm] *)
Definition re_numbered : regex :=
  [[Bol true; Rep true 0 None space; Rep true 1 None digit; Chr (one ".");
    Rep true 1 None space]].
(** [/\n{3,}/g] *)
Definition re_blank_run : regex := [[Rep true 3 None (one "010")]].

Definition wrap (tag : string) : list piece :=
  [Lit (lit "<" ++ lit tag ++ lit ">"); Ref 1;
   Lit (lit "</" ++ lit tag ++ lit ">")].

(** ['<a href="$2">$1</a>'] *)
Definition link_template : list piece :=
  [Lit (lit "<a href=" ++ dquote); Ref 2; Lit (dquote ++ lit ">"); Ref 1;
   Lit (lit "</a>")].

(** The replacement for a list marker, unit by unit as the source file has
    it: two spaces, U+00E2, U+20AC, U+00A2 and one space. *)
Definition bullet : jsstring := [32%N; 32%N; 226%N; 8364%N; 162%N; 32%N].

Definition mdToTelegramHtml (text : jsstring) : jsstring :=
  match text with
  | [] => []
  | _ =>
      let result := text in
      let result := replace_all re_header (wrap "b") result in
      let result := replace_all re_bold_star (wrap "b") result in
      let result := replace_all re_bold_underscore (wrap "b") result in
      let result := replace_all re_italic_star (wrap "i") result in
      let result := replace_all re_italic_underscore (wrap "i") result in
      let result := replace_all re_inline_code (wrap "code") result in
      let result := replace_all re_code_block (wrap "pre") result in
      let result := replace_all re_strike (wrap "s") result in
      let result := replace_all re_link link_template result in
      let result := replace_all re_rule [] result in
      let result := replace_all re_bullet [Lit bullet] result in
      let result := replace_all re_numbered [Lit (lit "  ")] result in
      let result := replace_all re_blank_run [Lit (nl ++ nl)] result in
      trim result
  end.

(** *** Text without markup

    What the specification calls "text with no markup", position by
    position: no emphasis delimiter or backtick, no strikethrough delimiter,
    no link, and at the start of a line no header, horizontal rule or list
    marker. *)

(** [ok] holds at every position of the text, the end included.  [prev] is
    the unit before the position. *)
Fixpoint every_position (ok : option N -> jsstring -> bool)
    (prev : option N) (s : jsstring) : bool :=
  ok prev s &&
  match s with
  | [] => true
  | x :: s' => every_position ok (Some x) s'
  end.

(** [s] without its longest prefix in class [c]. *)
Fixpoint skip (c : cls) (s : jsstring) : jsstring :=
  match s with
  | [] => []
  | x :: s' => if c x then skip c s' else s
  end.

(** A run of [#] followed by white space. *)
Definition header_marker (l : jsstring) : bool :=
  match l with
  | x :: _ =>
      one "#" x &&
      match skip (one "#") l with
      | y :: _ => is_space y
      | [] => false
      end
  | [] => false
  end.

(** A line made of three or more [-] or [*]. *)
Definition rule_line (l : jsstring) : bool :=
  let rest := skip (any_of (lit "-*")) l in
  (3 <=? length l - length rest)%nat && at_eol true rest.

(** After optional white space: [-], [*] or [+], then white space. *)
Definition bullet_marker (l : jsstring) : bool :=
  match skip space l with
  | x :: y :: _ => any_of (lit "-*+") x && is_space y
  | _ => false
  end.

(** After optional white space: digits, a full stop, white space. *)
Definition number_marker (l : jsstring) : bool :=
  match skip space l with
  | x :: _ =>
      digit x &&
      match skip digit (skip space l) with
      | d :: y :: _ => one "." d && is_space y
      | _ => false
      end
  | [] => false
  end.

Definition delimiter_at (s : jsstring) : bool :=
  match s with
  | x :: _ => any_of (lit "*_`") x
  | [] => false
  end.

Definition markup_at (prev : option N) (s : jsstring) : bool :=
  delimiter_at s
  || starts_with (lit "~~") s
  || starts_with (lit "](") s
  || (at_bol true prev
      && (header_marker s || rule_line s || bullet_marker s
          || number_marker s)).

(** No markup construct begins at the position. *)
Definition plain_at (prev : option N) (s : jsstring) : bool :=
  negb (markup_at prev s).

Definition no_markup (s : jsstring) : bool :=
  every_position plain_at None s.

(** No run of three line feeds begins at the position. *)
Definition single_spaced_at (prev : option N) (s : jsstring) : bool :=
  negb (starts_with (nl ++ nl ++ nl) s).

(** No three line feeds in a row. *)
Definition no_blank_run (s : jsstring) : bool :=
  every_position single_spaced_at None s.

End Formatter.

(** ** JavaScript values *)

Module Js.

Inductive value :=
| VUndefined
| VNull
| VBool (b : bool)
| VNum (q : Q)
| VStr (s : jsstring)
| VArr (items : list value)
| VObj (props : list (jsstring * value)).

Definition is_empty (s : jsstring) : bool :=
  match s with [] => true | _ => false end.

Definition truthy (v : value) : bool :=
  match v with
  | VUndefined | VNull => false
  | VBool b => b
  | VNum q => negb (Qeq_bool q 0)
  | VStr s => negb (is_empty s)
  | VArr _ | VObj _ => true
  end.

Definition nullish (v : value) : bool :=
  match v with VUndefined | VNull => true | _ => false end.

(** [a || b] *)
Definition or_else (a b : value) : value := if truthy a then a else b.

Fixpoint lookup_prop (key : jsstring) (props : list (jsstring * value))
    : value :=
  match props with
  | [] => VUndefined
  | (k, v) :: props' =>
      if decide (k = key) then v else lookup_prop key props'
  end.

(** [v.key] for a [v] that is neither [null] nor [undefined]: the object's
    own property of that name.  What a value inherits (the [length] and the
    methods of a list or a string, the [constructor] of an object) is not
    looked up here; the tables that the gateway indexes with a text of the
    request are read with [table_get] below, and the one inherited
    property that the gateway reads off a response, the [values] of a
    list, is dealt with in [esqlQuery]. *)
Definition get (v : value) (key : jsstring) : value :=
  match v with
  | VObj props => lookup_prop key props
  | _ => VUndefined
  end.

(** [obj[key] = v]: an existing property keeps its place. *)
Fixpoint set_prop (key : jsstring) (v : value)
    (props : list (jsstring * value)) : list (jsstring * value) :=
  match props with
  | [] => [(key, v)]
  | (k, w) :: props' =>
      if decide (k = key) then (k, v) :: props'
      else (k, w) :: set_prop key v props'
  end.

(** [{ ...a, ...b }] *)
Definition spread (a b : list (jsstring * value))
    : list (jsstring * value) :=
  fold_left (fun acc kv => set_prop kv.1 kv.2 acc) b a.

(** [row[i]]: the element of a list, the unit of a string. *)
Definition index (row : value) (i : nat) : value :=
  match row with
  | VArr items => nth i items VUndefined
  | VStr s =>
      match nth_error s i with
      | Some x => VStr [x]
      | None => VUndefined
      end
  | _ => VUndefined
  end.

(** [v === "s"] *)
Definition equals (v : value) (s : string) : bool :=
  match v with
  | VStr t => bool_decide (t = lit s)
  | _ => false
  end.

Definition num (z : Z) : value := VNum (inject_Z z).
Definition vstr (s : string) : value := VStr (lit s).

(** Whether [v] can be turned into text (in a template literal, in a
    concatenation, as a property key, by [join]).  Primitives can.  An
    object is printed by the [toString] that it inherits, unless it has a
    [toString] entry of its own: the values of the gateway come from JSON
    and are no functions, so that such an entry leaves the conversion
    without a result and it throws a [TypeError].  A list prints its
    elements, [null] and [undefined] as nothing. *)
Fixpoint printable (v : value) : bool :=
  match v with
  | VObj props =>
      negb (existsb (fun kv : jsstring * value =>
                       bool_decide (kv.1 = lit "toString")) props)
  | VArr items => forallb printable items
  | _ => true
  end.

End Js.
Import Js.

(** ** The gateway *)

Module Gateway.

Record request := {
  req_url : jsstring;
  req_method : jsstring;
  req_headers : list (jsstring * jsstring);
  (** the value given to [JSON.stringify] for the body *)
  req_body : value;
}.

Record response := {
  res_ok : bool;
  res_status : Z;
  (** [await res.text()] *)
  res_text : jsstring;
  (** [await res.json()], [None] when the body does not parse *)
  res_json : option value;
}.

(** [await fetch(...)] either rejects or resolves to a response. *)
Inductive fetched :=
| Rejected (message : jsstring)
| Responded (res : response).

(** What the module takes from its runtime: the network, the clock, and the
    built-in conversions between values and text. *)
Class Runtime := {
  world : Type;
  fetch : request -> world -> fetched * world;
  Date_now : world -> Z * world;
  JSON_stringify : value -> jsstring;
  (** [String(v)] for a [v] that is not a string *)
  ToString : value -> jsstring;
  (** [Number(v)] for a [v] that is not a number; [None] is [NaN] *)
  ToNumber : value -> option Q;
  toISOString : Z -> jsstring;
  toFixed : Q -> nat -> jsstring;
  parseFloat : jsstring -> value;
  (** [Math.random()], a number from 0 up to, but not including, 1 *)
  Math_random : world -> Q * world;
  (** [s.toUpperCase()] *)
  toUpperCase : jsstring -> jsstring;
}.

(** [process.env], each setting defaulting to the empty string. *)
Class Config := {
  TELEGRAM_BOT_TOKEN : jsstring;
  TELEGRAM_CHAT_ID : jsstring;
  ELASTIC_URL : jsstring;
  ELASTIC_API_KEY : jsstring;
  KIBANA_URL : jsstring;
  SLACK_WEBHOOK_URL : jsstring;
  GITHUB_TOKEN : jsstring;
  GITHUB_REPO : jsstring;
}.

Inductive outcome (A : Type) :=
| Returned (a : A)
| Thrown (message : jsstring)
(** the model's budget of recursive calls is used up *)
| Unfinished.
Arguments Returned {A} a.
Arguments Thrown {A} message.
Arguments Unfinished {A}.

Section Effects.
Context {R : Runtime}.

(** The module's mutable state, the world outside it, and the requests
    issued so far (oldest first).  The keys of [conversationMap] are channel
    identities as text; a numeric chat id stands for its decimal notation. *)
Record state_of (W : Type) := {
  conversationMap : gmap jsstring value;
  outside : W;
  sent : list request;
}.
Global Arguments conversationMap {W} _.
Global Arguments outside {W} _.
Global Arguments sent {W} _.
Global Arguments Build_state_of {W} _ _ _.

Definition state : Type := state_of world.

Definition M (A : Type) : Type := state -> outcome A * state.

Definition ret {A} (a : A) : M A := fun st => (Returned a, st).

Definition throw {A} (message : jsstring) : M A :=
  fun st => (Thrown message, st).

Definition bind {A B} (m : M A) (k : A -> M B) : M B :=
  fun st =>
    match m st with
    | (Returned a, st') => k a st'
    | (Thrown e, st') => (Thrown e, st')
    | (Unfinished, st') => (Unfinished, st')
    end.

(** [try { m } catch (err) { handler(err.message) }] *)
Definition try_catch {A} (m : M A) (handler : jsstring -> M A) : M A :=
  fun st =>
    match m st with
    | (Thrown e, st') => handler e st'
    | r => r
    end.

Definition unfinished {A} : M A := fun st => (Unfinished, st).

End Effects.

Notation "'let*' x ':=' m 'in' k" := (bind m (fun x => k))
  (at level 10, x name, m at level 100, k at level 200).

Section Server.
Context {R : Runtime} {C : Config}.

(** [await fetch(url, init)] *)
Definition do_fetch (req : request) : M response :=
  fun st =>
    let (f, w) := fetch req (outside st) in
    let st' := {| conversationMap := conversationMap st;
                  outside := w;
                  sent := sent st ++ [req] |} in
    match f with
    | Rejected message => (Thrown message, st')
    | Responded res => (Returned res, st')
    end.

(** [Date.now()], [new Date()] *)
Definition now : M Z :=
  fun st =>
    let (t, w) := Date_now (outside st) in
    (Returned t, {| conversationMap := conversationMap st;
                    outside := w;
                    sent := sent st |}).

(** [await res.json()] *)
Definition json_of (res : response) : M value :=
  match res_json res with
  | Some v => ret v
  | None => throw (lit "Unexpected token in JSON")
  end.

(** [v.key], which throws on [null] and [undefined]. *)
Definition prop (v : value) (key : string) : M value :=
  if nullish v
  then throw (lit "Cannot read properties of "
              ++ (match v with VNull => lit "null" | _ => lit "undefined" end)
              ++ lit " (reading '" ++ lit key ++ lit "')")
  else ret (get v (lit key)).

(** [`${v}`], the text of a value that can be printed. *)
Definition tpl (v : value) : jsstring :=
  match v with
  | VStr s => s
  | _ => ToString v
  end.

(** The conversions to text of an expression, in front of the text that
    it builds with [tpl]: the first value that cannot be printed throws. *)
Definition printed (vs : list value) : M unit :=
  if forallb printable vs then ret tt
  else throw (lit "Cannot convert object to primitive value").

Definition to_number (v : value) : option Q :=
  match v with
  | VNum q => Some q
  | _ => ToNumber v
  end.

(** [a < b] on numbers; a comparison with [NaN] is false. *)
Definition lt (a b : option Q) : bool :=
  match a, b with
  | Some x, Some y => negb (Qle_bool y x)
  | _, _ => false
  end.

(** [v.toFixed(digits)] *)
Definition to_fixed (v : value) (digits : nat) : M jsstring :=
  match v with
  | VNum q => ret (toFixed q digits)
  | _ => throw (lit "toFixed is not a function")
  end.

Definition json_headers : list (jsstring * jsstring) :=
  [(lit "Content-Type", lit "application/json")].

Definition elastic_headers : list (jsstring * jsstring) :=
  [(lit "Authorization", lit "ApiKey " ++ ELASTIC_API_KEY);
   (lit "Content-Type", lit "application/json")].

Definition configured (setting : jsstring) : bool := negb (is_empty setting).

(** *** Telegram helper *)

(** [/<[^>]+>/g] *)
Definition re_tag : regex :=
  [[Chr (one "<"); Rep true 1 None (none_of (lit ">")); Chr (one ">")]].

Definition telegram_url : jsstring :=
  lit "https://api.telegram.org/bot" ++ TELEGRAM_BOT_TOKEN
  ++ lit "/sendMessage".

(** The first request of [sendTelegram]: the text as HTML. *)
Definition html_request (chatId : value) (safeText : jsstring)
    (options : list (jsstring * value)) : request :=
  {| req_url := telegram_url;
     req_method := lit "POST";
     req_headers := json_headers;
     req_body :=
       VObj (spread
               [(lit "chat_id", or_else chatId (VStr TELEGRAM_CHAT_ID));
                (lit "text", VStr safeText);
                (lit "parse_mode", vstr "HTML");
                (lit "disable_web_page_preview", VBool false)]
               options) |}.

(** Its second request: the text without tags and without a parse mode. *)
Definition plain_request (chatId : value) (safeText : jsstring)
    (options : list (jsstring * value)) : request :=
  {| req_url := telegram_url;
     req_method := lit "POST";
     req_headers := json_headers;
     req_body :=
       VObj (spread
               [(lit "chat_id", or_else chatId (VStr TELEGRAM_CHAT_ID));
                (lit "text", VStr (replace_all re_tag [] safeText))]
               options) |}.

(** [text.length > 4096 ? text.substring(0, 4090) + "\n..." : text] *)
Definition safe_text (text : jsstring) : jsstring :=
  if 4096 <? js_length text
  then substring text 0 4090 ++ nl ++ lit "..."
  else text.

(** The [text] field of the body of [r] is a string within Telegram's
    limit of 4096 units, and within 4094 when [text] was over the limit. *)
Definition text_within (text : jsstring) (r : request) : Prop :=
  exists t, get (req_body r) (lit "text") = VStr t
            /\ js_length t <= 4096
            /\ (4096 < js_length text -> js_length t <= 4094).

Definition sendTelegram (chatId : value) (text : jsstring)
    (options : list (jsstring * value)) : M value :=
  if negb (configured TELEGRAM_BOT_TOKEN)
  then ret (VObj [(lit "success", VBool false);
                  (lit "error", vstr "Bot not configured")])
  else
    let safeText := safe_text text in
    let* res := do_fetch (html_request chatId safeText options) in
    if negb (res_ok res)
    then
      let err := res_text res in
      if includes err (lit "can't parse entities")
      then
        let* plainRes := do_fetch (plain_request chatId safeText options) in
        if res_ok plainRes
        then ret (VObj [(lit "success", VBool true)])
        else ret (VObj [(lit "success", VBool false);
                        (lit "error", VStr err)])
      else ret (VObj [(lit "success", VBool false); (lit "error", VStr err)])
    else ret (VObj [(lit "success", VBool true)]).

(** [escapeHtml] *)
Definition escapeHtml (v : value) : M jsstring :=
  if negb (truthy v) then ret []
  else
    match v with
    | VStr s =>
        ret (replace_all [str ">"] [Lit (lit "&gt;")]
               (replace_all [str "<"] [Lit (lit "&lt;")]
                  (replace_all [str "&"] [Lit (lit "&amp;")] s)))
    | _ => throw (lit "text.replace is not a function")
    end.

(** *** Apollo agent query *)

(** The greeting, unit by unit as the source file has it: the dash is
    U+00E2, U+20AC, U+201D and each bullet U+00E2, U+20AC, U+00A2. *)
Definition greeting : jsstring :=
  lit "Hi! I'm Apollo, your AI SRE agent. Ask me anything about your production services "
  ++ [226%N; 8364%N; 8221%N] ++ lit " for example:" ++ nl
  ++ [226%N; 8364%N; 162%N] ++ lit " " ++ dquote
  ++ lit "What's the error rate on checkout-api?" ++ dquote ++ nl
  ++ [226%N; 8364%N; 162%N] ++ lit " " ++ dquote
  ++ lit "Run a full production scan" ++ dquote ++ nl
  ++ [226%N; 8364%N; 162%N] ++ lit " " ++ dquote
  ++ lit "Search past incidents for payment timeouts" ++ dquote.

Definition converse_request (input : jsstring) (existingConvId : value)
    : request :=
  {| req_url := KIBANA_URL ++ lit "/api/agent_builder/converse";
     req_method := lit "POST";
     req_headers :=
       [(lit "Authorization", lit "ApiKey " ++ ELASTIC_API_KEY);
        (lit "kbn-xsrf", lit "true");
        (lit "Content-Type", lit "application/json")];
     req_body :=
       VObj ([(lit "agent_id", vstr "apollo"); (lit "input", VStr input)]
             ++ (if truthy existingConvId
                 then [(lit "conversation_id", existingConvId)]
                 else [])) |}.

(** [conversationMap.get(chatId)] *)
Definition conversation_get (chatId : jsstring) : M value :=
  fun st => (Returned (default VUndefined (conversationMap st !! chatId)), st).

Definition conversation_delete (chatId : jsstring) : M unit :=
  fun st =>
    (Returned tt, {| conversationMap := delete chatId (conversationMap st);
                     outside := outside st;
                     sent := sent st |}).

Definition conversation_set (chatId : jsstring) (id : value) : M unit :=
  fun st =>
    (Returned tt, {| conversationMap := <[chatId := id]> (conversationMap st);
                     outside := outside st;
                     sent := sent st |}).

(** The part of [queryApollo] behind a successful response. *)
Definition read_reply (chatId : jsstring) (res : response) : M jsstring :=
  let* data := json_of res in
  let* conversation_id := prop data "conversation_id" in
  let* _ := (if truthy conversation_id
             then conversation_set chatId conversation_id
             else ret tt) in
  let reply := get data (lit "response") in
  let message :=
    if nullish reply then VUndefined else get reply (lit "message") in
  let response := tpl (or_else message (vstr "Investigation complete.")) in
  let* toolCalls :=
    match or_else (get data (lit "steps")) (VArr []) with
    | VArr items =>
        if existsb nullish items
        then throw (lit "Cannot read properties of undefined (reading 'type')")
        else ret (filter (fun s => equals (get s (lit "type")) "tool_call")
                    items)
    | _ => throw (lit "(data.steps || []).filter is not a function")
    end in
  let time_to_last_token := get data (lit "time_to_last_token") in
  let timing :=
    if truthy time_to_last_token
    then nl ++ nl ++ ToString (num (Z.of_nat (length toolCalls)))
         ++ lit " tools | "
         ++ match to_number time_to_last_token with
            | Some q => toFixed (q / 1000) 0
            | None => lit "NaN"
            end
         ++ lit "s"
    else [] in
  ret (response ++ timing).

(** [queryApollo].  Each recursive call takes one unit of [fuel]. *)
Fixpoint queryApollo_fuel (fuel : nat) (userMessage : value)
    (chatId : jsstring) : M jsstring :=
  match or_else userMessage (VStr []) with
  | VStr input =>
      let sanitizedInput := trim input in
      if is_empty sanitizedInput then ret greeting
      else
        let* existingConvId := conversation_get chatId in
        let* res := do_fetch (converse_request sanitizedInput existingConvId) in
        if negb (res_ok res)
        then
          let err := res_text res in
          if includes err (lit "not found") && truthy existingConvId
          then
            let* _ := conversation_delete chatId in
            match fuel with
            | O => unfinished
            | S fuel' => queryApollo_fuel fuel' userMessage chatId
            end
          else throw (lit "Apollo API (" ++ ToString (num (res_status res))
                      ++ lit "): " ++ substring err 0 200)
        else read_reply chatId res
  | _ => throw (lit "(userMessage || empty).trim is not a function")
  end.

(** One recursive call is all that a run can make (see the properties). *)
Definition queryApollo (userMessage : value) (chatId : jsstring)
    : M jsstring :=
  queryApollo_fuel 1 userMessage chatId.

(** [askApollo] *)
Definition askApollo (params : value) : M value :=
  let* question := prop params "question" in
  let* response := queryApollo question (lit "mcp-client") in
  ret (VObj [(lit "question", question); (lit "response", VStr response)]).

(** *** Scheduled scan *)

(** [/all.*normal|no.*anomal|healthy|no.*issue/i] *)
Definition re_all_clear : regex :=
  [str_i "all" ++ [Rep true 0 None dot] ++ str_i "normal";
   str_i "no" ++ [Rep true 0 None dot] ++ str_i "anomal";
   str_i "healthy";
   str_i "no" ++ [Rep true 0 None dot] ++ str_i "issue"].

Definition scan_prompt : jsstring :=
  lit "Autonomous scheduled scan: Check all production services for anomalies in the last 3 hours. "
  ++ lit "If anything looks abnormal, run the full investigation protocol and take all actions. "
  ++ lit "If everything is healthy, just report that all systems are normal.".

(** U+1F6E1, then [" <b>Apollo Scheduled Scan</b>\n\n"] *)
Definition scan_header : jsstring :=
  [55357%N; 57057%N] ++ lit " <b>Apollo Scheduled Scan</b>" ++ nl ++ nl.

Definition scan_alert (rawResponse : jsstring) : jsstring :=
  scan_header ++ substring (Formatter.mdToTelegramHtml rawResponse) 0 3800.

(** [autonomousScan]; console output is left out. *)
Definition autonomousScan : M unit :=
  try_catch
    (let* rawResponse :=
       queryApollo (VStr scan_prompt) (lit "scheduled-scan") in
     let isHealthy := test re_all_clear rawResponse in
     if negb isHealthy && configured TELEGRAM_BOT_TOKEN
        && configured TELEGRAM_CHAT_ID
     then let* _ := sendTelegram (VStr TELEGRAM_CHAT_ID)
                      (scan_alert rawResponse) [] in
          ret tt
     else ret tt)
    (fun _ => ret tt).

(** *** Elasticsearch queries *)

Definition row_object (columns : list value) (row : value)
    : list (jsstring * value) :=
  fold_left (fun obj ci => set_prop (tpl ci.1) (index row ci.2) obj)
    (zip columns (seq 0 (length columns))) [].

(** [esqlQuery].  The [values] of a list is the method of that name that
    every list inherits, which stands here as an empty object: it is
    truthy and has no [map]. *)
Definition esqlQuery (query : jsstring) : M (list value) :=
  let* res := do_fetch
    {| req_url := ELASTIC_URL ++ lit "/_query?format=json";
       req_method := lit "POST";
       req_headers := elastic_headers;
       req_body := VObj [(lit "query", VStr query)] |} in
  if negb (res_ok res)
  then throw (lit "ES|QL error: " ++ res_text res)
  else
    let* data := json_of res in
    let* declared := prop data "columns" in
    let* columns :=
      match declared with
      | VUndefined | VNull => ret []
      | VArr cs =>
          if existsb nullish cs
          then throw (lit "Cannot read properties of undefined (reading 'name')")
          else ret (map (fun c => get c (lit "name")) cs)
      | _ => throw (lit "data.columns?.map is not a function")
      end in
    let values :=
      match data with
      | VArr _ => VObj []
      | _ => get data (lit "values")
      end in
    match or_else values (VArr []) with
    | VArr rows =>
        if match columns with
           | [] => false
           | _ :: _ => existsb nullish rows
           end
        then throw (lit "Cannot read properties of undefined (reading '0')")
        else ret (map (fun row => VObj (row_object columns row)) rows)
    | _ => throw (lit "(data.values || []).map is not a function")
    end.

(** *** Health verification *)

Definition recent_query (service : value) : jsstring :=
  lit "FROM app-metrics | WHERE @timestamp > NOW() - 10 minutes AND service == "
  ++ dquote ++ tpl service ++ dquote
  ++ lit " | STATS avg_error_rate = AVG(error_rate), max_error_rate = MAX(error_rate), avg_latency = AVG(p99_latency_ms), max_connections = MAX(active_connections), sample_count = COUNT(*) BY service | LIMIT 1".

Definition baseline_query (service : value) : jsstring :=
  lit "FROM app-metrics | WHERE @timestamp > NOW() - 2 hours AND @timestamp < NOW() - 1 hour AND service == "
  ++ dquote ++ tpl service ++ dquote
  ++ lit " | STATS baseline_error_rate = AVG(error_rate), baseline_latency = AVG(p99_latency_ms) BY service | LIMIT 1".

(** A value that [(v || 0).toFixed(n)] accepts: a number, or a falsy
    value. *)
Definition number_or_absent (v : value) : Prop :=
  truthy v = false \/ exists q, v = VNum q.

(** [(row.column || 0)] *)
Definition metric (row : value) (column : string) : value :=
  or_else (get row (lit column)) (num 0).

(** [(recent.max_error_rate || 0) < 2 && (recent.avg_latency || 0) < 500] *)
Definition isHealthy (recent : value) : bool :=
  lt (to_number (metric recent "max_error_rate")) (Some 2%Q)
  && lt (to_number (metric recent "avg_latency")) (Some 500%Q).

(** [(recent.avg_error_rate || 0) < (baseline.baseline_error_rate || 0) * 1.5];
    the product is taken exactly. *)
Definition isImproved (recent baseline : value) : bool :=
  lt (to_number (metric recent "avg_error_rate"))
     (option_map (fun b => (b * (3 # 2))%Q)
        (to_number (metric baseline "baseline_error_rate"))).

(** [runHealthCheck] *)
Definition runHealthCheck (params : value) : M value :=
  if negb (configured ELASTIC_URL) || negb (configured ELASTIC_API_KEY)
  then
    let* service := prop params "service" in
    ret (VObj [(lit "success", VBool true);
               (lit "service", service);
               (lit "status", vstr "HEALTHY");
               (lit "message",
                vstr "Health check simulated (no ES connection)")])
  else
    let* service := prop params "service" in
    let* recentRows := esqlQuery (recent_query service) in
    let* baselineRows := esqlQuery (baseline_query service) in
    let recent := or_else (nth 0 recentRows VUndefined) (VObj []) in
    let baseline := or_else (nth 0 baselineRows VUndefined) (VObj []) in
    let* error_rate := to_fixed (metric recent "avg_error_rate") 2 in
    let* max_error_rate := to_fixed (metric recent "max_error_rate") 2 in
    let* p99_latency_ms := to_fixed (metric recent "avg_latency") 0 in
    let* baseline_error_rate :=
      to_fixed (metric baseline "baseline_error_rate") 2 in
    let* baseline_latency :=
      to_fixed (metric baseline "baseline_latency") 0 in
    let* verdict :=
      if isHealthy recent
      then ret (tpl service
                ++ lit " is HEALTHY. Error rate and latency are within normal range.")
      else
        let* rate := to_fixed (metric recent "max_error_rate") 1 in
        let* latency := to_fixed (metric recent "avg_latency") 0 in
        ret (tpl service ++ lit " is still DEGRADED. Error rate: " ++ rate
             ++ lit "%, Latency: " ++ latency
             ++ lit "ms. Further action may be needed.") in
    ret (VObj
           [(lit "success", VBool true);
            (lit "service", service);
            (lit "status",
             if isHealthy recent then vstr "HEALTHY" else vstr "DEGRADED");
            (lit "recovered", VBool (isImproved recent baseline));
            (lit "current",
             VObj [(lit "error_rate", VStr (error_rate ++ lit "%"));
                   (lit "max_error_rate", VStr (max_error_rate ++ lit "%"));
                   (lit "p99_latency_ms", VStr (p99_latency_ms ++ lit "ms"));
                   (lit "active_connections", metric recent "max_connections");
                   (lit "data_points", metric recent "sample_count")]);
            (lit "baseline",
             VObj [(lit "error_rate",
                    VStr (baseline_error_rate ++ lit "%"));
                   (lit "p99_latency_ms",
                    VStr (baseline_latency ++ lit "ms"))]);
            (lit "verdict", VStr verdict)]).

(** *** Rollback *)

Definition mrkdwn (s : jsstring) : value :=
  VObj [(lit "type", vstr "mrkdwn"); (lit "text", VStr s)].

Definition deployment_request (deployDoc : value) : request :=
  {| req_url := ELASTIC_URL ++ lit "/deployments/_doc";
     req_method := lit "POST";
     req_headers := elastic_headers;
     req_body := deployDoc |}.

Definition rollback_slack_request (service current_version target_version
    reason : value) (duration : jsstring) : request :=
  {| req_url := SLACK_WEBHOOK_URL;
     req_method := lit "POST";
     req_headers := json_headers;
     req_body :=
       VObj [(lit "attachments", VArr [VObj
         [(lit "color", vstr "#00AA00");
          (lit "blocks", VArr
            [VObj [(lit "type", vstr "header");
                   (lit "text",
                    VObj [(lit "type", vstr "plain_text");
                          (lit "text",
                           VStr (lit "Rollback Executed: "
                                 ++ tpl service))])];
             VObj [(lit "type", vstr "section");
                   (lit "fields", VArr
                     [mrkdwn (lit "*From:*" ++ nl ++ lit "`"
                              ++ tpl current_version ++ lit "`");
                      mrkdwn (lit "*To:*" ++ nl ++ lit "`"
                              ++ tpl target_version ++ lit "`")])];
             VObj [(lit "type", vstr "section");
                   (lit "text", mrkdwn (lit "*Reason:* " ++ tpl reason))];
             VObj [(lit "type", vstr "section");
                   (lit "text",
                    mrkdwn (lit "*Duration:* " ++ duration
                            ++ lit "s | *Triggered by:* Apollo SRE Agent"))];
             VObj [(lit "type", vstr "context");
                   (lit "elements", VArr
                     [mrkdwn (lit "kubectl rollout undo deployment/"
                              ++ tpl service
                              ++ lit " --to-revision=...")])]])]])] |}.

(** U+2705 and U+27A1 are the check mark and the arrow of the message. *)
Definition rollback_telegram_text (service current_version target_version
    : value) (duration reason : jsstring) : jsstring :=
  [9989%N] ++ lit " <b>ROLLBACK EXECUTED</b>" ++ nl ++ nl
  ++ lit "<b>Service:</b> <code>" ++ tpl service ++ lit "</code>" ++ nl
  ++ lit "<b>From:</b> <code>" ++ tpl current_version ++ lit "</code>  "
  ++ [10145%N] ++ lit "  <code>" ++ tpl target_version ++ lit "</code>" ++ nl
  ++ lit "<b>Duration:</b> " ++ duration ++ lit "s" ++ nl
  ++ lit "<b>Reason:</b> " ++ reason ++ nl ++ nl
  ++ lit "<b>Command executed:</b>" ++ nl
  ++ lit "<code>kubectl rollout undo deployment/" ++ tpl service
  ++ lit "</code>" ++ nl ++ nl
  ++ lit "<i>Apollo SRE Agent -- Automated Rollback</i>".

(** [executeRollback] *)
Definition executeRollback (params : value) : M value :=
  let* startTime := now in
  let* timestamp := now in
  let* service := prop params "service" in
  let target_version := get params (lit "target_version") in
  let current_version := get params (lit "current_version") in
  let reason := get params (lit "reason") in
  let* _ := printed [reason; service; current_version; target_version] in
  let deployDoc :=
    VObj [(lit "@timestamp", VStr (toISOString timestamp));
          (lit "service", service);
          (lit "version", target_version);
          (lit "previous_version", current_version);
          (lit "deployer",
           or_else (get params (lit "triggered_by")) (vstr "apollo-agent"));
          (lit "status", vstr "success");
          (lit "type", vstr "rollback");
          (lit "description",
           VStr (lit "Automated rollback: " ++ tpl reason));
          (lit "commit_message",
           VStr (lit "Rollback " ++ tpl service ++ lit " from "
                 ++ tpl current_version ++ lit " to "
                 ++ tpl target_version));
          (lit "files_changed", num 0);
          (lit "lines_changed", num 0);
          (lit "rollback_reason", reason);
          (lit "automated", VBool true)] in
  let* deployId :=
    if configured ELASTIC_URL && configured ELASTIC_API_KEY
    then
      let* res := do_fetch (deployment_request deployDoc) in
      if res_ok res
      then
        let* result := json_of res in
        prop result "_id"
      else ret VNull
    else ret VNull in
  let* endTime := now in
  let duration := toFixed (inject_Z (endTime - startTime) / 1000)%Q 1 in
  let* _ :=
    if configured SLACK_WEBHOOK_URL
    then
      let* _ := do_fetch (rollback_slack_request service current_version
                            target_version reason duration) in
      ret tt
    else ret tt in
  let* escaped := escapeHtml reason in
  let* _ := sendTelegram (VStr TELEGRAM_CHAT_ID)
              (rollback_telegram_text service current_version target_version
                 duration escaped) [] in
  ret (VObj
         [(lit "success", VBool true);
          (lit "message",
           VStr (lit "Rollback executed: " ++ tpl service ++ lit " "
                 ++ tpl current_version ++ lit " -> " ++ tpl target_version
                 ++ lit " in " ++ duration ++ lit "s"));
          (lit "deployment_id", deployId);
          (lit "command",
           VStr (lit "kubectl rollout undo deployment/" ++ tpl service));
          (lit "duration_seconds", parseFloat duration);
          (lit "notifications",
           VObj [(lit "slack", VBool (configured SLACK_WEBHOOK_URL));
                 (lit "telegram", VBool (configured TELEGRAM_BOT_TOKEN))])]).

(** *** Assumptions about the outside world *)

(** The network answers every request (with whatever status). *)
Definition always_answers : Prop :=
  forall (req : request) (w : world),
    exists res w', fetch req w = (Responded res, w').

(** A value that [escapeHtml] accepts: a string, or a falsy value. *)
Definition text_or_absent (v : value) : Prop :=
  truthy v = false \/ exists s, v = VStr s.

(** The arguments of these names are strings, or falsy (absent, for
    one). *)
Definition texts (params : value) (names : list string) : Prop :=
  Forall (fun name => text_or_absent (get params (lit name))) names.

End Server.

(** *** The tool dispatcher *)

(** The handlers that the properties below do not look into, and the prose
    of the catalogue; the dispatcher is the same whatever they are. *)
Class Handlers {R : Runtime} := {
  sendTelegramAlert : value -> M value;
  createIncidentRecord : value -> M value;
  recommendRollback : value -> M value;
  sendSlackNotification : value -> M value;
  createJiraTicket : value -> M value;
  createPagerDutyIncident : value -> M value;
  generatePostmortem : value -> M value;
  updateStatusPage : value -> M value;
  createGithubIssue : value -> M value;
  getServiceHealth : value -> M value;
  getRecentIncidents : value -> M value;
  getRecentDeployments : value -> M value;
  searchErrorLogs : value -> M value;
  tool_description : string -> jsstring;
  tool_inputSchema : string -> value;
}.

Section Dispatcher.
Context {R : Runtime} {C : Config} {H : Handlers}.

(** The names of [TOOLS], in order. *)
Definition TOOL_NAMES : list string :=
  ["send_telegram_alert"; "create_incident_record"; "recommend_rollback";
   "send_slack_notification"; "execute_rollback"; "run_health_check";
   "create_jira_ticket"; "create_pagerduty_incident"; "generate_postmortem";
   "update_status_page"; "create_github_issue"; "get_service_health";
   "get_recent_incidents"; "get_recent_deployments"; "search_error_logs";
   "ask_apollo"]%string.

Definition TOOLS : list value :=
  map (fun name =>
         VObj [(lit "name", vstr name);
               (lit "description", VStr (tool_description name));
               (lit "inputSchema", tool_inputSchema name)])
    TOOL_NAMES.

(** The inner [switch (name)] of [tools/call]. *)
Definition call_tool (name args : value) : M value :=
  if equals name "send_telegram_alert" then sendTelegramAlert args
  else if equals name "create_incident_record" then createIncidentRecord args
  else if equals name "recommend_rollback" then recommendRollback args
  else if equals name "send_slack_notification"
  then sendSlackNotification args
  else if equals name "execute_rollback" then executeRollback args
  else if equals name "run_health_check" then runHealthCheck args
  else if equals name "create_jira_ticket" then createJiraTicket args
  else if equals name "create_pagerduty_incident"
  then createPagerDutyIncident args
  else if equals name "generate_postmortem" then generatePostmortem args
  else if equals name "update_status_page" then updateStatusPage args
  else if equals name "create_github_issue" then createGithubIssue args
  else if equals name "get_service_health"
  then getServiceHealth (or_else args (VObj []))
  else if equals name "get_recent_incidents"
  then getRecentIncidents (or_else args (VObj []))
  else if equals name "get_recent_deployments"
  then getRecentDeployments (or_else args (VObj []))
  else if equals name "search_error_logs"
  then searchErrorLogs (or_else args (VObj []))
  else if equals name "ask_apollo" then askApollo args
  else
    let* _ := printed [name] in
    ret (VObj [(lit "error", VStr (lit "Unknown tool: " ++ tpl name))]).

(** The response body of a call that ran: [{ jsonrpc, id, result }]. *)
Definition rpc_result (id result : value) : value :=
  VObj [(lit "jsonrpc", vstr "2.0"); (lit "id", id); (lit "result", result)].

(** [{ content: [{ type: "text", text: JSON.stringify(result, null, 2) }] }] *)
Definition tool_content (result : value) : value :=
  VObj [(lit "content",
         VArr [VObj [(lit "type", vstr "text");
                     (lit "text", VStr (JSON_stringify result))]])].

(** The response body of a protocol-level fault: [{ jsonrpc, id, error }]. *)
Definition rpc_error (id : value) (code : Z) (message : jsstring) : value :=
  VObj [(lit "jsonrpc", vstr "2.0"); (lit "id", id);
        (lit "error",
         VObj [(lit "code", num code); (lit "message", VStr message)])].

(** The handler of [POST /mcp]: from [req.body] to the body given to
    [res.json].  A throw is a request left without a JSON-RPC answer. *)
Definition mcp (body : value) : M value :=
  let* method := prop body "method" in
  let params := get body (lit "params") in
  let id := get body (lit "id") in
  if equals method "initialize"
  then ret (rpc_result id
              (VObj [(lit "protocolVersion", vstr "2025-03-26");
                     (lit "capabilities", VObj [(lit "tools", VObj [])]);
                     (lit "serverInfo",
                      VObj [(lit "name", vstr "apollo-actions");
                            (lit "version", vstr "4.0.0")])]))
  else if equals method "tools/list"
  then ret (rpc_result id (VObj [(lit "tools", VArr TOOLS)]))
  else if equals method "tools/call"
  then
    let* name := prop params "name" in
    let args := get params (lit "arguments") in
    let* result :=
      try_catch (call_tool name args)
        (fun message => ret (VObj [(lit "error", VStr message)])) in
    ret (rpc_result id (tool_content result))
  else
    let* _ := printed [method] in
    ret (rpc_error id (-32601) (lit "Method not found: " ++ tpl method)).

End Dispatcher.

End Gateway.

(** ** The other tool handlers *)

Module Tools.
Import Gateway.

(** An object literal inherits the properties of [Object.prototype]
    ([constructor], [toString], [__proto__] and the like).  Their values are
    functions and objects, which the gateway only tests for truth and
    prints: [Object_prototype key] is the value that stands for the property
    called [key], and is [VUndefined] where [Object.prototype] has none. *)
Class Prototype := {
  Object_prototype : jsstring -> value;
}.

(** The UTF-16 units of a code point beyond the basic plane. *)
Definition astral (cp : N) : jsstring :=
  [(55296 + (cp - 65536) / 1024)%N; (56320 + (cp - 65536) mod 1024)%N].

Definition is_high_surrogate (x : N) : bool := ((55296 <=? x) && (x <=? 56319))%N.
Definition is_low_surrogate (x : N) : bool := ((56320 <=? x) && (x <=? 57343))%N.

(** The elements that iterating over a string yields: its code points. *)
Fixpoint code_points (s : jsstring) : list jsstring :=
  match s with
  | [] => []
  | x :: s' =>
      match s' with
      | y :: s'' =>
          if is_high_surrogate x && is_low_surrogate y
          then [x; y] :: code_points s''
          else [x] :: code_points s'
      | [] => [[x]]
      end
  end.

(** [sep]-separated concatenation. *)
Fixpoint join (sep : jsstring) (parts : list jsstring) : jsstring :=
  match parts with
  | [] => []
  | [p] => p
  | p :: parts' => p ++ sep ++ join sep parts'
  end.

Section Handlers.
Context {R : Runtime} {C : Config} {P : Prototype}.

(** [table[key]] for an object literal [table]. *)
Definition table_get (table : list (jsstring * value)) (key : value) : value :=
  match lookup_prop (tpl key) table with
  | VUndefined => Object_prototype (tpl key)
  | v => v
  end.

(** The elements of [[...v]]. *)
Definition iterate (v : value) : M (list value) :=
  match v with
  | VArr items => ret items
  | VStr s => ret (map VStr (code_points s))
  | _ => throw (lit "object is not iterable")
  end.

(** [items.join(sep)] *)
Definition join_values (sep : jsstring) (items : list value) : jsstring :=
  join sep (map (fun v => if nullish v then [] else tpl v) items).

(** [`${v?.toFixed(digits)}`] *)
Definition opt_fixed (v : value) (digits : nat) : M jsstring :=
  if nullish v then ret (lit "undefined") else to_fixed v digits.

(** [items.map(f)] for an [f] that may throw. *)
Fixpoint map_m {A B} (f : A -> M B) (items : list A) : M (list B) :=
  match items with
  | [] => ret []
  | a :: items' =>
      let* b := f a in
      let* bs := map_m f items' in
      ret (b :: bs)
  end.

(** [new Date().toISOString()] *)
Definition timestamp : M jsstring :=
  let* t := now in ret (toISOString t).

Definition plain_text (s : jsstring) : value :=
  VObj [(lit "type", vstr "plain_text"); (lit "text", VStr s)].

(** *** Action handlers *)

Definition severityEmoji : list (jsstring * value) :=
  [(lit "P1", VStr (astral 0x1F534)); (lit "P2", VStr (astral 0x1F7E0));
   (lit "P3", VStr (astral 0x1F7E1))].

(** [sendTelegramAlert] *)
Definition sendTelegramAlert (params : value) : M value :=
  let* severity := prop params "severity" in
  let* _ := printed [severity] in
  let emoji := or_else (table_get severityEmoji severity) (VStr [0x26AA%N]) in
  let* title := escapeHtml (get params (lit "title")) in
  let* _ := printed [get params (lit "service")] in
  let* root_cause := escapeHtml (get params (lit "root_cause")) in
  let* action :=
    if truthy (get params (lit "recommended_action"))
    then
      let* recommended := escapeHtml (get params (lit "recommended_action")) in
      ret (nl ++ lit "<b>Action:</b>" ++ nl ++ recommended)
    else ret [] in
  let text :=
    tpl emoji ++ lit " <b>" ++ tpl severity ++ lit " Incident: " ++ title
    ++ lit "</b>" ++ nl ++ nl
    ++ lit "<b>Service:</b> <code>" ++ tpl (get params (lit "service"))
    ++ lit "</code>" ++ nl
    ++ lit "<b>Root Cause:</b> " ++ root_cause ++ nl
    ++ action
    ++ nl ++ nl ++ lit "<i>Apollo SRE Agent</i>" in
  let* result := sendTelegram (VStr TELEGRAM_CHAT_ID) text [] in
  if truthy (get result (lit "success"))
  then ret (VObj [(lit "success", VBool true);
                  (lit "message", vstr "Telegram alert sent to on-call team")])
  else ret result.

Definition INCIDENTS_DATA_VIEW_ID : jsstring :=
  lit "7e8a9953-7396-4d10-986a-e3ce749874fe".

Definition incident_request (doc : value) : request :=
  {| req_url := ELASTIC_URL ++ lit "/incidents/_doc";
     req_method := lit "POST";
     req_headers := elastic_headers;
     req_body := doc |}.

Definition incident_link (docId : value) : jsstring :=
  KIBANA_URL
  ++ lit "/app/discover#/?_a=(dataSource:(dataViewId:'"
  ++ INCIDENTS_DATA_VIEW_ID
  ++ lit "',type:dataView),filters:!((query:(match_phrase:(_id:'"
  ++ tpl docId
  ++ lit "')))))&_g=(time:(from:now-24h,to:now))".

(** The [doc] of [createIncidentRecord], for the time stamp and the tags
    that it was given. *)
Definition incident_doc (params : value) (stamp : jsstring)
    (tags : list value) : value :=
  VObj [(lit "@timestamp", VStr stamp);
        (lit "title", get params (lit "title"));
        (lit "severity", get params (lit "severity"));
        (lit "service", get params (lit "service"));
        (lit "root_cause", get params (lit "root_cause"));
        (lit "resolution",
         or_else (get params (lit "resolution")) (vstr "Pending resolution"));
        (lit "triggered_by",
         or_else (get params (lit "triggered_by")) (vstr "apollo-agent"));
        (lit "status", vstr "investigating");
        (lit "tags",
         VArr (tags ++ [vstr "apollo-created"; vstr "auto-detected"]));
        (lit "duration_minutes", num 0)].

Definition incident_notice (title : jsstring) (severity service : value)
    (kibanaLink : value) : jsstring :=
  astral 0x1F4DD ++ lit " <b>Incident Record Created</b>" ++ nl ++ nl
  ++ lit "<b>" ++ title ++ lit "</b>" ++ nl
  ++ lit "<b>Severity:</b> " ++ tpl severity
  ++ lit "  |  <b>Service:</b> <code>" ++ tpl service ++ lit "</code>"
  ++ (if truthy kibanaLink
      then nl ++ nl ++ lit "<a href=" ++ dquote ++ tpl kibanaLink ++ dquote
           ++ lit ">View in Kibana</a>"
      else []).

(** [createIncidentRecord] *)
Definition createIncidentRecord (params : value) : M value :=
  let* stamp := timestamp in
  let* title := prop params "title" in
  let severity := get params (lit "severity") in
  let service := get params (lit "service") in
  let* tags := iterate (or_else (get params (lit "tags")) (VArr [])) in
  let doc := incident_doc params stamp tags in
  if negb (configured ELASTIC_URL) || negb (configured ELASTIC_API_KEY)
  then ret (VObj [(lit "success", VBool true);
                  (lit "message", vstr "Incident record created (simulated)");
                  (lit "document", doc)])
  else
    let* res := do_fetch (incident_request doc) in
    if negb (res_ok res)
    then ret (VObj [(lit "success", VBool false);
                    (lit "error",
                     VStr (lit "Elasticsearch: " ++ res_text res))])
    else
      let* result := json_of res in
      let* docId := prop result "_id" in
      let* kibanaLink :=
        if configured KIBANA_URL
        then
          let* _ := printed [docId] in
          ret (VStr (incident_link docId))
        else ret VNull in
      let* _ :=
        if configured TELEGRAM_BOT_TOKEN && configured TELEGRAM_CHAT_ID
        then
          let* escaped := escapeHtml title in
          let* _ := printed [severity; service] in
          let* _ :=
            sendTelegram (VStr TELEGRAM_CHAT_ID)
              (incident_notice escaped severity service kibanaLink) [] in
          ret tt
        else ret tt in
      ret (VObj [(lit "success", VBool true);
                 (lit "message", vstr "Incident record created");
                 (lit "document_id", docId);
                 (lit "kibana_link", kibanaLink);
                 (lit "view_url", kibanaLink)]).

(** [recommendRollback] *)
Definition recommendRollback (params : value) : M value :=
  let* stamp := timestamp in
  let* service := prop params "service" in
  let current_version := get params (lit "current_version") in
  let target_version := get params (lit "target_version") in
  let reason := get params (lit "reason") in
  let* _ := printed [service] in
  let command := lit "kubectl rollout undo deployment/" ++ tpl service in
  let recommendation :=
    VObj [(lit "timestamp", VStr stamp);
          (lit "service", service);
          (lit "from_version", current_version);
          (lit "to_version", target_version);
          (lit "reason", reason);
          (lit "command", VStr command)] in
  let* _ := printed [current_version; target_version] in
  let* escaped := escapeHtml reason in
  let* _ :=
    sendTelegram (VStr TELEGRAM_CHAT_ID)
      ([0x26A0%N; 0xFE0F%N] ++ lit " <b>ROLLBACK RECOMMENDED</b>" ++ nl ++ nl
       ++ lit "<b>Service:</b> <code>" ++ tpl service ++ lit "</code>" ++ nl
       ++ lit "<b>From:</b> <code>" ++ tpl current_version
       ++ lit "</code>  " ++ [0x27A1%N] ++ lit "  <code>"
       ++ tpl target_version ++ lit "</code>" ++ nl ++ nl
       ++ lit "<b>Reason:</b> " ++ escaped ++ nl ++ nl
       ++ lit "<b>Command:</b>" ++ nl
       ++ lit "<code>" ++ command ++ lit "</code>" ++ nl ++ nl
       ++ lit "<i>Apollo SRE Agent</i>") [] in
  ret (VObj [(lit "success", VBool true);
             (lit "message",
              VStr (lit "Rollback recommended: " ++ tpl service ++ lit " "
                    ++ tpl current_version ++ lit " -> "
                    ++ tpl target_version ++ lit ". Team notified."));
             (lit "recommendation", recommendation)]).

Definition severityColor : list (jsstring * value) :=
  [(lit "P1", vstr "#FF0000"); (lit "P2", vstr "#FF8C00");
   (lit "P3", vstr "#FFD700")].

Definition slack_request (body : value) : request :=
  {| req_url := SLACK_WEBHOOK_URL;
     req_method := lit "POST";
     req_headers := json_headers;
     req_body := body |}.

Definition section_block (text : jsstring) : value :=
  VObj [(lit "type", vstr "section"); (lit "text", mrkdwn text)].

(** The [blocks] of [sendSlackNotification], pushes included. *)
Definition incident_blocks (params : value) : list value :=
  let severity := get params (lit "severity") in
  [VObj [(lit "type", vstr "header");
         (lit "text",
          plain_text (tpl severity ++ lit " Incident: "
                      ++ tpl (get params (lit "title"))))];
   VObj [(lit "type", vstr "section");
         (lit "fields", VArr
           [mrkdwn (lit "*Service:*" ++ nl ++ lit "`"
                    ++ tpl (get params (lit "service")) ++ lit "`");
            mrkdwn (lit "*Severity:*" ++ nl ++ tpl severity)])];
   section_block (lit "*Root Cause:*" ++ nl
                  ++ tpl (get params (lit "root_cause")))]
  ++ (if truthy (get params (lit "recommended_action"))
      then [section_block (lit "*Recommended Action:*" ++ nl
                           ++ tpl (get params (lit "recommended_action")))]
      else [])
  ++ (if truthy (get params (lit "kibana_link"))
      then [VObj [(lit "type", vstr "actions");
                  (lit "elements", VArr
                    [VObj [(lit "type", vstr "button");
                           (lit "text", plain_text (lit "View in Kibana"));
                           (lit "url", get params (lit "kibana_link"));
                           (lit "style", vstr "primary")]])]]
      else [])
  ++ [VObj [(lit "type", vstr "context");
            (lit "elements",
             VArr [mrkdwn (lit "Detected by Apollo SRE Agent")])]].

(** [sendSlackNotification] *)
Definition sendSlackNotification (params : value) : M value :=
  if negb (configured SLACK_WEBHOOK_URL)
  then ret (VObj [(lit "success", VBool true);
                  (lit "message",
                   vstr "Slack not configured (would send in production)")])
  else
    let* severity := prop params "severity" in
    let* _ :=
      printed ([severity; get params (lit "title");
                get params (lit "service"); get params (lit "root_cause")]
               ++ (if truthy (get params (lit "recommended_action"))
                   then [get params (lit "recommended_action")]
                   else [])) in
    let blocks := incident_blocks params in
    let* res := do_fetch (slack_request
      (VObj [(lit "attachments", VArr [VObj
         [(lit "color",
           or_else (table_get severityColor severity) (vstr "#808080"));
          (lit "blocks", VArr blocks)]])])) in
    if negb (res_ok res)
    then ret (VObj [(lit "success", VBool false);
                    (lit "error", VStr (lit "Slack: " ++ res_text res))])
    else ret (VObj [(lit "success", VBool true);
                    (lit "message",
                     vstr "Slack notification sent to #apollo")]).

(** *** Tickets, pages, postmortems, status updates and issues *)

(** [Math.random()] *)
Definition random : M Q :=
  fun st =>
    let (r, w) := Math_random (outside st) in
    (Returned r, {| conversationMap := conversationMap st;
                    outside := w;
                    sent := sent st |}).

(** The receiver of [v.name(...)] for a method [name] of strings: the call
    throws unless [v] is a string. *)
Definition string_receiver (v : value) (name : string) : M jsstring :=
  match v with
  | VStr s => ret s
  | _ =>
      let* _ := prop v name in
      throw (lit name ++ lit " is not a function")
  end.

(** [v.join(sep)], which throws unless [v] is a list, and when an element
    cannot be printed. *)
Definition join_of (v : value) (sep : jsstring) : M jsstring :=
  match v with
  | VArr items =>
      let* _ := printed items in
      ret (join_values sep items)
  | _ =>
      let* _ := prop v "join" in
      throw (lit "join is not a function")
  end.

Definition digit36 (d : N) : N :=
  if (d <? 10)%N then (48 + d)%N else (55 + d)%N.

Fixpoint base36_digits (fuel : nat) (n : N) (acc : jsstring) : jsstring :=
  match fuel with
  | O => acc
  | S fuel' =>
      let acc' := digit36 (n mod 36) :: acc in
      if (n / 36 =? 0)%N then acc' else base36_digits fuel' (n / 36) acc'
  end.

(** [t.toString(36).toUpperCase()] for an integer [t]. *)
Definition base36_upper (t : Z) : jsstring :=
  (if t <? 0 then lit "-" else [])
  ++ base36_digits (S (N.size_nat (Z.abs_N t))) (Z.abs_N t) [].

Definition header_block (text : jsstring) : value :=
  VObj [(lit "type", vstr "header"); (lit "text", plain_text text)].

Definition fields_block (fields : list jsstring) : value :=
  VObj [(lit "type", vstr "section");
        (lit "fields", VArr (map mrkdwn fields))].

Definition context_block (text : jsstring) : value :=
  VObj [(lit "type", vstr "context");
        (lit "elements", VArr [mrkdwn text])].

Definition attachment (color : value) (blocks : list value) : value :=
  VObj [(lit "attachments",
         VArr [VObj [(lit "color", color); (lit "blocks", VArr blocks)]])].

(** The [notifications] of a result. *)
Definition channels (more : list (jsstring * value)) : value :=
  VObj ([(lit "slack", VBool (configured SLACK_WEBHOOK_URL));
         (lit "telegram", VBool (configured TELEGRAM_BOT_TOKEN))] ++ more).

Definition priorityMap : list (jsstring * value) :=
  [(lit "P1", vstr "Highest"); (lit "P2", vstr "High");
   (lit "P3", vstr "Medium")].

Definition jira_request (doc : value) : request :=
  {| req_url := ELASTIC_URL ++ lit "/jira-tickets/_doc";
     req_method := lit "POST";
     req_headers := elastic_headers;
     req_body := doc |}.

(** [createJiraTicket].  What the tables give for a name is printed as it
    is: the properties of [Object.prototype] can all be printed. *)
Definition createJiraTicket (params : value) : M value :=
  let* project := prop params "project" in
  let* _ := printed [project] in
  let* r := random in
  let ticketKey :=
    tpl project ++ lit "-" ++ tpl (num (Qfloor (r * 9000) + 1000)) in
  let title := get params (lit "title") in
  let severity := get params (lit "severity") in
  let service := get params (lit "service") in
  let* _ := printed [severity] in
  let priority := table_get priorityMap severity in
  let assignee := or_else (get params (lit "assignee")) (vstr "Unassigned") in
  let* created_at := timestamp in
  let remediation_steps :=
    or_else (get params (lit "remediation_steps"))
      (vstr "See incident record for details") in
  let* _ := printed [service; get params (lit "root_cause");
                     remediation_steps] in
  let url := lit "https://yourcompany.atlassian.net/browse/" ++ ticketKey in
  let ticket :=
    [(lit "key", VStr ticketKey);
     (lit "project", project);
     (lit "type", vstr "Incident");
     (lit "priority", or_else priority (vstr "Medium"));
     (lit "title", title);
     (lit "severity", severity);
     (lit "service", service);
     (lit "status", vstr "Open");
     (lit "assignee", assignee);
     (lit "created_at", VStr created_at);
     (lit "created_by", vstr "Apollo SRE Agent");
     (lit "description",
      VStr (join_values nl
              [vstr "## Root Cause";
               get params (lit "root_cause");
               VStr [];
               vstr "## Affected Service";
               VStr (lit "`" ++ tpl service ++ lit "`");
               VStr [];
               vstr "## Remediation Steps";
               remediation_steps;
               VStr [];
               vstr "## Severity";
               VStr (tpl severity ++ lit " - " ++ tpl priority);
               VStr [];
               vstr "---";
               vstr "*Auto-created by Apollo SRE Agent*"]));
     (lit "url", VStr url)] in
  let* _ :=
    if configured ELASTIC_URL && configured ELASTIC_API_KEY
    then
      let* stamp := timestamp in
      let* _ := do_fetch (jira_request
                            (VObj ((lit "@timestamp", VStr stamp) :: ticket))) in
      ret tt
    else ret tt in
  let* _ :=
    if configured SLACK_WEBHOOK_URL
    then
      let* _ := printed [title; assignee] in
      let* _ := do_fetch (slack_request (attachment (vstr "#0052CC")
        [header_block (lit "Jira Ticket Created: " ++ ticketKey);
         fields_block
           [lit "*Title:*" ++ nl ++ tpl title;
            lit "*Priority:*" ++ nl ++ tpl severity ++ lit " ("
            ++ tpl priority ++ lit ")"];
         section_block (lit "*Service:* `" ++ tpl service
                        ++ lit "` | *Assignee:* " ++ tpl assignee);
         context_block (lit "Created by Apollo SRE Agent")])) in
      ret tt
    else ret tt in
  let* escaped := escapeHtml title in
  let* _ := printed [assignee] in
  let* _ :=
    sendTelegram (VStr TELEGRAM_CHAT_ID)
      (astral 0x1F3AB ++ lit " <b>Jira Ticket Created</b>" ++ nl ++ nl
       ++ lit "<b>" ++ ticketKey ++ lit ":</b> " ++ escaped ++ nl
       ++ lit "<b>Priority:</b> " ++ tpl severity ++ lit " ("
       ++ tpl priority ++ lit ")" ++ nl
       ++ lit "<b>Service:</b> <code>" ++ tpl service ++ lit "</code>" ++ nl
       ++ lit "<b>Assignee:</b> " ++ tpl assignee ++ nl ++ nl
       ++ lit "<i>Apollo SRE Agent</i>") [] in
  ret (VObj [(lit "success", VBool true);
             (lit "message",
              VStr (lit "Jira ticket " ++ ticketKey ++ lit " created"));
             (lit "ticket_key", VStr ticketKey);
             (lit "url", VStr url);
             (lit "priority", priority);
             (lit "notifications", channels [])]).

Definition severityMap : list (jsstring * value) :=
  [(lit "P1", vstr "critical"); (lit "P2", vstr "error");
   (lit "P3", vstr "warning")].

(** The [severityEmoji] of [createPagerDutyIncident]. *)
Definition severityEmoji_names : list (jsstring * value) :=
  [(lit "P1", vstr ":rotating_light:"); (lit "P2", vstr ":warning:");
   (lit "P3", vstr ":large_yellow_circle:")].

Definition pagerduty_request (doc : value) : request :=
  {| req_url := ELASTIC_URL ++ lit "/pagerduty-incidents/_doc";
     req_method := lit "POST";
     req_headers := elastic_headers;
     req_body := doc |}.

(** [createPagerDutyIncident] *)
Definition createPagerDutyIncident (params : value) : M value :=
  let* t := now in
  let incidentId := lit "PD-" ++ base36_upper t in
  let* title := prop params "title" in
  let severity := get params (lit "severity") in
  let service := get params (lit "service") in
  let* _ := printed [severity] in
  let level := table_get severityMap severity in
  let escalation_policy :=
    or_else (get params (lit "escalation_policy")) (vstr "default") in
  let* created_at := timestamp in
  let url := lit "https://yourcompany.pagerduty.com/incidents/"
             ++ incidentId in
  let incident :=
    [(lit "id", VStr incidentId);
     (lit "title", title);
     (lit "severity", or_else level (vstr "warning"));
     (lit "service", service);
     (lit "status", vstr "triggered");
     (lit "escalation_policy", escalation_policy);
     (lit "root_cause", get params (lit "root_cause"));
     (lit "recommended_action",
      or_else (get params (lit "recommended_action"))
        (vstr "See Apollo investigation for details"));
     (lit "created_at", VStr created_at);
     (lit "created_by", vstr "Apollo SRE Agent");
     (lit "url", VStr url)] in
  let* _ :=
    if configured ELASTIC_URL && configured ELASTIC_API_KEY
    then
      let* stamp := timestamp in
      let* _ := do_fetch (pagerduty_request
                            (VObj ((lit "@timestamp", VStr stamp)
                                   :: incident))) in
      ret tt
    else ret tt in
  let* _ :=
    if configured SLACK_WEBHOOK_URL
    then
      let* _ := printed [title; service; escalation_policy] in
      let* _ := do_fetch (slack_request (attachment
        (if equals severity "P1" then vstr "#FF0000"
         else if equals severity "P2" then vstr "#FF8C00"
         else vstr "#FFD700")
        [header_block
           (tpl (or_else (table_get severityEmoji_names severity) (VStr []))
            ++ lit " PagerDuty Incident: " ++ tpl title);
         fields_block
           [lit "*Severity:*" ++ nl ++ tpl severity ++ lit " ("
            ++ tpl level ++ lit ")";
            lit "*Service:*" ++ nl ++ lit "`" ++ tpl service ++ lit "`"];
         section_block (lit "*On-Call Paged:* Escalation policy `"
                        ++ tpl escalation_policy ++ lit "`");
         context_block (lit "Incident " ++ incidentId
                        ++ lit " | Created by Apollo SRE Agent")])) in
      ret tt
    else ret tt in
  let* escaped := escapeHtml title in
  let* _ := printed [service; escalation_policy] in
  let* _ :=
    sendTelegram (VStr TELEGRAM_CHAT_ID)
      (astral 0x1F6A8 ++ lit " <b>PagerDuty Incident Created</b>" ++ nl ++ nl
       ++ lit "<b>" ++ escaped ++ lit "</b>" ++ nl
       ++ lit "<b>Severity:</b> " ++ tpl severity ++ lit " ("
       ++ tpl level ++ lit ")" ++ nl
       ++ lit "<b>Service:</b> <code>" ++ tpl service ++ lit "</code>" ++ nl
       ++ lit "<b>Escalation:</b> " ++ tpl escalation_policy ++ nl
       ++ lit "<b>Status:</b> TRIGGERED -- On-call paged" ++ nl ++ nl
       ++ lit "<i>Apollo SRE Agent</i>") [] in
  ret (VObj [(lit "success", VBool true);
             (lit "message",
              VStr (lit "PagerDuty incident " ++ incidentId
                    ++ lit " created. On-call engineer paged via '"
                    ++ tpl escalation_policy ++ lit "' policy."));
             (lit "incident_id", VStr incidentId);
             (lit "severity", level);
             (lit "url", VStr url);
             (lit "notifications",
              channels [(lit "pagerduty", VBool true)])]).

Definition postmortem_request (doc : value) : request :=
  {| req_url := ELASTIC_URL ++ lit "/postmortems/_doc";
     req_method := lit "POST";
     req_headers := elastic_headers;
     req_body := doc |}.

Definition postmortem_link (docId : value) : jsstring :=
  KIBANA_URL
  ++ lit "/app/discover#/?_a=(dataSource:(type:dataView),query:(query_string:(query:'_id:"
  ++ tpl docId
  ++ lit "')))&_g=(time:(from:now-7d,to:now))".

Definition to_be_determined : value :=
  vstr "To be determined in follow-up review".

Definition open_item : value :=
  vstr "- [ ] To be determined in follow-up review".

(** [generatePostmortem] *)
Definition generatePostmortem (params : value) : M value :=
  let* stamp := timestamp in
  let* incident_title := prop params "incident_title" in
  let severity := get params (lit "severity") in
  let service := get params (lit "service") in
  let started_at := or_else (get params (lit "started_at")) (vstr "Unknown") in
  let* detected_at :=
    if truthy (get params (lit "detected_at"))
    then ret (get params (lit "detected_at"))
    else let* t := timestamp in ret (VStr t) in
  let resolved_at := or_else (get params (lit "resolved_at")) (vstr "Ongoing") in
  let root_cause := get params (lit "root_cause") in
  let impact := get params (lit "impact") in
  let remediation := get params (lit "remediation") in
  let timeline := get params (lit "timeline") in
  let preventive_measures := get params (lit "preventive_measures") in
  let lessons_learned := get params (lit "lessons_learned") in
  let* _ := printed [incident_title; severity; service] in
  let* generated := timestamp in
  let* _ := printed [started_at; get params (lit "detected_at"); resolved_at;
                     timeline; root_cause; impact; remediation;
                     preventive_measures; lessons_learned] in
  let postmortem :=
    VObj
      [(lit "@timestamp", VStr stamp);
       (lit "type", vstr "postmortem");
       (lit "incident_title", incident_title);
       (lit "severity", severity);
       (lit "service", service);
       (lit "started_at", started_at);
       (lit "detected_at", detected_at);
       (lit "resolved_at", resolved_at);
       (lit "root_cause", root_cause);
       (lit "impact", impact);
       (lit "timeline",
        or_else timeline (vstr "See incident record for detailed timeline"));
       (lit "remediation", remediation);
       (lit "preventive_measures", or_else preventive_measures to_be_determined);
       (lit "lessons_learned", or_else lessons_learned to_be_determined);
       (lit "generated_by", vstr "Apollo SRE Agent");
       (lit "status", vstr "draft");
       (lit "document",
        VStr (join_values nl
                [VStr (lit "# Postmortem: " ++ tpl incident_title);
                 VStr [];
                 VStr (lit "**Severity:** " ++ tpl severity
                       ++ lit " | **Service:** " ++ tpl service);
                 VStr (lit "**Generated:** " ++ generated
                       ++ lit " by Apollo SRE Agent");
                 VStr [];
                 vstr "## Timeline";
                 VStr (lit "- **Started:** " ++ tpl started_at);
                 VStr (lit "- **Detected:** "
                       ++ tpl (or_else (get params (lit "detected_at"))
                                 (vstr "Auto-detected by Apollo")));
                 VStr (lit "- **Resolved:** " ++ tpl resolved_at);
                 VStr (if truthy timeline then nl ++ tpl timeline else []);
                 VStr [];
                 vstr "## Root Cause";
                 root_cause;
                 VStr [];
                 vstr "## Impact";
                 impact;
                 VStr [];
                 vstr "## Remediation";
                 remediation;
                 VStr [];
                 vstr "## Preventive Measures";
                 or_else preventive_measures open_item;
                 VStr [];
                 vstr "## Lessons Learned";
                 or_else lessons_learned open_item;
                 VStr [];
                 vstr "---";
                 vstr "*Auto-generated by Apollo SRE Agent. Review and finalize with your team.*"]))] in
  let* stored :=
    if configured ELASTIC_URL && configured ELASTIC_API_KEY
    then
      let* res := do_fetch (postmortem_request postmortem) in
      if res_ok res
      then
        let* result := json_of res in
        let* docId := prop result "_id" in
        if configured KIBANA_URL
        then
          let* _ := printed [docId] in
          ret (docId, VStr (postmortem_link docId))
        else ret (docId, VNull)
      else ret (VNull, VNull)
    else ret (VNull, VNull) in
  let docId := stored.1 in
  let kibanaLink := stored.2 in
  let* _ :=
    if configured SLACK_WEBHOOK_URL
    then
      let* cause := string_receiver root_cause "substring" in
      let* effect := string_receiver impact "substring" in
      let* remedy := string_receiver remediation "substring" in
      let* _ := do_fetch (slack_request (attachment (vstr "#6B46C1")
        [header_block (lit "Postmortem: " ++ tpl incident_title);
         fields_block
           [lit "*Severity:*" ++ nl ++ tpl severity;
            lit "*Service:*" ++ nl ++ lit "`" ++ tpl service ++ lit "`"];
         section_block (lit "*Root Cause:*" ++ nl ++ substring cause 0 500);
         section_block (lit "*Impact:*" ++ nl ++ substring effect 0 500);
         section_block (lit "*Remediation:*" ++ nl ++ substring remedy 0 500);
         context_block (lit "Auto-generated by Apollo SRE Agent | Status: Draft -- review with your team")])) in
      ret tt
    else ret tt in
  let* escaped := escapeHtml incident_title in
  let* cause := string_receiver root_cause "substring" in
  let* escaped_cause := escapeHtml (VStr (substring cause 0 300)) in
  let* effect := string_receiver impact "substring" in
  let* escaped_impact := escapeHtml (VStr (substring effect 0 300)) in
  let* _ :=
    sendTelegram (VStr TELEGRAM_CHAT_ID)
      (astral 0x1F4CB ++ lit " <b>Postmortem Generated</b>" ++ nl ++ nl
       ++ lit "<b>" ++ escaped ++ lit "</b>" ++ nl
       ++ lit "<b>Severity:</b> " ++ tpl severity
       ++ lit " | <b>Service:</b> <code>" ++ tpl service ++ lit "</code>"
       ++ nl ++ nl
       ++ lit "<b>Root Cause:</b> " ++ escaped_cause ++ nl
       ++ lit "<b>Impact:</b> " ++ escaped_impact ++ nl ++ nl
       ++ (if truthy kibanaLink
           then lit "<a href=" ++ dquote ++ tpl kibanaLink ++ dquote
                ++ lit ">View in Kibana</a>" ++ nl ++ nl
           else [])
       ++ lit "<i>Apollo SRE Agent -- Auto-generated postmortem</i>") [] in
  ret (VObj [(lit "success", VBool true);
             (lit "message",
              vstr "Postmortem generated and indexed in Elasticsearch");
             (lit "document_id", docId);
             (lit "kibana_link", kibanaLink);
             (lit "sections",
              VArr [vstr "timeline"; vstr "root_cause"; vstr "impact";
                    vstr "remediation"; vstr "preventive_measures";
                    vstr "lessons_learned"]);
             (lit "notifications", channels [])]).

Definition statusEmoji : list (jsstring * value) :=
  [(lit "investigating", VStr (astral 0x1F50D));
   (lit "identified", VStr (astral 0x1F3AF));
   (lit "monitoring", VStr (astral 0x1F4CA));
   (lit "resolved", VStr [0x2705%N])].

Definition statusColor : list (jsstring * value) :=
  [(lit "investigating", vstr "#FF0000");
   (lit "identified", vstr "#FF8C00");
   (lit "monitoring", vstr "#FFD700");
   (lit "resolved", vstr "#00AA00")].

Definition status_request (doc : value) : request :=
  {| req_url := ELASTIC_URL ++ lit "/status-page/_doc";
     req_method := lit "POST";
     req_headers := elastic_headers;
     req_body := doc |}.

(** [updateStatusPage] *)
Definition updateStatusPage (params : value) : M value :=
  let* stamp := timestamp in
  let* service := prop params "service" in
  let status := get params (lit "status") in
  let title := get params (lit "title") in
  let message := get params (lit "message") in
  let affected_components :=
    or_else (get params (lit "affected_components")) (VArr [service]) in
  let is_customer_facing := get params (lit "is_customer_facing") in
  let update :=
    VObj [(lit "@timestamp", VStr stamp);
          (lit "type", vstr "status_update");
          (lit "service", service);
          (lit "status", status);
          (lit "title", title);
          (lit "message", message);
          (lit "affected_components", affected_components);
          (lit "is_customer_facing",
           or_else is_customer_facing (VBool false));
          (lit "updated_by", vstr "Apollo SRE Agent")] in
  let* _ :=
    if configured ELASTIC_URL && configured ELASTIC_API_KEY
    then
      let* _ := do_fetch (status_request update) in
      ret tt
    else ret tt in
  let* _ :=
    if configured SLACK_WEBHOOK_URL
    then
      let* _ := printed [status] in
      let emoji := or_else (table_get statusEmoji status)
                     (vstr ":information_source:") in
      let* _ := printed [title; service] in
      let* shown := string_receiver status "toUpperCase" in
      let* components := join_of affected_components (lit ", ") in
      let* _ := do_fetch (slack_request (attachment
        (or_else (table_get statusColor status) (vstr "#808080"))
        ([header_block (tpl emoji ++ lit " Status Update: " ++ tpl title);
          fields_block
            [lit "*Service:*" ++ nl ++ lit "`" ++ tpl service ++ lit "`";
             lit "*Status:*" ++ nl ++ toUpperCase shown];
          VObj [(lit "type", vstr "section");
                (lit "text",
                 VObj [(lit "type", vstr "mrkdwn");
                       (lit "text", message)])]]
         ++ (if truthy is_customer_facing
             then [section_block (lit ":warning: *Customer-facing incident*")]
             else [])
         ++ [context_block (lit "Components: " ++ components
                            ++ lit " | Apollo SRE Agent")]))) in
      ret tt
    else ret tt in
  let* _ := printed [status] in
  let emoji := or_else (table_get statusEmoji status)
                 (VStr [0x2139%N; 0xFE0F%N]) in
  let* escaped := escapeHtml title in
  let* _ := printed [service] in
  let* shown := string_receiver status "toUpperCase" in
  let* escaped_message := escapeHtml message in
  let* _ :=
    sendTelegram (VStr TELEGRAM_CHAT_ID)
      (tpl emoji ++ lit " <b>Status Page Update</b>" ++ nl ++ nl
       ++ lit "<b>" ++ escaped ++ lit "</b>" ++ nl
       ++ lit "<b>Service:</b> <code>" ++ tpl service ++ lit "</code>" ++ nl
       ++ lit "<b>Status:</b> " ++ toUpperCase shown ++ nl
       ++ (if truthy is_customer_facing
           then [0x26A0%N; 0xFE0F%N] ++ lit " <b>Customer-facing</b>" ++ nl
           else [])
       ++ nl ++ escaped_message ++ nl ++ nl
       ++ lit "<i>Apollo SRE Agent</i>") [] in
  ret (VObj [(lit "success", VBool true);
             (lit "message",
              VStr (lit "Status page updated: " ++ tpl service ++ lit " -> "
                    ++ toUpperCase shown));
             (lit "status", status);
             (lit "customer_facing",
              or_else is_customer_facing (VBool false));
             (lit "notifications", channels [])]).

Definition severityLabel : list (jsstring * value) :=
  [(lit "P1", vstr "P1-critical"); (lit "P2", vstr "P2-high");
   (lit "P3", vstr "P3-medium")].

Definition github_headers : list (jsstring * jsstring) :=
  [(lit "Authorization", lit "Bearer " ++ GITHUB_TOKEN);
   (lit "Accept", lit "application/vnd.github.v3+json");
   (lit "Content-Type", lit "application/json")].

Definition label_request (label color : value) : request :=
  {| req_url := lit "https://api.github.com/repos/" ++ GITHUB_REPO
                ++ lit "/labels";
     req_method := lit "POST";
     req_headers := github_headers;
     req_body := VObj [(lit "name", label); (lit "color", color)] |}.

Definition issue_request (doc : value) : request :=
  {| req_url := lit "https://api.github.com/repos/" ++ GITHUB_REPO
                ++ lit "/issues";
     req_method := lit "POST";
     req_headers := github_headers;
     req_body := doc |}.

(** The body of the loop over the labels: whatever it throws is dropped. *)
Definition ensure_label (label : value) : M unit :=
  try_catch
    (let* name := string_receiver label "startsWith" in
     let color :=
       if starts_with (lit "P1") name then vstr "FF0000"
       else if starts_with (lit "P2") name then vstr "FF8C00"
       else if starts_with (lit "P3") name then vstr "FFD700"
       else vstr "0E8A16" in
     let* _ := do_fetch (label_request label color) in
     ret tt)
    (fun _ => ret tt).

Fixpoint ensure_labels (labels : list value) : M unit :=
  match labels with
  | [] => ret tt
  | label :: labels' =>
      let* _ := ensure_label label in
      ensure_labels labels'
  end.

(** The text of the issue. *)
Definition issue_body (params : value) (created : jsstring) : jsstring :=
  let severity := get params (lit "severity") in
  let service := get params (lit "service") in
  join_values nl
    [VStr (lit "## "
           ++ tpl (or_else (table_get severityEmoji severity) (VStr []))
           ++ lit " " ++ tpl severity ++ lit " Incident: " ++ tpl service);
     VStr [];
     vstr "### Root Cause";
     get params (lit "root_cause");
     VStr [];
     vstr "### Impact";
     or_else (get params (lit "impact"))
       (vstr "See incident record for details");
     VStr [];
     vstr "### Remediation Steps";
     or_else (get params (lit "remediation_steps"))
       (vstr "See runbook for details");
     VStr [];
     vstr "### Details";
     VStr (lit "- **Service:** `" ++ tpl service ++ lit "`");
     VStr (lit "- **Severity:** " ++ tpl severity);
     vstr "- **Created by:** Apollo SRE Agent";
     VStr (lit "- **Created at:** " ++ created);
     VStr [];
     vstr "---";
     VStr [];
     vstr "### For Coding Agents (Copilot, Cursor, Claude, etc.)";
     VStr [];
     vstr "Connect to Apollo MCP for live production context while fixing this issue:";
     VStr [];
     vstr "```json";
     vstr "{";
     VStr (lit "  " ++ dquote ++ lit "mcpServers" ++ dquote ++ lit ": {");
     VStr (lit "    " ++ dquote ++ lit "apollo-sre" ++ dquote ++ lit ": {");
     VStr (lit "      " ++ dquote ++ lit "url" ++ dquote ++ lit ": " ++ dquote
           ++ lit "https://mcp.doctusai.com/mcp" ++ dquote ++ lit ",");
     VStr (lit "      " ++ dquote ++ lit "transport" ++ dquote ++ lit ": "
           ++ dquote ++ lit "http" ++ dquote);
     vstr "    }";
     vstr "  }";
     vstr "}";
     vstr "```";
     VStr [];
     vstr "**Available tools:** `get_service_health`, `search_error_logs`, `get_recent_deployments`, `get_recent_incidents`, `ask_apollo`";
     VStr [];
     vstr "Use these to query live error rates, check service health, and verify your fix against production data before opening a PR.";
     VStr [];
     vstr "---";
     VStr (lit "*Auto-created by [Apollo SRE Agent](https://github.com/"
           ++ GITHUB_REPO
           ++ lit ") -- Autonomous AI Incident Response*")].

(** [createGithubIssue] *)
Definition createGithubIssue (params : value) : M value :=
  if negb (configured GITHUB_TOKEN) || negb (configured GITHUB_REPO)
  then ret (VObj [(lit "success", VBool false);
                  (lit "error",
                   vstr "GitHub not configured (need GITHUB_TOKEN + GITHUB_REPO in .env)")])
  else
    let* severity := prop params "severity" in
    let service := get params (lit "service") in
    let title := get params (lit "title") in
    let* _ := printed [severity; service] in
    let* created := timestamp in
    let* _ := printed [get params (lit "root_cause");
                       get params (lit "impact");
                       get params (lit "remediation_steps")] in
    let body := issue_body params created in
    let* given := iterate (or_else (get params (lit "labels")) (VArr [])) in
    let labels :=
      [or_else (table_get severityLabel severity) (vstr "incident");
       vstr "incident"; vstr "apollo-agent"] ++ given in
    let* _ := ensure_labels labels in
    let* _ := printed [title] in
    let* res := do_fetch (issue_request
      (VObj [(lit "title",
              VStr (lit "[" ++ tpl severity ++ lit "] " ++ tpl title));
             (lit "body", VStr body);
             (lit "labels", VArr labels)])) in
    if negb (res_ok res)
    then ret (VObj [(lit "success", VBool false);
                    (lit "error", VStr (lit "GitHub API: " ++ res_text res))])
    else
      let* issue := json_of res in
      let* _ :=
        if configured SLACK_WEBHOOK_URL
        then
          let* number := prop issue "number" in
          let* _ := printed [number] in
          let* _ := do_fetch (slack_request (attachment (vstr "#24292E")
            [header_block (lit "GitHub Issue #" ++ tpl number ++ lit ": "
                           ++ tpl title);
             fields_block
               [lit "*Severity:*" ++ nl ++ tpl severity;
                lit "*Service:*" ++ nl ++ lit "`" ++ tpl service ++ lit "`"];
             VObj [(lit "type", vstr "actions");
                   (lit "elements", VArr
                     [VObj [(lit "type", vstr "button");
                            (lit "text", plain_text (lit "View on GitHub"));
                            (lit "url", get issue (lit "html_url"));
                            (lit "style", vstr "primary")]])];
             context_block (lit "Created by Apollo SRE Agent")])) in
          ret tt
        else ret tt in
      let* number := prop issue "number" in
      let* _ := printed [number] in
      let* escaped := escapeHtml title in
      let* _ := printed given in
      let html_url := get issue (lit "html_url") in
      let* _ := printed [html_url] in
      let* _ :=
        sendTelegram (VStr TELEGRAM_CHAT_ID)
          (astral 0x1F4DD ++ lit " <b>GitHub Issue Created</b>" ++ nl ++ nl
           ++ lit "<b>#" ++ tpl number ++ lit ":</b> " ++ escaped ++ nl
           ++ lit "<b>Severity:</b> " ++ tpl severity ++ nl
           ++ lit "<b>Service:</b> <code>" ++ tpl service ++ lit "</code>"
           ++ nl
           ++ lit "<b>Labels:</b> " ++ join_values (lit ", ") labels
           ++ nl ++ nl
           ++ lit "<a href=" ++ dquote ++ tpl html_url ++ dquote
           ++ lit ">View on GitHub</a>" ++ nl ++ nl
           ++ lit "<i>Apollo SRE Agent</i>") [] in
      ret (VObj [(lit "success", VBool true);
                 (lit "message",
                  VStr (lit "GitHub issue #" ++ tpl number
                        ++ lit " created"));
                 (lit "issue_number", number);
                 (lit "url", html_url);
                 (lit "labels", VArr labels);
                 (lit "notifications", channels [])]).

(** *** Read handlers *)

(** [a > b] for a number [b]. *)
Definition above (a : value) (b : Q) : bool := lt (Some b) (to_number a).

Definition service_filter (params : value) : jsstring :=
  if truthy (get params (lit "service"))
  then lit " AND service == " ++ dquote ++ tpl (get params (lit "service"))
       ++ dquote
  else [].

Definition service_health_query (serviceFilter : jsstring) : jsstring :=
  lit "FROM app-metrics | WHERE @timestamp > NOW() - 2 hours"
  ++ serviceFilter
  ++ lit " | STATS avg_error_rate = AVG(error_rate), max_error_rate = MAX(error_rate), avg_latency = AVG(p99_latency_ms), max_latency = MAX(p99_latency_ms), avg_cpu = AVG(cpu_percent), max_connections = MAX(active_connections) BY service | SORT max_error_rate DESC | LIMIT 20".

(** The status that [getServiceHealth] gives a row. *)
Definition unhealthy (r : value) : bool :=
  above (get r (lit "max_error_rate")) 5
  || above (get r (lit "max_connections")) 45.

(** The callback of [rows.map] in [getServiceHealth]. *)
Definition service_entry (r : value) : M value :=
  let status := if unhealthy r then vstr "UNHEALTHY" else vstr "HEALTHY" in
  let* avg_error_rate := opt_fixed (get r (lit "avg_error_rate")) 1 in
  let* max_error_rate := opt_fixed (get r (lit "max_error_rate")) 1 in
  let* avg_latency := opt_fixed (get r (lit "avg_latency")) 0 in
  let* max_latency := opt_fixed (get r (lit "max_latency")) 0 in
  let* avg_cpu := opt_fixed (get r (lit "avg_cpu")) 1 in
  ret (VObj [(lit "service", get r (lit "service"));
             (lit "status", status);
             (lit "error_rate",
              VStr (avg_error_rate ++ lit "% avg / " ++ max_error_rate
                    ++ lit "% max"));
             (lit "p99_latency",
              VStr (avg_latency ++ lit "ms avg / " ++ max_latency
                    ++ lit "ms max"));
             (lit "cpu", VStr (avg_cpu ++ lit "%"));
             (lit "connections",
              VStr (tpl (get r (lit "max_connections")) ++ lit " max"))]).

Definition is_unhealthy (s : value) : bool :=
  equals (get s (lit "status")) "UNHEALTHY".

Definition health_summary (services : list value) : jsstring :=
  if existsb is_unhealthy services
  then lit "WARNING: "
       ++ join_values (lit ", ")
            (map (fun s => get s (lit "service"))
               (filter (fun s => is_unhealthy s = true) services))
       ++ lit " showing anomalies"
  else lit "All services healthy".

(** [getServiceHealth] *)
Definition getServiceHealth (params : value) : M value :=
  let* _ := prop params "service" in
  let* rows := esqlQuery (service_health_query (service_filter params)) in
  let* services := map_m service_entry rows in
  let* stamp := timestamp in
  ret (VObj [(lit "timestamp", VStr stamp);
             (lit "window", vstr "last 2 hours");
             (lit "services", VArr services);
             (lit "summary", VStr (health_summary services))]).

Definition week_filter : jsstring :=
  lit "WHERE @timestamp > NOW() - 7 days".

Definition severity_filter (params : value) : jsstring :=
  if truthy (get params (lit "severity"))
  then lit " AND severity == " ++ dquote ++ tpl (get params (lit "severity"))
       ++ dquote
  else [].

(** The object that a [rows.map] of the listings makes of a row: the
    fields named, each under its own name but for the first, which is the
    row's [@timestamp]. *)
Definition pick (fields : list string) (r : value) : value :=
  VObj ((lit "timestamp", get r (lit "@timestamp"))
        :: map (fun f => (lit f, get r (lit f))) fields).

(** [getRecentIncidents] *)
Definition getRecentIncidents (params : value) : M value :=
  let* service := prop params "service" in
  let* _ := printed [service; get params (lit "severity");
                     get params (lit "limit")] in
  let filter := week_filter ++ service_filter params
                ++ severity_filter params in
  let limit := or_else (get params (lit "limit")) (num 10) in
  let* rows := esqlQuery (lit "FROM incidents | " ++ filter
                          ++ lit " | SORT @timestamp DESC | LIMIT "
                          ++ tpl limit) in
  ret (VObj [(lit "count", num (Z.of_nat (length rows)));
             (lit "incidents",
              VArr (map (pick ["title"; "severity"; "service"; "root_cause";
                               "status"; "triggered_by"; "resolution"]%string)
                      rows))]).

(** [getRecentDeployments] *)
Definition getRecentDeployments (params : value) : M value :=
  let* service := prop params "service" in
  let* _ := printed [service; get params (lit "limit")] in
  let filter := week_filter ++ service_filter params in
  let limit := or_else (get params (lit "limit")) (num 10) in
  let* rows := esqlQuery (lit "FROM deployments | " ++ filter
                          ++ lit " | SORT @timestamp DESC | LIMIT "
                          ++ tpl limit) in
  ret (VObj [(lit "count", num (Z.of_nat (length rows)));
             (lit "deployments",
              VArr (map (pick ["service"; "version"; "deployer"; "commit_sha";
                               "commit_message"; "changes"; "status"]%string)
                      rows))]).

(** The callback of [rows.map] in [searchErrorLogs]; [avg_latency_ms] is
    [undefined] when the row has no latency. *)
Definition error_entry (r : value) : M value :=
  let* avg_latency_ms :=
    if nullish (get r (lit "avg_latency")) then ret VUndefined
    else let* s := to_fixed (get r (lit "avg_latency")) 0 in ret (VStr s) in
  ret (VObj [(lit "service", get r (lit "service"));
             (lit "message", get r (lit "message"));
             (lit "status_code", get r (lit "status_code"));
             (lit "count", get r (lit "error_count"));
             (lit "avg_latency_ms", avg_latency_ms)]).

(** [searchErrorLogs] *)
Definition searchErrorLogs (params : value) : M value :=
  let* requested := prop params "hours" in
  let* _ := printed [requested; get params (lit "service")] in
  let hours := or_else requested (num 2) in
  let filter := lit "WHERE @timestamp > NOW() - " ++ tpl hours
                ++ lit " hours AND level == " ++ dquote ++ lit "ERROR"
                ++ dquote ++ service_filter params in
  let* rows := esqlQuery (lit "FROM app-logs | " ++ filter
    ++ lit " | STATS error_count = COUNT(*), avg_latency = AVG(latency_ms) BY service, message, status_code | SORT error_count DESC | LIMIT 20") in
  let* errors := map_m error_entry rows in
  ret (VObj [(lit "window", VStr (lit "last " ++ tpl hours ++ lit " hours"));
             (lit "total_error_types", num (Z.of_nat (length rows)));
             (lit "errors", VArr errors)]).

End Handlers.
End Tools.

(** ** The Telegram bot and the health endpoint *)

Module Bot.
Import Gateway Tools.

Section Poller.
Context {R : Runtime} {C : Config} {P : Prototype}.

(** The poller keeps [lastUpdateId] beside the state of the gateway; it
    survives a throw, as a module variable does. *)
Definition Poll (A : Type) : Type :=
  value -> state -> (outcome A * value) * state.

Definition ret_b {A} (a : A) : Poll A :=
  fun last st => ((Returned a, last), st).

Definition bind_b {A A'} (m : Poll A) (k : A -> Poll A') : Poll A' :=
  fun last st =>
    match m last st with
    | ((Returned a, last'), st') => k a last' st'
    | ((Thrown e, last'), st') => ((Thrown e, last'), st')
    | ((Unfinished, last'), st') => ((Unfinished, last'), st')
    end.

Definition try_catch_b {A} (m : Poll A) (handler : jsstring -> Poll A) : Poll A :=
  fun last st =>
    match m last st with
    | ((Thrown e, last'), st') => handler e last' st'
    | r => r
    end.

(** A step of the gateway, which leaves [lastUpdateId] alone. *)
Definition lift {A} (m : M A) : Poll A :=
  fun last st => let (o, st') := m st in ((o, last), st').

Definition get_last : Poll value := fun last st => ((Returned last, last), st).

Definition set_last (v : value) : Poll unit :=
  fun _ st => ((Returned tt, v), st).

End Poller.

Notation "'do*' x ':=' m 'in' k" := (bind_b m (fun x => k))
  (at level 10, x name, m at level 100, k at level 200).

Section Telegram.
Context {R : Runtime} {C : Config} {P : Prototype}.

(** [for (const item of items) body(item)] *)
Fixpoint for_each {A} (items : list A) (body : A -> M unit) : M unit :=
  match items with
  | [] => ret tt
  | item :: items' => let* _ := body item in for_each items' body
  end.

Fixpoint for_each_b {A} (items : list A) (body : A -> Poll unit) : Poll unit :=
  match items with
  | [] => ret_b tt
  | item :: items' => do* _ := body item in for_each_b items' body
  end.

(** [`${lastUpdateId + 1}`]: a sum of numbers unless one side is text. *)
Definition plus_one (v : value) : jsstring :=
  match v with
  | VNum q => ToString (VNum (q + 1))
  | VUndefined => lit "NaN"
  | VNull => ToString (num 1)
  | VBool b => ToString (num (if b then 2 else 1))
  | VStr s => s ++ lit "1"
  | VArr _ | VObj _ => ToString v ++ lit "1"
  end.

Definition updates_request (lastUpdateId : value) : request :=
  {| req_url := lit "https://api.telegram.org/bot" ++ TELEGRAM_BOT_TOKEN
                ++ lit "/getUpdates?offset=" ++ plus_one lastUpdateId
                ++ lit "&timeout=30";
     req_method := lit "GET";
     req_headers := [];
     req_body := VUndefined |}.

Definition start_text : jsstring :=
  astral 0x1F680 ++ lit " <b>Apollo SRE Agent</b>" ++ nl ++ nl
  ++ lit "I'm your autonomous AI Site Reliability Engineer." ++ nl ++ nl
  ++ lit "<b>Commands:</b>" ++ nl
  ++ lit "  /investigate - Full production scan" ++ nl
  ++ lit "  /status - Quick health check" ++ nl
  ++ lit "  /resolve - Mark current incident resolved" ++ nl
  ++ lit "  /escalate - Escalate to senior on-call" ++ nl
  ++ lit "  /newthread - Start a fresh conversation" ++ nl ++ nl
  ++ lit "Or just type naturally:" ++ nl
  ++ lit "  " ++ dquote ++ lit "What's the error rate on checkout-api?"
  ++ dquote ++ nl
  ++ lit "  " ++ dquote ++ lit "Search past incidents for payment timeouts"
  ++ dquote ++ nl
  ++ lit "  " ++ dquote ++ lit "Rollback checkout-api to v1.20.9" ++ dquote
  ++ nl ++ nl
  ++ lit "<i>Powered by Elastic Agent Builder + Bedrock</i>".

Definition fresh_text : jsstring :=
  astral 0x1F504 ++ lit " Fresh conversation started. What do you need?".

Definition working_text : jsstring :=
  astral 0x1F50D ++ lit " <i>Working on it...</i>".

Definition unconfigured_text : jsstring :=
  lit "Apollo is running but Kibana is not configured. Use the Kibana UI.".

Definition error_text (escaped : jsstring) : jsstring :=
  [0x274C%N] ++ lit " <b>Error:</b> " ++ escaped ++ nl ++ nl
  ++ lit "Try /newthread to start fresh.".

Definition commandMap : list (jsstring * value) :=
  [(lit "/investigate",
    vstr "Run a full production investigation. Check all services for anomalies, analyze errors, correlate with deployments, search past incidents, consult runbooks, and take all actions.");
   (lit "/status",
    vstr "Give me a quick health check. Use detect_anomalies to scan current metrics and summarize which services are healthy and which have issues. Keep it brief.");
   (lit "/resolve",
    vstr "The current incident has been resolved. Update the incident record status to 'resolved' and notify the team via Telegram and Slack that the incident is closed.");
   (lit "/escalate",
    vstr "The current incident needs escalation. Send a Telegram alert and Slack notification with severity UPGRADED to P1 and add 'ESCALATED - Senior on-call needed' to the recommended action.")].

(** The key under which [conversationMap] files a chat id: its text (see
    the state of the gateway).  Telegram's chat ids are numbers. *)
Definition chat_key (chatId : value) : jsstring := tpl chatId.

Definition send (chatId : value) (text : jsstring) : M unit :=
  let* _ := sendTelegram chatId text [] in ret tt.

(** The [try] and [catch] around the query, in [pollTelegram]: the reply of
    the reasoning engine goes out in segments of at most 4000 units, an
    error as one message. *)
Definition respond (chatId prompt : value) : M unit :=
  try_catch
    (let* rawResponse := queryApollo prompt (chat_key chatId) in
     let formatted := Formatter.mdToTelegramHtml rawResponse in
     match Chunker.splitMessage formatted 4000 with
     | Some chunks => for_each chunks (send chatId)
     | None => unfinished
     end)
    (fun message =>
       let* escaped := escapeHtml (VStr message) in
       send chatId (error_text escaped)).

(** The body of the loop over the updates, behind the assignment to
    [lastUpdateId]. *)
Definition handle_message (update : value) : M unit :=
  let msg := get update (lit "message") in
  let offered := if nullish msg then VUndefined else get msg (lit "text") in
  if negb (truthy offered) then ret tt
  else
    let* chatId := prop (get msg (lit "chat")) "id" in
    match offered with
    | VStr raw =>
        let text := trim raw in
        if bool_decide (text = lit "/start")
        then send chatId start_text
        else if bool_decide (text = lit "/newthread")
        then
          let* _ := conversation_delete (chat_key chatId) in
          send chatId fresh_text
        else
          let prompt := or_else (table_get commandMap (VStr text)) (VStr text) in
          if configured KIBANA_URL && configured ELASTIC_API_KEY
          then
            let* _ := send chatId working_text in
            respond chatId prompt
          else send chatId unconfigured_text
    | _ => throw (lit "msg.text.trim is not a function")
    end.

(** One cycle of [pollTelegram]; console output and the timer that starts
    the next cycle are left out. *)
Definition pollTelegram : Poll unit :=
  if negb (configured TELEGRAM_BOT_TOKEN) then ret_b tt
  else
    try_catch_b
      (do* lastUpdateId := get_last in
       do* res := lift (do_fetch (updates_request lastUpdateId)) in
       do* data := lift (json_of res) in
       do* result := lift (prop data "result") in
       do* updates := lift (iterate (or_else result (VArr []))) in
       for_each_b updates
         (fun update =>
            do* update_id := lift (prop update "update_id") in
            do* _ := set_last update_id in
            lift (handle_message update)))
      (fun _ => ret_b tt).

End Telegram.

Section Health.
Context {R : Runtime} {C : Config} {H : Handlers}.

Definition connected (setting : jsstring) : value :=
  if configured setting then vstr "connected" else vstr "not configured".

(** The handler of [GET /health]. *)
Definition health : M value :=
  fun st =>
    (Returned
       (VObj [(lit "status", vstr "ok");
              (lit "server", vstr "apollo-actions");
              (lit "version", vstr "4.0.0");
              (lit "tools", num (Z.of_nat (length TOOLS)));
              (lit "telegram", connected TELEGRAM_BOT_TOKEN);
              (lit "slack", connected SLACK_WEBHOOK_URL);
              (lit "elasticsearch", connected ELASTIC_URL);
              (lit "kibana", connected KIBANA_URL);
              (lit "active_conversations",
               num (Z.of_nat (size (conversationMap st))));
              (lit "next_scan", vstr "every 3 hours")]),
     st).

End Health.

End Bot.

(** ** Conditions

    The assumptions and shapes that the properties of the handlers and of
    the bot are stated with. *)

Module Conditions.
Import Gateway Tools Bot.

(** What [escapeHtml] comes to, unit by unit. *)
Definition escape_unit (x : N) : jsstring :=
  if (x =? 38)%N then lit "&amp;"
  else if (x =? 60)%N then lit "&lt;"
  else if (x =? 62)%N then lit "&gt;"
  else [x].

(** A segment of [splitMessage] that is followed by another one, with the
    mark of the line break removed behind it: it has at least 30% of the
    limit, and it is full or ends in front of a line break. *)
Definition full_or_at_break (maxLen : Z) (seg : jsstring * bool) : Prop :=
  3 * maxLen <= 10 * js_length seg.1
  /\ (js_length seg.1 = maxLen \/ seg.2 = true).

Section Assumptions.
Context {R : Runtime} {C : Config} {P : Prototype}.

(** The request of [esqlQuery]. *)
Definition esql_request (query : jsstring) : request :=
  {| req_url := ELASTIC_URL ++ lit "/_query?format=json";
     req_method := lit "POST";
     req_headers := elastic_headers;
     req_body := VObj [(lit "query", VStr query)] |}.

(** The document store answers every write with a failure. *)
Definition store_refuses : Prop :=
  forall (doc : value) (w : world),
    exists res w',
      fetch (deployment_request doc) w = (Responded res, w')
      /\ res_ok res = false.

(** The figures of a row that [getServiceHealth] prints are numbers, or
    missing. *)
Definition figures_or_absent (r : value) : Prop :=
  Forall (fun column =>
            nullish (get r (lit column)) = true
            \/ exists q, get r (lit column) = VNum q)
    ["avg_error_rate"; "max_error_rate"; "avg_latency"; "max_latency";
     "avg_cpu"]%string.

(** The latency of a row of [searchErrorLogs] is a number, or missing. *)
Definition latency_or_absent (r : value) : Prop :=
  nullish (get r (lit "avg_latency")) = true
  \/ exists q, get r (lit "avg_latency") = VNum q.

(** The handlers of several steps: each writes a record and then tells
    Slack and Telegram. *)
Inductive multi_step :=
| ExecuteRollback
| CreateJiraTicket
| CreatePagerDutyIncident
| GeneratePostmortem
| UpdateStatusPage
| CreateGithubIssue.

Definition handler (h : multi_step) : value -> M value :=
  match h with
  | ExecuteRollback => executeRollback
  | CreateJiraTicket => createJiraTicket
  | CreatePagerDutyIncident => createPagerDutyIncident
  | GeneratePostmortem => generatePostmortem
  | UpdateStatusPage => updateStatusPage
  | CreateGithubIssue => createGithubIssue
  end.

(** The request with which a handler writes its record. *)
Definition primary (h : multi_step) : value -> request :=
  match h with
  | ExecuteRollback => deployment_request
  | CreateJiraTicket => jira_request
  | CreatePagerDutyIncident => pagerduty_request
  | GeneratePostmortem => postmortem_request
  | UpdateStatusPage => status_request
  | CreateGithubIssue => issue_request
  end.

(** The service that takes the record is configured. *)
Definition primary_configured (h : multi_step) : bool :=
  match h with
  | CreateGithubIssue => configured GITHUB_TOKEN && configured GITHUB_REPO
  | _ => configured ELASTIC_URL && configured ELASTIC_API_KEY
  end.

(** The arguments of these names are strings. *)
Definition strings (params : value) (names : list string) : Prop :=
  Forall (fun name => exists s, get params (lit name) = VStr s) names.

(** A list of values that can be printed, or a falsy value. *)
Definition printable_list_or_absent (v : value) : Prop :=
  truthy v = false
  \/ exists items, v = VArr items /\ forallb printable items = true.

(** The arguments that a handler escapes or prints are strings, or falsy;
    those of which it calls a method of strings are strings; those that
    it joins or spreads are lists of values that can be printed, or
    falsy. *)
Definition well_typed (h : multi_step) (params : value) : Prop :=
  match h with
  | ExecuteRollback =>
      texts params ["reason"; "service"; "current_version";
                    "target_version"]%string
  | CreateJiraTicket =>
      texts params ["project"; "severity"; "service"; "root_cause";
                    "remediation_steps"; "title"; "assignee"]%string
  | CreatePagerDutyIncident =>
      texts params ["title"; "severity"; "service";
                    "escalation_policy"]%string
  | GeneratePostmortem =>
      texts params ["incident_title"; "severity"; "service"; "started_at";
                    "detected_at"; "resolved_at"; "timeline";
                    "preventive_measures"; "lessons_learned"]%string
      /\ strings params ["root_cause"; "impact"; "remediation"]%string
  | UpdateStatusPage =>
      texts params ["service"; "title"; "message"]%string
      /\ strings params ["status"]%string
      /\ printable_list_or_absent (get params (lit "affected_components"))
  | CreateGithubIssue =>
      texts params ["severity"; "service"; "root_cause"; "impact";
                    "remediation_steps"; "title"]%string
      /\ printable_list_or_absent (get params (lit "labels"))
  end.

(** A JSON object whose fields can all be printed. *)
Definition document (v : value) : Prop :=
  exists props,
    v = VObj props
    /\ forallb (fun kv : jsstring * value => printable kv.2) props = true.

(** The service behind [write] accepts every record and answers with a
    document. *)
Definition accepts (write : value -> request) : Prop :=
  forall (doc : value) (w : world),
    exists res w' stored,
      fetch (write doc) w = (Responded res, w')
      /\ res_ok res = true
      /\ res_json res = Some stored
      /\ document stored.

(** A request to one of the two notification channels. *)
Definition notification (r : request) : Prop :=
  req_url r = SLACK_WEBHOOK_URL \/ req_url r = telegram_url.

(** [m] returns from every state, and [Q] holds of what it returns and of
    the requests that it sends. *)
Definition runs {A} (m : M A) (Q : A -> list request -> Prop) : Prop :=
  forall st, exists a st' new,
    m st = (Returned a, st') /\ sent st' = sent st ++ new /\ Q a new.

(** What the results of the handlers of several steps have in common:
    success, the two flags, and a record written before the
    notifications, of which each configured channel gets one. *)
Definition kept (h : multi_step) (result : value) (new : list request)
    : Prop :=
  get result (lit "success") = VBool true
  /\ get (get result (lit "notifications")) (lit "slack")
     = VBool (configured SLACK_WEBHOOK_URL)
  /\ get (get result (lit "notifications")) (lit "telegram")
     = VBool (configured TELEGRAM_BOT_TOKEN)
  /\ exists (before : list request) (doc : value)
            (notifications : list request),
       new = before ++ primary h doc :: notifications
       /\ (h <> CreateGithubIssue -> before = [])
       /\ (exists res w w',
             fetch (primary h doc) w = (Responded res, w')
             /\ res_ok res = true)
       /\ Forall notification notifications
       /\ (configured SLACK_WEBHOOK_URL = true ->
           Exists (fun r => req_url r = SLACK_WEBHOOK_URL) notifications)
       /\ (configured TELEGRAM_BOT_TOKEN = true ->
           Exists (fun r => req_url r = telegram_url) notifications).

(** A computation that never runs out of the model's budget. *)
Definition finishes {A} (m : M A) : Prop :=
  forall st, (m st).1 <> Unfinished.

Definition finishes_b {A} (m : Poll A) : Prop :=
  forall last st, (m last st).1.1 <> Unfinished.

End Assumptions.
End Conditions.

(** ** Concrete runs

    A runtime whose network answers from a script, and settings to run the
    gateway against it. *)

Module Scenario.
Import Gateway.

(** Built-in conversions for the runs.  Numbers are printed the way
    [toFixed] prints them; one that is not an integer is printed with the
    decimals that it has, up to six. *)
Definition decimal (n : N) : jsstring :=
  lit (NilZero.string_of_uint (N.to_uint n)).

Definition fixed (q : Q) (digits : nat) : jsstring :=
  let scaled :=
    Z.to_N (Qfloor (Qabs q * inject_Z (10 ^ Z.of_nat digits) + (1 # 2))) in
  let ds := decimal scaled in
  let ds := repeat 48%N (S digits - length ds) ++ ds in
  (if Qle_bool 0 q then [] else lit "-")
  ++ take (length ds - digits) ds
  ++ match digits with
     | O => []
     | S _ => lit "." ++ drop (length ds - digits) ds
     end.

Fixpoint strip_zeros (reversed : jsstring) : jsstring :=
  match reversed with
  | 48%N :: rest => strip_zeros rest
  | _ => reversed
  end.

Definition number_text (q : Q) : jsstring :=
  if Qeq_bool q (inject_Z (Qfloor q)) then fixed q 0
  else rev (strip_zeros (rev (fixed q 6))).

Definition to_string (v : value) : jsstring :=
  match v with
  | VUndefined => lit "undefined"
  | VNull => lit "null"
  | VBool true => lit "true"
  | VBool false => lit "false"
  | VNum q => number_text q
  | VStr s => s
  | VArr _ => []
  | VObj _ => lit "[object Object]"
  end.

Fixpoint join (sep : jsstring) (parts : list jsstring) : jsstring :=
  match parts with
  | [] => []
  | [p] => p
  | p :: parts' => p ++ sep ++ join sep parts'
  end.

Definition quote (s : jsstring) : jsstring :=
  dquote
  ++ concat (map (fun x => if (x =? 34)%N then [92%N; 34%N]
                           else if (x =? 92)%N then [92%N; 92%N]
                           else if (x =? 10)%N then [92%N; 110%N]
                           else [x]) s)
  ++ dquote.

Fixpoint present {A} (l : list (option A)) : list A :=
  match l with
  | [] => []
  | Some a :: l' => a :: present l'
  | None :: l' => present l'
  end.

(** [JSON.stringify(v, null, 2)]: a property whose value is [undefined] is
    left out. *)
Fixpoint stringify (depth : nat) (v : value) {struct v} : jsstring :=
  let pad n := repeat 32%N (2 * n) in
  match v with
  | VUndefined | VNull => lit "null"
  | VBool true => lit "true"
  | VBool false => lit "false"
  | VNum q => number_text q
  | VStr s => quote s
  | VArr items =>
      match List.map (fun item => pad (S depth) ++ stringify (S depth) item)
              items with
      | [] => lit "[]"
      | parts =>
          lit "[" ++ nl ++ join (lit "," ++ nl) parts ++ nl ++ pad depth
          ++ lit "]"
      end
  | VObj props =>
      match present
              (List.map (fun kv : jsstring * value =>
                           match kv with
                           | (k, VUndefined) => None
                           | (k, w) =>
                               Some (pad (S depth) ++ quote k ++ lit ": "
                                     ++ stringify (S depth) w)
                           end) props) with
      | [] => lit "{}"
      | parts =>
          lit "{" ++ nl ++ join (lit "," ++ nl) parts ++ nl ++ pad depth
          ++ lit "}"
      end
  end.

Fixpoint digits_value (acc : N) (s : jsstring) : N * jsstring :=
  match s with
  | x :: s' =>
      if digit x then digits_value (acc * 10 + (x - 48))%N s' else (acc, s)
  | [] => (acc, [])
  end.

(** [parseFloat] on the decimal notation that [fixed] writes. *)
Definition parse_decimal (s : jsstring) : value :=
  let (negative, s1) :=
    match s with
    | 45%N :: t => (true, t)
    | _ => (false, s)
    end in
  let (whole, s2) := digits_value 0 s1 in
  let magnitude :=
    match s2 with
    | 46%N :: t =>
        let (part, rest) := digits_value 0 t in
        (inject_Z (Z.of_N whole)
         + inject_Z (Z.of_N part)
           / inject_Z (10 ^ Z.of_nat (length t - length rest)))%Q
    | _ => inject_Z (Z.of_N whole)
    end in
  VNum (Qred (if negative then - magnitude else magnitude)%Q).

(** A network that answers from a script, in order, and rejects once the
    script is used up. *)
(** Upper case, for the letters of ASCII. *)
Definition upper (s : jsstring) : jsstring :=
  map (fun x => if ((97 <=? x) && (x <=? 122))%N then (x - 32)%N else x) s.

Definition scripted : Runtime := {|
  world := list fetched;
  fetch := fun _ w =>
    match w with
    | [] => (Rejected (lit "fetch failed"), [])
    | f :: w' => (f, w')
    end;
  Date_now := fun w => (0, w);
  JSON_stringify := stringify 0;
  ToString := to_string;
  ToNumber := fun _ => None;
  toISOString := fun _ => lit "1970-01-01T00:00:00.000Z";
  toFixed := fixed;
  parseFloat := parse_decimal;
  Math_random := fun w => (1 # 2, w);
  toUpperCase := upper;
|}.

Definition all_configured : Config := {|
  TELEGRAM_BOT_TOKEN := lit "123:abc";
  TELEGRAM_CHAT_ID := lit "-1001";
  ELASTIC_URL := lit "https://es.example";
  ELASTIC_API_KEY := lit "key";
  KIBANA_URL := lit "https://kb.example";
  SLACK_WEBHOOK_URL := lit "https://hooks.example/T0";
  GITHUB_TOKEN := lit "ghp_token";
  GITHUB_REPO := lit "acme/shop";
|}.

(** Stand-ins for the handlers left open: each returns an empty object. *)
Definition inert : @Handlers scripted := {|
  sendTelegramAlert := fun _ => ret (VObj []);
  createIncidentRecord := fun _ => ret (VObj []);
  recommendRollback := fun _ => ret (VObj []);
  sendSlackNotification := fun _ => ret (VObj []);
  createJiraTicket := fun _ => ret (VObj []);
  createPagerDutyIncident := fun _ => ret (VObj []);
  generatePostmortem := fun _ => ret (VObj []);
  updateStatusPage := fun _ => ret (VObj []);
  createGithubIssue := fun _ => ret (VObj []);
  getServiceHealth := fun _ => ret (VObj []);
  getRecentIncidents := fun _ => ret (VObj []);
  getRecentDeployments := fun _ => ret (VObj []);
  searchErrorLogs := fun _ => ret (VObj []);
  tool_description := fun _ => [];
  tool_inputSchema := fun _ => VObj [];
|}.

Definition answer (ok : bool) (status : Z) (body : string)
    (json : option value) : fetched :=
  Responded {| res_ok := ok; res_status := status; res_text := lit body;
               res_json := json |}.

Definition start (script : list fetched)
    (sessions : list (jsstring * value)) : @state scripted :=
  {| conversationMap := list_to_map sessions;
     outside := (script : @world scripted);
     sent := [] |}.

(** A network in which the document store works and every other service
    answers 503. *)
Definition notifications_down : Runtime := {|
  world := unit;
  fetch := fun req w =>
    if starts_with (lit "https://es.example") (req_url req)
    then (Responded {| res_ok := true; res_status := 201; res_text := [];
                       res_json := Some (VObj [(lit "_id", vstr "dep-1")]) |},
          w)
    else (Responded {| res_ok := false; res_status := 503;
                       res_text := lit "Service Unavailable";
                       res_json := None |}, w);
  Date_now := fun w => (0, w);
  JSON_stringify := stringify 0;
  ToString := to_string;
  ToNumber := fun _ => None;
  toISOString := fun _ => lit "1970-01-01T00:00:00.000Z";
  toFixed := fixed;
  parseFloat := parse_decimal;
  Math_random := fun w => (1 # 2, w);
  toUpperCase := upper;
|}.

Definition quiet : @state notifications_down :=
  {| conversationMap := ∅; outside := (tt : @world notifications_down);
     sent := [] |}.

(** The arguments of a rollback. *)
Definition rollback_arguments : value :=
  VObj [(lit "service", vstr "checkout-api");
        (lit "current_version", vstr "v1.21.0");
        (lit "target_version", vstr "v1.20.9");
        (lit "reason", vstr "error rate spike after deploy")].

(** The same with a number for a reason. *)
Definition numbered_rollback_arguments : value :=
  VObj [(lit "service", vstr "checkout-api");
        (lit "current_version", vstr "v1.21.0");
        (lit "target_version", vstr "v1.20.9");
        (lit "reason", num 42)].

(** The arguments of a status update. *)
Definition status_arguments : value :=
  VObj [(lit "service", vstr "checkout-api");
        (lit "status", vstr "investigating");
        (lit "title", vstr "Checkout errors");
        (lit "message", vstr "We are looking into failed payments.")].

(** A [tools/call] request. *)
Definition call_named (id : Z) (name arguments : value) : value :=
  VObj [(lit "jsonrpc", vstr "2.0");
        (lit "method", vstr "tools/call");
        (lit "id", num id);
        (lit "params",
         VObj [(lit "name", name); (lit "arguments", arguments)])].

Definition call (id : Z) (name : string) (arguments : value) : value :=
  call_named id (vstr name) arguments.

(** What JSON.parse makes of [{"toString": null}]: an object that cannot
    be printed. *)
Definition unprintable_name : value := VObj [(lit "toString", VNull)].

(** The answer of the query service to a [STATS] query: one row. *)
Definition stats (columns : list string) (row : list Q) : fetched :=
  answer true 200 "OK"
    (Some (VObj [(lit "columns",
                  VArr (map (fun c => VObj [(lit "name", vstr c)]) columns));
                 (lit "values", VArr [VArr (map VNum row)])])).

Definition recent_columns : list string :=
  ["avg_error_rate"; "max_error_rate"; "avg_latency"; "max_connections";
   "sample_count"; "service"]%string.

Definition baseline_columns : list string :=
  ["baseline_error_rate"; "baseline_latency"; "service"]%string.

(** Windows of metrics, in the order of the columns. *)
Definition calm_window : list Q := [1 # 2; 3 # 2; 120; 40; 10; 0]%Q.
Definition spiky_window : list Q := [1; 5; 100; 40; 10; 0]%Q.
Definition baseline_window : list Q := [1 # 4; 110; 0]%Q.

Definition health_arguments : value :=
  VObj [(lit "service", vstr "checkout-api")].

(** The answer of the reasoning engine: a reply and nothing else. *)
Definition reply (message : string) : fetched :=
  answer true 200 "OK"
    (Some (VObj [(lit "response", VObj [(lit "message", vstr message)])])).

(** A channel with a stored session, and a reasoning engine that has
    forgotten it and then fails. *)
Definition stale : @state scripted :=
  start [answer false 404 "conversation not found" None;
         answer false 500 "upstream down" None]
        [(lit "chat-7", vstr "conv-1")].

(** A text over Telegram's limit, and an options object. *)
Definition long_text : jsstring := repeat 65%N 5000.

Definition silent : list (jsstring * value) :=
  [(lit "disable_notification", VBool true)].

(** Texts for the formatter. *)
Definition prose : jsstring :=
  lit "  checkout-api: error rate 5.2 percent (p99 812ms)." ++ nl ++ nl
  ++ lit "See runbook #4 + restart 2 pods. " ++ nl.

Definition spaced_out : jsstring := lit "a" ++ nl ++ nl ++ nl ++ lit "b".

End Scenario.

(** ** More concrete runs

    Networks, settings and requests to run the other handlers and the bot
    against. *)

Module Cases.
Import Gateway Tools Bot Conditions Scenario.

(** The properties that every object literal inherits.  The gateway only
    tests them for truth and prints them: an empty object stands for each. *)
Definition inherited : list string :=
  ["constructor"; "hasOwnProperty"; "isPrototypeOf"; "propertyIsEnumerable";
   "toLocaleString"; "toString"; "valueOf"; "__proto__";
   "__defineGetter__"; "__defineSetter__"; "__lookupGetter__";
   "__lookupSetter__"]%string.

Definition standard : Prototype := {|
  Object_prototype := fun key =>
    if existsb (fun name => bool_decide (key = lit name)) inherited
    then VObj []
    else VUndefined;
|}.

(** A network in which every service answers 503. *)
Definition all_down : Runtime := {|
  world := unit;
  fetch := fun _ w =>
    (Responded {| res_ok := false; res_status := 503;
                  res_text := lit "Service Unavailable";
                  res_json := None |}, w);
  Date_now := fun w => (0, w);
  JSON_stringify := stringify 0;
  ToString := to_string;
  ToNumber := fun _ => None;
  toISOString := fun _ => lit "1970-01-01T00:00:00.000Z";
  toFixed := fixed;
  parseFloat := parse_decimal;
  Math_random := fun w => (1 # 2, w);
  toUpperCase := upper;
|}.

Definition idle : @state all_down :=
  {| conversationMap := ∅; outside := (tt : @world all_down); sent := [] |}.

(** The reply of the reasoning engine in the network below: two paragraphs
    of Markdown. *)
Definition findings : jsstring :=
  lit "**checkout-api** is degraded." ++ nl ++ nl ++ nl ++ nl
  ++ lit "Roll back to `v1.20.9`.".

(** A network in which every service works: the reasoning engine replies
    with [findings] under the session "conv-9", and every other request is
    accepted. *)
Definition all_up : Runtime := {|
  world := unit;
  fetch := fun req w =>
    if starts_with (lit "https://kb.example") (req_url req)
    then (Responded
            {| res_ok := true; res_status := 200; res_text := [];
               res_json :=
                 Some (VObj [(lit "conversation_id", vstr "conv-9");
                             (lit "response",
                              VObj [(lit "message", VStr findings)])]) |},
          w)
    else (Responded {| res_ok := true; res_status := 200; res_text := [];
                       res_json := Some (VObj [(lit "ok", VBool true)]) |},
          w);
  Date_now := fun w => (0, w);
  JSON_stringify := stringify 0;
  ToString := to_string;
  ToNumber := fun _ => None;
  toISOString := fun _ => lit "1970-01-01T00:00:00.000Z";
  toFixed := fixed;
  parseFloat := parse_decimal;
  Math_random := fun w => (1 # 2, w);
  toUpperCase := upper;
|}.

Definition ready : @state all_up :=
  {| conversationMap := ∅; outside := (tt : @world all_up); sent := [] |}.

(** The arguments of an incident. *)
Definition incident_arguments : value :=
  VObj [(lit "title", vstr "Checkout errors <5xx> & timeouts");
        (lit "severity", vstr "P1");
        (lit "service", vstr "checkout-api");
        (lit "root_cause", vstr "connection pool exhausted");
        (lit "tags", VArr [vstr "database"])].

(** The answer of the reasoning engine with a session id. *)
Definition reply_in_session (message id : string) : fetched :=
  answer true 200 "OK"
    (Some (VObj [(lit "conversation_id", vstr id);
                 (lit "response", VObj [(lit "message", vstr message)])])).

(** The answer of the query service: columns and rows of cells. *)
Definition table (columns : list string) (rows : list (list value))
    : fetched :=
  answer true 200 "OK"
    (Some (VObj [(lit "columns",
                  VArr (map (fun c => VObj [(lit "name", vstr c)]) columns));
                 (lit "values", VArr (map VArr rows))])).

Definition service_columns : list string :=
  ["avg_error_rate"; "max_error_rate"; "avg_latency"; "max_latency";
   "avg_cpu"; "max_connections"; "service"]%string.

(** Two services, the first with a maximum error rate of 7.5%. *)
Definition service_rows : list (list value) :=
  [[VNum (3 # 1); VNum (15 # 2); VNum 200; VNum 900; VNum 55; VNum 30;
    vstr "checkout-api"];
   [VNum (1 # 10); VNum (1 # 2); VNum 80; VNum 120; VNum 20; VNum 12;
    vstr "search-api"]]%Q.

(** A window whose error rates are low and whose latency is 800ms. *)
Definition slow_window : list Q := [1 # 2; 1; 800; 40; 10; 0]%Q.

(** Two channels with a session each, and a reasoning engine that has
    forgotten the first one and then fails. *)
Definition two_channels : @state scripted :=
  start [answer false 404 "conversation not found" None;
         answer false 500 "upstream down" None]
        [(lit "chat-7", vstr "conv-1"); (lit "chat-8", vstr "conv-2")].

(** Updates of the Telegram bot: a message, and a message without a
    chat. *)
Definition message_update (id chat : Z) (text : string) : value :=
  VObj [(lit "update_id", num id);
        (lit "message",
         VObj [(lit "text", vstr text);
               (lit "chat", VObj [(lit "id", num chat)])])].

Definition chatless_update (id : Z) (text : string) : value :=
  VObj [(lit "update_id", num id);
        (lit "message", VObj [(lit "text", vstr text)])].

(** The answer of Telegram to [getUpdates]. *)
Definition updates (items : list value) : fetched :=
  answer true 200 "OK"
    (Some (VObj [(lit "ok", VBool true); (lit "result", VArr items)])).

(** A request to the endpoint with a method and no parameters. *)
Definition request_of (id : Z) (method : string) : value :=
  VObj [(lit "jsonrpc", vstr "2.0");
        (lit "method", vstr method);
        (lit "id", num id)].

End Cases.

(** * Properties *)

(** ** Strings *)

Section StringFacts.

Lemma js_length_nonneg (s : jsstring) : 0 <= js_length s.
Proof. unfold js_length. lia. Qed.

Lemma substring_prefix (s : jsstring) (k : Z) :
  substring s 0 k = take (Z.to_nat k) s.
Proof.
  unfold substring, js_length.
  set (len := Z.of_nat (length s)).
  replace (Z.to_nat (Z.min (Z.min (Z.max 0 0) len) (Z.min (Z.max k 0) len)))
    with 0%nat by lia.
  rewrite drop_0.
  destruct (Z.le_gt_cases k len) as [Hk | Hk].
  - f_equal. lia.
  - rewrite !take_ge; first reflexivity; lia.
Qed.

Lemma substring_from_suffix (s : jsstring) (k : Z) :
  substring_from s k = drop (Z.to_nat k) s.
Proof.
  unfold substring_from, substring, js_length.
  set (len := Z.of_nat (length s)).
  destruct (Z.le_gt_cases k len) as [Hk | Hk].
  - replace (Z.to_nat (Z.min _ _)) with (Z.to_nat k) by lia.
    apply take_ge. rewrite length_drop. lia.
  - rewrite (drop_ge s (Z.to_nat k)); last lia.
    replace (Z.to_nat (_ - _)) with 0%nat by lia. reflexivity.
Qed.

Lemma lastIndexOf_down_range (s needle : jsstring) (start : nat) :
  -1 <= lastIndexOf_down s needle start <= Z.of_nat start.
Proof.
  induction start as [| start IH]; simpl.
  - destruct (starts_with _ _); lia.
  - destruct (starts_with _ _); lia.
Qed.

Lemma lastIndexOf_range (s needle : jsstring) (position : Z) :
  -1 <= lastIndexOf s needle position <= Z.max position 0.
Proof.
  unfold lastIndexOf.
  destruct (_ <? 0) eqn:Hroom; [lia | ].
  pose proof (lastIndexOf_down_range s needle
                (Z.to_nat (Z.min (Z.max position 0)
                                 (js_length s - js_length needle)))).
  apply Z.ltb_ge in Hroom. lia.
Qed.

End StringFacts.

(** ** The matcher *)

Section RegexFacts.
Import Formatter.

Lemma one_true (a : ascii) (x : N) : one a x = true -> x = N_of_ascii a.
Proof. unfold one. apply N.eqb_eq. Qed.

Lemma rep_sound {R} (g : bool) (c : cls)
    (k : option N -> jsstring -> option R) (s : jsstring) :
  forall lo hi prev n r,
    rep g c k lo hi prev s = Some (n, r) ->
    (lo <= n)%nat /\ (n <= length s)%nat /\ forallb c (take n s) = true
    /\ k (last_or prev (take n s)) (drop n s) = Some r.
Proof.
  induction s as [| x s IH]; intros lo hi prev n r H; cbn [rep] in H.
  - assert (Hstop : match lo with
                    | O => (fun r => (O, r)) <$> k prev []
                    | S _ => None
                    end = Some (n, r)).
    { destruct g; [exact H | ]. by destruct (match lo with O => _ | S _ => _ end). }
    destruct lo; [ | discriminate].
    destruct (k prev []) eqn:Hk; simpl in Hstop; [ | discriminate].
    injection Hstop as <- <-. by repeat split.
  - set (stop := match lo with
                 | O => (fun r => (O, r)) <$> k prev (x :: s)
                 | S _ => None
                 end) in H.
    set (more := if c x && allows hi
                 then (fun nr => (S nr.1, nr.2)) <$>
                        rep g c k (pred lo) (dec hi) (Some x) s
                 else None) in H.
    assert (Hcases : stop = Some (n, r) \/ more = Some (n, r)).
    { destruct g; destruct more, stop; try discriminate; auto. }
    destruct Hcases as [Hstop | Hmore].
    + subst stop. destruct lo; [ | discriminate].
      destruct (k prev (x :: s)) eqn:Hk; simpl in Hstop; [ | discriminate].
      injection Hstop as <- <-. by repeat split; try lia.
    + subst more. destruct (c x && allows hi) eqn:Hc; [ | discriminate].
      destruct (rep g c k (pred lo) (dec hi) (Some x) s) as [[n' r'] | ] eqn:Hrec;
        simpl in Hmore; [ | discriminate].
      injection Hmore as <- <-.
      apply IH in Hrec as (Hlo & Hlen & Hall & Hk).
      apply andb_true_iff in Hc as [Hcx _].
      repeat split; simpl; try lia.
      * by rewrite Hcx.
      * exact Hk.
Qed.

Lemma skip_run (c : cls) (s : jsstring) (n : nat) :
  forallb c (take n s) = true ->
  match drop n s with x :: _ => c x = false | [] => True end ->
  skip c s = drop n s.
Proof.
  revert n. induction s as [| x s IH]; intros n Hall Hnext.
  - by destruct n.
  - destruct n as [| n]; simpl in *.
    + by rewrite Hnext.
    + apply andb_true_iff in Hall as [-> Hall]. by apply IH.
Qed.

Lemma forallb_take_head (c : cls) (s : jsstring) (n : nat) :
  (1 <= n)%nat -> (n <= length s)%nat -> forallb c (take n s) = true ->
  exists x s', s = x :: s' /\ c x = true.
Proof.
  intros Hn Hlen Hall. destruct s as [| x s]; simpl in *; [lia | ].
  destruct n; [lia | ]. simpl in Hall.
  apply andb_true_iff in Hall as [Hx _]. eauto.
Qed.

(** A repetition of at least one unit, and what follows it. *)
Lemma rep1_sound {R} (g : bool) (c : cls)
    (k : option N -> jsstring -> option R) (s : jsstring) lo hi prev n r :
  rep g c k (S lo) hi prev s = Some (n, r) ->
  exists x s', s = x :: s' /\ c x = true.
Proof.
  intros H. apply rep_sound in H as (Hlo & Hlen & Hall & _).
  apply (forallb_take_head c s n); [lia | exact Hlen | exact Hall].
Qed.

Lemma replace_go_no_match (re : regex) (tmpl : list piece) (s : jsstring) :
  forall prev, search re prev s = false -> replace_go re tmpl prev s O = s.
Proof.
  induction s as [| x s IH]; intros prev H; cbn [search replace_go] in *.
  - by destruct (match_re re prev []).
  - destruct (match_re re prev (x :: s)); [discriminate | ].
    f_equal. by apply IH.
Qed.

Lemma replace_all_no_match (re : regex) (tmpl : list piece) (s : jsstring) :
  test re s = false -> replace_all re tmpl s = s.
Proof. apply replace_go_no_match. Qed.

Lemma search_never (re : regex) (ok : option N -> jsstring -> bool) :
  (forall prev s, every_position ok prev s = true -> match_re re prev s = None) ->
  forall s prev, every_position ok prev s = true -> search re prev s = false.
Proof.
  intros Hno. induction s as [| x s IH]; intros prev Hok.
  - cbn [search]. by rewrite (Hno _ _ Hok).
  - cbn [search]. rewrite (Hno _ _ Hok).
    cbn [every_position] in Hok. apply andb_true_iff in Hok as [_ Hok].
    by apply IH.
Qed.

Lemma every_position_here ok prev s :
  every_position ok prev s = true -> ok prev s = true.
Proof. destruct s; cbn [every_position]; intros H; by apply andb_true_iff in H as [? _]. Qed.

Lemma every_position_drop ok (s : jsstring) :
  forall prev n, every_position ok prev s = true ->
    ok (last_or prev (take n s)) (drop n s) = true.
Proof.
  induction s as [| x s IH]; intros prev n H.
  - destruct n; simpl; by apply every_position_here in H.
  - destruct n; simpl.
    + by apply every_position_here in H.
    + cbn [every_position] in H. apply andb_true_iff in H as [_ H]. by apply IH.
Qed.

End RegexFacts.

(** ** The chunker *)

Section ChunkerFacts.
Import Chunker.

Lemma replace_first_not_at_start (p : N) (s : jsstring) :
  replace_first_go re_leading_newline [] (Some p) s = s.
Proof.
  revert p. induction s as [| x s IH]; intros p; simpl; [reflexivity | ].
  by rewrite IH.
Qed.

Lemma replace_leading_newline (s : jsstring) :
  replace_first re_leading_newline [] s = strip_newline s.
Proof.
  destruct s as [| x s]; [reflexivity | ].
  unfold replace_first, re_leading_newline. cbn -[N.eqb N_of_ascii].
  unfold one. change (N_of_ascii "010") with 10%N.
  destruct (x =? 10)%N; cbn.
  - reflexivity.
  - f_equal. apply replace_first_not_at_start.
Qed.

Lemma strip_newline_rejoin (s : jsstring) :
  (if break_removed s then newline else []) ++ strip_newline s = s.
Proof.
  destruct s as [| x s]; [reflexivity | ].
  unfold break_removed, strip_newline, newline, nl. cbn [starts_with].
  unfold code_eqb. rewrite andb_true_r, (N.eqb_sym 10 x).
  destruct (x =? 10)%N eqn:E; [ | reflexivity].
  apply N.eqb_eq in E. by subst.
Qed.

Lemma strip_newline_length (s : jsstring) :
  (length (strip_newline s) <= length s)%nat.
Proof.
  destruct s as [| x s]; simpl; [lia | ]. destruct (x =? 10)%N; simpl; lia.
Qed.

Lemma split_index_range (remaining : jsstring) (maxLen : Z) :
  1 <= maxLen -> 1 <= split_index remaining maxLen <= maxLen.
Proof.
  intros HL. unfold split_index, below_threshold.
  pose proof (lastIndexOf_range remaining newline maxLen) as Hr.
  destruct (_ <? _) eqn:E; [lia | ]. apply Z.ltb_ge in E. lia.
Qed.

Lemma rejoin_app (a b : list (jsstring * bool)) :
  rejoin (a ++ b) = rejoin a ++ rejoin b.
Proof.
  induction a as [| [c f] a IH]; simpl; [reflexivity | ].
  by rewrite IH, !app_assoc.
Qed.

(** The marked loop finishes, puts the text back together, and emits
    segments no longer than [maxLen]. *)
Lemma marked_loop_spec (maxLen : Z) (fuel : nat) :
  1 <= maxLen ->
  forall (remaining : jsstring) (chunks : list (jsstring * bool)),
    (length remaining < fuel)%nat ->
    exists segs,
      splitMessage_marked_loop fuel maxLen remaining chunks = Some segs
      /\ rejoin segs = rejoin chunks ++ remaining
      /\ (Forall (fun c => js_length c.1 <= maxLen) chunks ->
          Forall (fun c => js_length c.1 <= maxLen) segs).
Proof.
  intros HL. induction fuel as [| fuel IH]; intros remaining chunks Hfuel;
    [lia | ].
  cbn [splitMessage_marked_loop].
  destruct (0 <? js_length remaining) eqn:Hpos; simpl.
  2:{ exists chunks. apply Z.ltb_ge in Hpos. unfold js_length in Hpos.
      destruct remaining; [ | simpl in Hpos; lia].
      by rewrite app_nil_r. }
  destruct (js_length remaining <=? maxLen) eqn:Hfit.
  { exists (chunks ++ [(remaining, false)]). apply Z.leb_le in Hfit.
    split; [reflexivity | ]. split.
    - rewrite rejoin_app. simpl. by rewrite !app_nil_r.
    - intros Hall. apply Forall_app. split; [done | ].
      by apply Forall_singleton. }
  apply Z.leb_gt in Hfit.
  fold (split_index remaining maxLen).
  pose proof (split_index_range remaining maxLen HL) as Hidx.
  set (k := split_index remaining maxLen) in *.
  rewrite substring_prefix, substring_from_suffix, replace_leading_newline.
  unfold js_length in Hfit.
  destruct (IH (strip_newline (drop (Z.to_nat k) remaining))
              (chunks ++ [(take (Z.to_nat k) remaining,
                           break_removed (drop (Z.to_nat k) remaining))]))
    as (segs & Hrun & Hjoin & Hlen).
  { pose proof (strip_newline_length (drop (Z.to_nat k) remaining)) as Hs.
    rewrite length_drop in Hs. lia. }
  exists segs. split; [exact Hrun | ]. split.
  - rewrite Hjoin, rejoin_app. simpl. rewrite app_nil_r, <- !app_assoc.
    f_equal. rewrite strip_newline_rejoin. apply take_drop.
  - intros Hall. apply Hlen. apply Forall_app. split; [done | ].
    apply Forall_singleton. simpl. unfold js_length. rewrite length_take. lia.
Qed.

(** Forgetting the marks gives the loop of the source. *)
Lemma marked_loop_erase (maxLen : Z) (fuel : nat) :
  forall (remaining : jsstring) (chunks : list (jsstring * bool)),
    splitMessage_loop fuel maxLen remaining (map fst chunks)
    = map fst <$> splitMessage_marked_loop fuel maxLen remaining chunks.
Proof.
  induction fuel as [| fuel IH]; intros remaining chunks;
    cbn [splitMessage_loop splitMessage_marked_loop].
  - by destruct (negb _).
  - destruct (negb _); [reflexivity | ].
    destruct (_ <=? _).
    + simpl. by rewrite map_app.
    + rewrite <- IH. by rewrite map_app.
Qed.

Lemma splitMessage_erase (text : jsstring) (maxLen : Z) :
  splitMessage text maxLen = map fst <$> splitMessage_marked text maxLen.
Proof.
  unfold splitMessage, splitMessage_fuel, splitMessage_marked.
  destruct (_ <=? _); [reflexivity | ].
  apply (marked_loop_erase maxLen (S (length text)) text []).
Qed.

Lemma in_order_weaken (chunks : list jsstring) (p t : jsstring) :
  in_order chunks t -> in_order chunks (p ++ t).
Proof.
  destruct chunks as [| c chunks]; simpl; [done | ].
  intros (pre & post & -> & H). exists (p ++ pre), post.
  by rewrite <- app_assoc.
Qed.

Lemma rejoin_in_order (segs : list (jsstring * bool)) :
  in_order (map fst segs) (rejoin segs).
Proof.
  induction segs as [| [c b] segs IH]; simpl; [done | ].
  exists [], ((if b then newline else []) ++ rejoin segs).
  split; [reflexivity | ]. by apply in_order_weaken.
Qed.

Lemma loop_fuel_mono (maxLen : Z) (fuel : nat) :
  forall (remaining : jsstring) (chunks res : list jsstring) (fuel' : nat),
    splitMessage_loop fuel maxLen remaining chunks = Some res ->
    (fuel <= fuel')%nat ->
    splitMessage_loop fuel' maxLen remaining chunks = Some res.
Proof.
  induction fuel as [| fuel IH]; intros remaining chunks res fuel' Hrun Hle.
  - destruct fuel'; cbn [splitMessage_loop] in *;
      destruct (negb _); congruence.
  - destruct fuel' as [| fuel']; [lia | ].
    cbn [splitMessage_loop] in *.
    destruct (negb _); [exact Hrun | ].
    destruct (_ <=? _); [exact Hrun | ].
    apply IH; [exact Hrun | lia].
Qed.

(** With a limit below 1 and a text longer than the limit, no amount of
    fuel lets the loop finish: the segment cut off is empty and the
    remaining text stays as it is. *)
Lemma loop_stuck (fuel : nat) (maxLen : Z) (x : N) (chunks : list jsstring) :
  maxLen <= 0 -> x <> 10%N -> splitMessage_loop fuel maxLen [x] chunks = None.
Proof.
  intros HL Hx. revert chunks.
  induction fuel as [| fuel IH]; intros chunks; [reflexivity | ].
  cbn [splitMessage_loop].
  change (js_length [x]) with 1. cbn [Z.ltb Z.compare negb].
  destruct (1 <=? maxLen) eqn:E1; [apply Z.leb_le in E1; lia | ].
  assert (Hidx : lastIndexOf [x] newline maxLen = -1).
  { unfold lastIndexOf, newline, nl.
    change (js_length [x] - js_length [10%N]) with 0.
    replace (Z.to_nat (Z.min (Z.max maxLen 0) 0)) with 0%nat by lia.
    cbn [Z.ltb Z.compare lastIndexOf_down drop starts_with Z.of_nat].
    unfold code_eqb. rewrite andb_true_r.
    destruct (10 =? x)%N eqn:E; [ | reflexivity].
    apply N.eqb_eq in E. congruence. }
  rewrite Hidx.
  rewrite substring_from_suffix, replace_leading_newline.
  replace (Z.to_nat (if below_threshold (-1) maxLen then maxLen else -1))
    with 0%nat by (destruct (below_threshold _ _); lia).
  rewrite drop_0. unfold strip_newline.
  destruct (x =? 10)%N eqn:E; [apply N.eqb_eq in E; congruence | ].
  apply IH.
Qed.

End ChunkerFacts.

(** ** Claims about the chunker *)

Section ChunkerClaims.
Import Chunker.

(** The split prefers the last line break in the window, and falls back on
    the hard limit when the break comes before 30% of it. *)
Example splitMessage_at_line_break :
  splitMessage (lit "abcde" ++ nl ++ lit "fgh" ++ nl ++ lit "ijklm") 10
  = Some [lit "abcde" ++ nl ++ lit "fgh"; lit "ijklm"].
Proof. vm_compute. reflexivity. Qed.

Example splitMessage_at_hard_limit :
  splitMessage (lit "ab" ++ nl ++ lit "cdefghijklmnop") 10
  = Some [lit "ab" ++ nl ++ lit "cdefghi"; lit "jklmnop"].
Proof. vm_compute. reflexivity. Qed.

(** C3, as amended: for every text [T] and every maximum length [L >= 1],
    [splitMessage(T, L)] returns, and concatenating the returned segments,
    with one line break put back at each boundary where the split removed
    one, gives [T] exactly.  More iterations than the length of [T] are
    never needed. *)
Theorem splitMessage_roundtrip (text : jsstring) (maxLen : Z) :
  1 <= maxLen ->
  exists segs : list (jsstring * bool),
    splitMessage_marked text maxLen = Some segs
    /\ splitMessage text maxLen = Some (map fst segs)
    /\ (forall fuel : nat,
          (length text < fuel)%nat ->
          splitMessage_fuel fuel text maxLen = Some (map fst segs))
    /\ rejoin segs = text.
Proof.
  intros HL.
  assert (Hex : exists segs, splitMessage_marked text maxLen = Some segs
                             /\ rejoin segs = text).
  { unfold splitMessage_marked. destruct (_ <=? _).
    - exists [(text, false)]. split; [reflexivity | ].
      simpl. by rewrite app_nil_r.
    - destruct (marked_loop_spec maxLen (S (length text)) HL text [])
        as (segs & Hrun & Hjoin & _); [lia | ].
      exists segs. by split. }
  destruct Hex as (segs & Hrun & Hjoin). exists segs.
  assert (Hplain : splitMessage text maxLen = Some (map fst segs)).
  { rewrite splitMessage_erase, Hrun. reflexivity. }
  repeat split; try done.
  intros fuel Hfuel. unfold splitMessage, splitMessage_fuel in *.
  destruct (_ <=? _); [exact Hplain | ].
  eapply loop_fuel_mono; [exact Hplain | lia].
Qed.

(** C3 at a concrete text: two lines, "ab" and "cdefgh", with limit 4. *)
Lemma splitMessage_roundtrip_witness :
  (1 <= 4) /\
  (exists segs : list (jsstring * bool),
     splitMessage_marked (lit "ab" ++ newline ++ lit "cdefgh") 4 = Some segs
     /\ rejoin segs = lit "ab" ++ newline ++ lit "cdefgh").
Proof.
  split; [lia | ].
  destruct (splitMessage_roundtrip (lit "ab" ++ newline ++ lit "cdefgh") 4)
    as (segs & H1 & _ & _ & H2); [lia | ].
  exists segs. split; assumption.
Defined.

(** C3 as stated fails at limit 0: [splitMessage("a", 0)] never returns
    (each iteration pushes an empty segment and leaves the text as it is),
    so there are no returned segments to concatenate. *)
Lemma splitMessage_limit_zero_never_returns :
  ~ (exists (fuel : nat) (chunks : list jsstring),
       splitMessage_fuel fuel (lit "a") 0 = Some chunks).
Proof.
  intros (fuel & chunks & H). unfold splitMessage_fuel in H.
  change (js_length (lit "a") <=? 0) with false in H. cbv iota in H.
  change (lit "a") with [97%N] in H.
  rewrite loop_stuck in H; [discriminate | lia | discriminate].
Qed.

(** C4, as amended: for every text [T] and maximum length [L >= 1],
    [splitMessage(T, L)] returns segments that are each at most [L] long
    and that occur in [T] in the order returned; and for every [L], a text
    of length at most [L] comes back as the single segment [T]. *)
Theorem splitMessage_segments (text : jsstring) (maxLen : Z) :
  (1 <= maxLen ->
   exists chunks : list jsstring,
     splitMessage text maxLen = Some chunks
     /\ Forall (fun c => js_length c <= maxLen) chunks
     /\ in_order chunks text)
  /\ (js_length text <= maxLen -> splitMessage text maxLen = Some [text]).
Proof.
  split.
  - intros HL.
    assert (Hex : exists segs,
               splitMessage_marked text maxLen = Some segs
               /\ rejoin segs = text
               /\ Forall (fun c => js_length c.1 <= maxLen) segs).
    { unfold splitMessage_marked. destruct (_ <=? _) eqn:Hfit.
      - exists [(text, false)]. split; [reflexivity | ]. split.
        + simpl. by rewrite app_nil_r.
        + apply Forall_singleton. simpl. by apply Z.leb_le.
      - destruct (marked_loop_spec maxLen (S (length text)) HL text [])
          as (segs & Hrun & Hjoin & Hlen); [lia | ].
        exists segs. repeat split; try done. by apply Hlen. }
    destruct Hex as (segs & Hrun & Hjoin & Hlen).
    exists (map fst segs). split; [ | split].
    + rewrite splitMessage_erase, Hrun. reflexivity.
    + apply Forall_map. exact Hlen.
    + rewrite <- Hjoin. apply rejoin_in_order.
  - intros Hfit. unfold splitMessage, splitMessage_fuel.
    apply Z.leb_le in Hfit. by rewrite Hfit.
Qed.

(** C4 at concrete texts: a long one with limit 4, a short one with
    limit 5. *)
Lemma splitMessage_segments_witness :
  ((1 <= 4) /\
   (exists chunks : list jsstring,
      splitMessage (lit "ab" ++ newline ++ lit "cdefgh") 4 = Some chunks
      /\ Forall (fun c => js_length c <= 4) chunks))
  /\ (js_length (lit "hello") <= 5
      /\ splitMessage (lit "hello") 5 = Some [lit "hello"]).
Proof.
  split.
  - split; [lia | ].
    destruct (splitMessage_segments (lit "ab" ++ newline ++ lit "cdefgh") 4)
      as [H _].
    destruct (H ltac:(lia)) as (chunks & H1 & H2 & _).
    exists chunks. split; assumption.
  - split; [vm_compute; discriminate | ].
    apply (splitMessage_segments (lit "hello") 5). vm_compute. discriminate.
Defined.

(** C4 as stated fails at limit 0: [splitMessage("b", 0)] never returns. *)
Lemma splitMessage_segments_limit_zero :
  ~ (exists (fuel : nat) (chunks : list jsstring),
       splitMessage_fuel fuel (lit "b") 0 = Some chunks
       /\ Forall (fun c => js_length c <= 0) chunks).
Proof.
  intros (fuel & chunks & H & _). unfold splitMessage_fuel in H.
  change (js_length (lit "b") <=? 0) with false in H. cbv iota in H.
  change (lit "b") with [98%N] in H.
  rewrite loop_stuck in H; [discriminate | lia | discriminate].
Qed.

End ChunkerClaims.

(** ** The formatter *)

Section FormatterFacts.
Import Formatter.

Lemma markup_at_false (prev : option N) (s : jsstring) :
  markup_at prev s = false ->
  delimiter_at s = false
  /\ starts_with (lit "~~") s = false
  /\ starts_with (lit "](") s = false
  /\ (at_bol true prev = true ->
      header_marker s = false /\ rule_line s = false
      /\ bullet_marker s = false /\ number_marker s = false).
Proof.
  unfold markup_at. intros H.
  apply orb_false_iff in H as [H Hline].
  apply orb_false_iff in H as [H Hlink].
  apply orb_false_iff in H as [Hdelim Hstrike].
  repeat split; try assumption;
    rewrite H in Hline; cbn [andb] in Hline;
    repeat (apply orb_false_iff in Hline as [Hline ?]); assumption.
Qed.

Lemma plain_here (prev : option N) (s : jsstring) :
  every_position plain_at prev s = true -> markup_at prev s = false.
Proof.
  intros H. apply every_position_here in H. by apply negb_true_iff in H.
Qed.

Lemma match_re_single (r : list atom) (prev : option N) (s : jsstring) :
  match_seq r prev s = None -> match_re [r] prev s = None.
Proof. intros H. cbn [match_re]. by rewrite H. Qed.

(** A sequence that begins with a delimiter does not match where no
    delimiter stands. *)
Lemma delimiter_head (c : cls) (r : list atom) (prev : option N)
    (s : jsstring) :
  (forall x, c x = true -> any_of (lit "*_`") x = true) ->
  delimiter_at s = false ->
  match_seq (Chr c :: r) prev s = None.
Proof.
  intros Hc Hd. destruct s as [| x s]; cbn [match_seq]; [reflexivity | ].
  destruct (c x) eqn:E; [ | reflexivity].
  apply Hc in E. unfold delimiter_at in Hd. congruence.
Qed.

Lemma not_behind_none (c : cls) (r : list atom) (prev : option N)
    (s : jsstring) :
  match_seq r prev s = None -> match_seq (NotBehind c :: r) prev s = None.
Proof.
  intros H. cbn [match_seq]. destruct prev as [p | ]; [ | exact H].
  by destruct (c p).
Qed.

Lemma one_is_delimiter (a : ascii) :
  any_of (lit "*_`") (N_of_ascii a) = true ->
  forall x, one a x = true -> any_of (lit "*_`") x = true.
Proof. intros H x Hx. apply one_true in Hx. by subst. Qed.

Lemma bold_star_plain prev s :
  every_position plain_at prev s = true -> match_re re_bold_star prev s = None.
Proof.
  intros H. apply plain_here, markup_at_false in H as (Hd & _).
  apply match_re_single, delimiter_head; [ | exact Hd].
  by apply one_is_delimiter.
Qed.

Lemma bold_underscore_plain prev s :
  every_position plain_at prev s = true ->
  match_re re_bold_underscore prev s = None.
Proof.
  intros H. apply plain_here, markup_at_false in H as (Hd & _).
  apply match_re_single, delimiter_head; [ | exact Hd].
  by apply one_is_delimiter.
Qed.

Lemma italic_star_plain prev s :
  every_position plain_at prev s = true ->
  match_re re_italic_star prev s = None.
Proof.
  intros H. apply plain_here, markup_at_false in H as (Hd & _).
  apply match_re_single, not_behind_none, delimiter_head; [ | exact Hd].
  by apply one_is_delimiter.
Qed.

Lemma italic_underscore_plain prev s :
  every_position plain_at prev s = true ->
  match_re re_italic_underscore prev s = None.
Proof.
  intros H. apply plain_here, markup_at_false in H as (Hd & _).
  apply match_re_single, not_behind_none, delimiter_head; [ | exact Hd].
  by apply one_is_delimiter.
Qed.

Lemma inline_code_plain prev s :
  every_position plain_at prev s = true ->
  match_re re_inline_code prev s = None.
Proof.
  intros H. apply plain_here, markup_at_false in H as (Hd & _).
  apply match_re_single, delimiter_head; [ | exact Hd].
  by apply one_is_delimiter.
Qed.

Lemma code_block_plain prev s :
  every_position plain_at prev s = true ->
  match_re re_code_block prev s = None.
Proof.
  intros H. apply plain_here, markup_at_false in H as (Hd & _).
  apply match_re_single, delimiter_head; [ | exact Hd].
  by apply one_is_delimiter.
Qed.

Lemma strike_plain prev s :
  every_position plain_at prev s = true -> match_re re_strike prev s = None.
Proof.
  intros H. apply plain_here, markup_at_false in H as (_ & Hs & _).
  apply match_re_single. unfold re_strike. cbn [str list_ascii_of_string map app].
  destruct s as [| x [| y s]]; cbn [match_seq]; try reflexivity.
  - by destruct (one "~" x).
  - destruct (one "~" x) eqn:Ex; [ | reflexivity].
    destruct (one "~" y) eqn:Ey; [ | reflexivity].
    apply one_true in Ex, Ey. subst. discriminate Hs.
Qed.

(** Reading a successful match backwards, atom by atom. *)
Lemma chr_inv (c : cls) (r : list atom) prev s f :
  match_seq (Chr c :: r) prev s = Some f ->
  exists x s' f', s = x :: s' /\ c x = true
                  /\ match_seq r (Some x) s' = Some f'.
Proof.
  cbn [match_seq]. destruct s as [| x s]; [discriminate | ].
  destruct (c x) eqn:E; [ | discriminate].
  destruct (match_seq r (Some x) s) as [f' | ] eqn:Hr; [ | discriminate].
  intros _. by exists x, s, f'.
Qed.

Lemma rep_inv (g : bool) lo hi (c : cls) (r : list atom) prev s f :
  match_seq (Rep g lo hi c :: r) prev s = Some f ->
  exists n f', (lo <= n)%nat /\ (n <= length s)%nat
               /\ forallb c (take n s) = true
               /\ match_seq r (last_or prev (take n s)) (drop n s) = Some f'.
Proof.
  cbn [match_seq].
  destruct (rep g c (match_seq r) lo hi prev s) as [[n f'] | ] eqn:Hr;
    [ | discriminate].
  intros _. apply rep_sound in Hr. by exists n, f'.
Qed.

Lemma grp_inv (g : bool) lo hi (c : cls) (r : list atom) prev s f :
  match_seq (Grp g lo hi c :: r) prev s = Some f ->
  exists n f', (lo <= n)%nat /\ (n <= length s)%nat
               /\ forallb c (take n s) = true
               /\ match_seq r (last_or prev (take n s)) (drop n s) = Some f'.
Proof.
  cbn [match_seq].
  destruct (rep g c (match_seq r) lo hi prev s) as [[n f'] | ] eqn:Hr;
    [ | discriminate].
  intros _. apply rep_sound in Hr. by exists n, f'.
Qed.

Lemma bol_inv (m : bool) (r : list atom) prev s f :
  match_seq (Bol m :: r) prev s = Some f ->
  at_bol m prev = true /\ match_seq r prev s = Some f.
Proof. cbn [match_seq]. by destruct (at_bol m prev). Qed.

Lemma eol_inv (m : bool) (r : list atom) prev s f :
  match_seq (Eol m :: r) prev s = Some f ->
  at_eol m s = true /\ match_seq r prev s = Some f.
Proof. cbn [match_seq]. by destruct (at_eol m s). Qed.

Lemma match_re_single_inv (r : list atom) prev s f :
  match_re [r] prev s = Some f -> match_seq r prev s = Some f.
Proof. cbn [match_re]. by destruct (match_seq r prev s). Qed.

Lemma no_match_by_contradiction (re : regex) prev s :
  (forall f, match_re re prev s = Some f -> False) ->
  match_re re prev s = None.
Proof. destruct (match_re re prev s) as [f | ]; [ | done]. intros H. by destruct (H f). Qed.

Lemma link_plain prev s :
  every_position plain_at prev s = true -> match_re re_link prev s = None.
Proof.
  intros Hok. apply no_match_by_contradiction. intros f Hm.
  apply match_re_single_inv, chr_inv in Hm as (x & s1 & f1 & -> & _ & Hm).
  apply grp_inv in Hm as (n & f2 & _ & _ & _ & Hm).
  apply chr_inv in Hm as (y & s2 & f3 & Hs2 & Hy & Hm).
  apply chr_inv in Hm as (z & s3 & f4 & -> & Hz & _).
  apply one_true in Hy, Hz. subst y z.
  pose proof (every_position_drop _ _ prev (S n) Hok) as Hat.
  apply negb_true_iff, markup_at_false in Hat as (_ & _ & Hl & _).
  cbn [drop] in Hl. rewrite Hs2 in Hl. discriminate Hl.
Qed.

Lemma header_plain prev s :
  every_position plain_at prev s = true -> match_re re_header prev s = None.
Proof.
  intros Hok. apply no_match_by_contradiction. intros f Hm.
  apply match_re_single_inv, bol_inv in Hm as (Hbol & Hm).
  apply rep_inv in Hm as (n & f1 & Hn & Hlen & Hall & Hm).
  apply rep_inv in Hm as (n2 & f2 & Hn2 & Hlen2 & Hall2 & _).
  apply plain_here, markup_at_false in Hok as (_ & _ & _ & Hline).
  destruct (Hline Hbol) as (Hh & _).
  destruct (forallb_take_head _ _ _ Hn Hlen Hall) as (x & s1 & -> & Hx).
  destruct (forallb_take_head _ _ _ Hn2 Hlen2 Hall2) as (y & s2 & Hs2 & Hy).
  unfold header_marker in Hh. rewrite Hx in Hh. cbn [andb] in Hh.
  rewrite (skip_run _ _ n Hall) in Hh.
  - rewrite Hs2 in Hh. unfold space in Hy. congruence.
  - rewrite Hs2. unfold space in Hy. unfold one.
    apply N.eqb_neq. intros ->. discriminate Hy.
Qed.

Lemma rule_plain prev s :
  every_position plain_at prev s = true -> match_re re_rule prev s = None.
Proof.
  intros Hok. apply no_match_by_contradiction. intros f Hm.
  apply match_re_single_inv, bol_inv in Hm as (Hbol & Hm).
  apply rep_inv in Hm as (n & f1 & Hn & Hlen & Hall & Hm).
  apply eol_inv in Hm as (Heol & _).
  apply plain_here, markup_at_false in Hok as (_ & _ & _ & Hline).
  destruct (Hline Hbol) as (_ & Hr & _).
  unfold rule_line in Hr. rewrite (skip_run _ _ n Hall) in Hr.
  - rewrite Heol, length_drop in Hr.
    apply andb_false_iff in Hr as [Hr | Hr]; [ | discriminate].
    apply Nat.leb_gt in Hr. lia.
  - destruct (drop n s) as [| y t]; [done | ].
    cbn [at_eol andb] in Heol.
    unfold is_line_terminator in Heol.
    repeat (apply orb_true_iff in Heol as [Heol | Heol]);
      apply N.eqb_eq in Heol; by subst.
Qed.

Lemma bullet_plain prev s :
  every_position plain_at prev s = true -> match_re re_bullet prev s = None.
Proof.
  intros Hok. apply no_match_by_contradiction. intros f Hm.
  apply match_re_single_inv, bol_inv in Hm as (Hbol & Hm).
  apply rep_inv in Hm as (n & f1 & _ & Hlen & Hall & Hm).
  apply chr_inv in Hm as (x & s1 & f2 & Hs1 & Hx & Hm).
  apply rep_inv in Hm as (n2 & f3 & Hn2 & Hlen2 & Hall2 & _).
  destruct (forallb_take_head _ _ _ Hn2 Hlen2 Hall2) as (y & s2 & -> & Hy).
  apply plain_here, markup_at_false in Hok as (_ & _ & _ & Hline).
  destruct (Hline Hbol) as (_ & _ & Hb & _).
  unfold bullet_marker in Hb. rewrite (skip_run _ _ n Hall) in Hb.
  - rewrite Hs1, Hx in Hb. unfold space in Hy. cbn [andb] in Hb. congruence.
  - rewrite Hs1. unfold any_of in Hx. cbn [lit list_ascii_of_string map existsb] in Hx.
    repeat (apply orb_true_iff in Hx as [Hx | Hx]); try discriminate;
      apply N.eqb_eq in Hx; by subst.
Qed.

Lemma digit_not_space (x : N) : digit x = true -> space x = false.
Proof.
  unfold digit, space, is_space. intros H.
  apply andb_true_iff in H as [H1 H2].
  apply N.leb_le in H1, H2.
  repeat (apply orb_false_iff; split);
    try (apply N.eqb_neq; lia).
  apply andb_false_iff. right. apply N.leb_gt. lia.
  apply andb_false_iff. left. apply N.leb_gt. lia.
Qed.

Lemma numbered_plain prev s :
  every_position plain_at prev s = true -> match_re re_numbered prev s = None.
Proof.
  intros Hok. apply no_match_by_contradiction. intros f Hm.
  apply match_re_single_inv, bol_inv in Hm as (Hbol & Hm).
  apply rep_inv in Hm as (n & f1 & _ & Hlen & Hall & Hm).
  apply rep_inv in Hm as (n2 & f2 & Hn2 & Hlen2 & Hall2 & Hm).
  apply chr_inv in Hm as (d & s2 & f3 & Hs2 & Hd & Hm).
  apply rep_inv in Hm as (n3 & f4 & Hn3 & Hlen3 & Hall3 & _).
  destruct (forallb_take_head _ _ _ Hn2 Hlen2 Hall2) as (x & s1 & Hs1 & Hx).
  destruct (forallb_take_head _ _ _ Hn3 Hlen3 Hall3) as (y & s3 & -> & Hy).
  apply plain_here, markup_at_false in Hok as (_ & _ & _ & Hline).
  destruct (Hline Hbol) as (_ & _ & _ & Hnum).
  unfold number_marker in Hnum. rewrite (skip_run _ _ n Hall) in Hnum.
  - rewrite Hs1, Hx in Hnum. cbn [andb] in Hnum. rewrite <- Hs1 in Hnum.
    rewrite (skip_run _ _ n2 Hall2) in Hnum.
    + rewrite Hs2, Hd in Hnum. unfold space in Hy. cbn [andb] in Hnum.
      congruence.
    + rewrite Hs2. apply one_true in Hd. by subst.
  - rewrite Hs1. by apply digit_not_space.
Qed.

Lemma blank_run_plain prev s :
  every_position single_spaced_at prev s = true ->
  match_re re_blank_run prev s = None.
Proof.
  intros Hok. apply no_match_by_contradiction. intros f Hm.
  apply match_re_single_inv, rep_inv in Hm as (n & f1 & Hn & Hlen & Hall & _).
  apply every_position_here, negb_true_iff in Hok.
  destruct s as [| a [| b [| c s]]]; simpl in Hlen; try lia.
  destruct n as [| [| [| n]]]; try lia.
  cbn [take forallb] in Hall.
  apply andb_true_iff in Hall as [Ha Hall].
  apply andb_true_iff in Hall as [Hb Hall].
  apply andb_true_iff in Hall as [Hc _].
  apply one_true in Ha, Hb, Hc. subst. discriminate Hok.
Qed.

End FormatterFacts.

(** ** Claims about the formatter *)

Section FormatterClaims.
Import Formatter.

(** The formatter at work. *)
Example bold_becomes_b :
  mdToTelegramHtml (lit "**bold** and __bold__")
  = lit "<b>bold</b> and <b>bold</b>".
Proof. vm_compute. reflexivity. Qed.

Example header_becomes_b :
  mdToTelegramHtml (lit "## Root cause" ++ nl ++ lit "pool exhausted")
  = lit "<b>Root cause</b>" ++ nl ++ lit "pool exhausted".
Proof. vm_compute. reflexivity. Qed.

Example list_markers_become_bullets :
  mdToTelegramHtml (lit "Steps:" ++ nl ++ lit "- one" ++ nl ++ lit "  3. two")
  = lit "Steps:" ++ nl ++ bullet ++ lit "one" ++ nl ++ lit "  two".
Proof. vm_compute. reflexivity. Qed.

Example four_blank_lines_become_one :
  mdToTelegramHtml (lit "a" ++ nl ++ nl ++ nl ++ nl ++ nl ++ lit "b")
  = lit "a" ++ nl ++ nl ++ lit "b".
Proof. vm_compute. reflexivity. Qed.

Example link_becomes_anchor :
  mdToTelegramHtml (lit "see [the runbook](https://wiki/rb)")
  = lit "see <a href=" ++ dquote ++ lit "https://wiki/rb" ++ dquote
    ++ lit ">the runbook</a>".
Proof. vm_compute. reflexivity. Qed.

Lemma plain_test (re : regex) (text : jsstring) :
  (forall prev s,
     every_position plain_at prev s = true -> match_re re prev s = None) ->
  no_markup text = true -> test re text = false.
Proof. intros Hre Hplain. by apply (search_never re _ Hre). Qed.

(** C9, as amended: for every input string that contains no markup
    construct (no header, bold, italic or strikethrough delimiter, code
    fence or backtick, link, list marker or horizontal rule) and no run of
    three or more line feeds, [mdToTelegramHtml] returns the string
    unchanged except for trimming leading and trailing white space. *)
Theorem mdToTelegramHtml_plain_text (text : jsstring) :
  no_markup text = true ->
  no_blank_run text = true ->
  mdToTelegramHtml text = trim text.
Proof.
  intros Hplain Hruns. unfold mdToTelegramHtml.
  destruct text as [| x text]; [reflexivity | ].
  set (t := x :: text) in *.
  rewrite (replace_all_no_match re_header);
    [ | by apply plain_test; [apply header_plain | ]].
  rewrite (replace_all_no_match re_bold_star);
    [ | by apply plain_test; [apply bold_star_plain | ]].
  rewrite (replace_all_no_match re_bold_underscore);
    [ | by apply plain_test; [apply bold_underscore_plain | ]].
  rewrite (replace_all_no_match re_italic_star);
    [ | by apply plain_test; [apply italic_star_plain | ]].
  rewrite (replace_all_no_match re_italic_underscore);
    [ | by apply plain_test; [apply italic_underscore_plain | ]].
  rewrite (replace_all_no_match re_inline_code);
    [ | by apply plain_test; [apply inline_code_plain | ]].
  rewrite (replace_all_no_match re_code_block);
    [ | by apply plain_test; [apply code_block_plain | ]].
  rewrite (replace_all_no_match re_strike);
    [ | by apply plain_test; [apply strike_plain | ]].
  rewrite (replace_all_no_match re_link);
    [ | by apply plain_test; [apply link_plain | ]].
  rewrite (replace_all_no_match re_rule);
    [ | by apply plain_test; [apply rule_plain | ]].
  rewrite (replace_all_no_match re_bullet);
    [ | by apply plain_test; [apply bullet_plain | ]].
  rewrite (replace_all_no_match re_numbered);
    [ | by apply plain_test; [apply numbered_plain | ]].
  rewrite (replace_all_no_match re_blank_run); [reflexivity | ].
  by apply (search_never re_blank_run _ blank_run_plain).
Qed.

(** C9 on two lines of prose with surrounding white space. *)
Lemma mdToTelegramHtml_plain_text_witness :
  no_markup Scenario.prose = true /\ no_blank_run Scenario.prose = true
  /\ mdToTelegramHtml Scenario.prose = trim Scenario.prose.
Proof.
  assert (H1 : no_markup Scenario.prose = true) by (vm_compute; reflexivity).
  assert (H2 : no_blank_run Scenario.prose = true)
    by (vm_compute; reflexivity).
  exact (conj H1 (conj H2 (mdToTelegramHtml_plain_text Scenario.prose H1 H2))).
Defined.

(** C9 as stated fails on a text whose only peculiarity is a run of blank
    lines: "a", three line feeds, "b" has no markup construct, and the
    formatter returns it with two line feeds. *)
Lemma mdToTelegramHtml_collapses_blank_lines :
  no_markup Scenario.spaced_out = true
  /\ mdToTelegramHtml Scenario.spaced_out = lit "a" ++ nl ++ nl ++ lit "b"
  /\ mdToTelegramHtml Scenario.spaced_out <> trim Scenario.spaced_out.
Proof.
  split; [ | split].
  - vm_compute. reflexivity.
  - vm_compute. reflexivity.
  - vm_compute. discriminate.
Qed.

End FormatterClaims.

(** ** The gateway *)

Section GatewayFacts.
Import Gateway.
Context {R : Runtime} {C : Config}.

Lemma lookup_set_prop_ne (k k' : jsstring) (v : value) props :
  k <> k' -> lookup_prop k (set_prop k' v props) = lookup_prop k props.
Proof.
  intros Hne. induction props as [| [k0 w] props IH]; simpl.
  - destruct (decide (k' = k)); [congruence | reflexivity].
  - destruct (decide (k0 = k')) as [-> | Hk0]; simpl.
    + destruct (decide (k' = k)); [congruence | reflexivity].
    + destruct (decide (k0 = k)); [reflexivity | exact IH].
Qed.

Lemma lookup_spread_other (k : jsstring) (b a : list (jsstring * value)) :
  Forall (fun kv => kv.1 <> k) b ->
  lookup_prop k (spread a b) = lookup_prop k a.
Proof.
  unfold spread. revert a. induction b as [| [k' v] b IH]; intros a Hb; simpl.
  - reflexivity.
  - apply Forall_cons in Hb as [Hk Hb]. rewrite IH by exact Hb.
    apply lookup_set_prop_ne. simpl in Hk. congruence.
Qed.

Lemma expand_nil (caps : list jsstring) : expand [] caps = [].
Proof. reflexivity. Qed.

Lemma replace_go_erase_length (re : regex) (s : jsstring) :
  forall prev skip, (length (replace_go re [] prev s skip) <= length s)%nat.
Proof.
  induction s as [| x s IH]; intros prev skip.
  - destruct skip; cbn [replace_go]; [ | simpl; lia].
    destruct (match_re re prev []) as [[n caps] | ]; simpl; lia.
  - destruct skip as [| skip]; cbn [replace_go].
    + destruct (match_re re prev (x :: s)) as [[n caps] | ].
      * rewrite expand_nil, app_nil_l. destruct n as [| n]; simpl.
        -- specialize (IH (Some x) O). lia.
        -- specialize (IH (Some x) n). lia.
      * simpl. specialize (IH (Some x) O). lia.
    + simpl. specialize (IH (Some x) skip). lia.
Qed.

Lemma replace_all_erase_length (re : regex) (s : jsstring) :
  js_length (replace_all re [] s) <= js_length s.
Proof.
  unfold js_length, replace_all.
  pose proof (replace_go_erase_length re s None O). lia.
Qed.

Lemma safe_text_length (text : jsstring) :
  js_length (safe_text text) <= 4096
  /\ (4096 < js_length text -> js_length (safe_text text) = 4094).
Proof.
  unfold safe_text. destruct (4096 <? js_length text) eqn:E.
  - apply Z.ltb_lt in E. rewrite substring_prefix.
    unfold js_length in *. rewrite !length_app, length_take.
    change (length nl) with 1%nat. change (length (lit "...")) with 3%nat.
    lia.
  - apply Z.ltb_ge in E. lia.
Qed.

Lemma html_request_text chatId text options :
  Forall (fun kv => kv.1 <> lit "text") options ->
  text_within text (html_request chatId (safe_text text) options).
Proof.
  intros Hopt. exists (safe_text text).
  destruct (safe_text_length text) as [Hsafe Hlong].
  unfold html_request. cbn [req_body get].
  rewrite lookup_spread_other by exact Hopt. cbn.
  repeat split; try done. intros H. rewrite Hlong; [lia | exact H].
Qed.

Lemma plain_request_text chatId text options :
  Forall (fun kv => kv.1 <> lit "text") options ->
  text_within text (plain_request chatId (safe_text text) options).
Proof.
  intros Hopt. exists (replace_all re_tag [] (safe_text text)).
  destruct (safe_text_length text) as [Hsafe Hlong].
  pose proof (replace_all_erase_length re_tag (safe_text text)) as Hplain.
  unfold plain_request. cbn [req_body get].
  rewrite lookup_spread_other by exact Hopt. cbn.
  repeat split; try lia.
Qed.

(** What one call of [sendTelegram] sends: nothing without a token;
    otherwise the HTML request, followed by the plain request exactly when
    the first one is answered with an entity-parsing error. *)
Lemma sendTelegram_requests (chatId : value) (text : jsstring)
    (options : list (jsstring * value)) (st : state) :
  exists new : list request,
    sent (sendTelegram chatId text options st).2 = sent st ++ new
    /\ conversationMap (sendTelegram chatId text options st).2
       = conversationMap st
    /\ (new = []
        \/ new = [html_request chatId (safe_text text) options]
        \/ new = [html_request chatId (safe_text text) options;
                  plain_request chatId (safe_text text) options])
    /\ (configured TELEGRAM_BOT_TOKEN = true -> new <> []).
Proof.
  unfold sendTelegram.
  destruct (configured TELEGRAM_BOT_TOKEN); cbn [negb].
  2:{ exists []. cbn. rewrite app_nil_r. repeat split; auto; discriminate. }
  unfold bind, do_fetch, ret. cbn [outside sent conversationMap].
  destruct (fetch _ (outside st)) as [[msg | res] w1];
    cbn [outside sent conversationMap snd].
  { eexists. split; [reflexivity | ]. split; [reflexivity | ].
    split; [right; left; reflexivity | discriminate]. }
  destruct (res_ok res); cbn [negb].
  { eexists. split; [reflexivity | ]. split; [reflexivity | ].
    split; [right; left; reflexivity | discriminate]. }
  destruct (includes _ _).
  2:{ eexists. split; [reflexivity | ]. split; [reflexivity | ].
      split; [right; left; reflexivity | discriminate]. }
  cbn [outside sent conversationMap].
  destruct (fetch (plain_request chatId (safe_text text) options) w1)
    as [[msg | res2] w2];
    [ | destruct (res_ok res2)]; cbn [outside sent conversationMap snd];
    (eexists; split; [rewrite <- app_assoc; reflexivity | ];
     split; [reflexivity | ];
     split; [right; right; reflexivity | discriminate]).
Qed.

Lemma sendTelegram_texts_within (chatId : value) (text : jsstring)
    (options : list (jsstring * value)) (st : state) :
  Forall (fun kv => kv.1 <> lit "text") options ->
  exists new : list request,
    sent (sendTelegram chatId text options st).2 = sent st ++ new
    /\ Forall (text_within text) new.
Proof.
  intros Hopt.
  destruct (sendTelegram_requests chatId text options st)
    as (new & Hsent & _ & Hnew & _).
  exists new. split; [exact Hsent | ].
  pose proof (html_request_text chatId text options Hopt) as Hhtml.
  pose proof (plain_request_text chatId text options Hopt) as Hplain.
  destruct Hnew as [-> | [-> | ->]]; repeat constructor; assumption.
Qed.

(** C10: whatever the text, the [text] field of every request body that
    [sendTelegram] submits to [sendMessage] is a string of at most 4096
    units; a text over the limit goes out as its first 4090 units and a
    four-unit ellipsis suffix, or shorter still.  This holds for the
    call with the default options, and for every options object that
    has no [text] entry of its own. *)
Theorem sendTelegram_text_limit (chatId : value) (text : jsstring)
    (st : state) :
  (exists new : list request,
     sent (sendTelegram chatId text [] st).2 = sent st ++ new
     /\ Forall (fun r =>
                  exists t, get (req_body r) (lit "text") = VStr t
                            /\ js_length t <= 4096
                            /\ (4096 < js_length text -> js_length t <= 4094))
          new)
  /\ (forall options : list (jsstring * value),
        Forall (fun kv => kv.1 <> lit "text") options ->
        exists new : list request,
          sent (sendTelegram chatId text options st).2 = sent st ++ new
          /\ Forall (fun r =>
                       exists t, get (req_body r) (lit "text") = VStr t
                                 /\ js_length t <= 4096
                                 /\ (4096 < js_length text ->
                                     js_length t <= 4094))
               new).
Proof.
  split.
  - apply (sendTelegram_texts_within chatId text [] st). constructor.
  - intros options Hopt. by apply sendTelegram_texts_within.
Qed.

End GatewayFacts.

(** ** The reasoning client *)

Section QueryFacts.
Import Gateway.
Context {R : Runtime} {C : Config}.

Lemma read_reply_quiet (chatId : jsstring) (res : response) (st : state) :
  sent (read_reply chatId res st).2 = sent st
  /\ outside (read_reply chatId res st).2 = outside st
  /\ (read_reply chatId res st).1 <> Unfinished.
Proof.
  unfold read_reply, json_of, prop, bind, ret, throw.
  destruct (res_json res) as [data | ]; [ | by cbn].
  destruct (nullish data); [by cbn | ].
  destruct (truthy (get data (lit "conversation_id"))); cbn -[filter];
    destruct (or_else (get data (lit "steps")) (VArr [])) as [ | | | | | items | ];
    try (by cbn); destruct (existsb nullish items); by cbn.
Qed.

Lemma converse_request_without_id (input : jsstring) :
  get (req_body (converse_request input VUndefined)) (lit "conversation_id")
  = VUndefined.
Proof. reflexivity. Qed.

Lemma converse_request_with_id (input : jsstring) (id : value) :
  truthy id = true ->
  get (req_body (converse_request input id)) (lit "conversation_id") = id.
Proof.
  intros H. unfold converse_request. cbn [req_body]. rewrite H. reflexivity.
Qed.

(** A call that finds no session for the channel makes no recursive call:
    it sends one request without a conversation id, and a failure of that
    request is thrown. *)
Lemma queryApollo_without_session (fuel : nat) (userMessage : value)
    (input : jsstring) (chatId : jsstring) (st : state) :
  or_else userMessage (VStr []) = VStr input ->
  is_empty (trim input) = false ->
  conversationMap st !! chatId = None ->
  let retry := converse_request (trim input) VUndefined in
  let after w :=
    {| conversationMap := conversationMap st; outside := w;
       sent := sent st ++ [retry] |} in
  queryApollo_fuel fuel userMessage chatId st
  = match fetch retry (outside st) with
    | (Rejected message, w) => (Thrown message, after w)
    | (Responded res, w) =>
        if res_ok res then read_reply chatId res (after w)
        else (Thrown (lit "Apollo API (" ++ ToString (num (res_status res))
                      ++ lit "): " ++ substring (res_text res) 0 200),
              after w)
    end.
Proof.
  intros Hmsg Hinput Hnone retry after.
  destruct fuel; cbn [queryApollo_fuel]; rewrite Hmsg, Hinput;
    unfold bind, conversation_get, do_fetch; rewrite Hnone;
    cbn [default outside sent conversationMap];
    fold retry;
    destruct (fetch retry (outside st)) as [[message | res] w];
    try reflexivity;
    destruct (res_ok res); cbn [negb truthy andb]; try reflexivity;
    rewrite andb_false_r; reflexivity.
Qed.

End QueryFacts.

(** ** Claims about the reasoning client *)

Section QueryClaims.
Import Gateway.
Context {R : Runtime} {C : Config}.

(** C1: when a session id is stored for the channel (and so is sent with
    the first request) and the first response is a failure whose text
    contains "not found", [queryApollo] deletes the stored session, then
    calls itself once more; that retry sends one request, without a
    session id, and makes no further call: when the retry fails, the
    failure is thrown with the session still deleted. *)
Theorem queryApollo_stale_session (fuel : nat) (userMessage : value)
    (input chatId : jsstring) (id : value) (res1 : response) (w1 : world)
    (st : state) :
  or_else userMessage (VStr []) = VStr input ->
  is_empty (trim input) = false ->
  conversationMap st !! chatId = Some id ->
  truthy id = true ->
  fetch (converse_request (trim input) id) (outside st)
  = (Responded res1, w1) ->
  res_ok res1 = false ->
  includes (res_text res1) (lit "not found") = true ->
  let first := converse_request (trim input) id in
  let retry := converse_request (trim input) VUndefined in
  let cleared := delete chatId (conversationMap st) in
  let st1 := {| conversationMap := cleared; outside := w1;
                sent := sent st ++ [first] |} in
  let run := queryApollo_fuel (S fuel) userMessage chatId st in
  get (req_body first) (lit "conversation_id") = id
  /\ get (req_body retry) (lit "conversation_id") = VUndefined
  /\ run = queryApollo_fuel fuel userMessage chatId st1
  /\ sent run.2 = sent st ++ [first; retry]
  /\ run.1 <> Unfinished
  /\ match fetch retry w1 with
     | (Rejected message, w2) =>
         run = (Thrown message,
                {| conversationMap := cleared; outside := w2;
                   sent := sent st ++ [first; retry] |})
     | (Responded res2, w2) =>
         res_ok res2 = false ->
         run = (Thrown (lit "Apollo API ("
                        ++ ToString (num (res_status res2))
                        ++ lit "): " ++ substring (res_text res2) 0 200),
                {| conversationMap := cleared; outside := w2;
                   sent := sent st ++ [first; retry] |})
     end.
Proof.
  intros Hmsg Hinput Hsome Hid Hfetch Hfail Hstale first retry cleared st1 run.
  assert (Hstep : run = queryApollo_fuel fuel userMessage chatId st1).
  { subst run. cbn [queryApollo_fuel]. rewrite Hmsg, Hinput.
    unfold bind at 1. unfold conversation_get at 1. rewrite Hsome.
    cbn [default from_option Datatypes.id].
    unfold bind at 1. unfold do_fetch at 1.
    rewrite Hfetch, Hfail, Hstale, Hid. cbn [negb andb].
    unfold bind at 1. unfold conversation_delete at 1.
    cbn [conversationMap outside sent]. reflexivity. }
  assert (Hretry := queryApollo_without_session fuel userMessage input chatId
                      st1 Hmsg Hinput).
  rewrite <- Hstep in Hretry. subst st1.
  cbn [conversationMap outside sent] in Hretry.
  specialize (Hretry (lookup_delete_eq _ _)).
  split; [by apply converse_request_with_id | ].
  split; [reflexivity | ].
  split; [exact Hstep | ].
  rewrite Hretry. fold retry.
  destruct (fetch retry w1) as [[message | res2] w2].
  - cbn [fst snd sent]. rewrite <- app_assoc. repeat split; done.
  - destruct (res_ok res2).
    + destruct (read_reply_quiet chatId res2
                  {| conversationMap := cleared; outside := w2;
                     sent := (sent st ++ [first]) ++ [retry] |})
        as (Hsent & _ & Hfin).
      split; [rewrite Hsent; cbn [sent]; by rewrite <- app_assoc | ].
      split; [exact Hfin | done].
    + cbn [fst snd sent]. rewrite <- app_assoc. repeat split; done.
Qed.

End QueryClaims.

(** ** Concrete runs of the Telegram helper and the reasoning client *)

Section ClientRuns.
Import Gateway Scenario.
#[local] Existing Instance scripted.
#[local] Existing Instance all_configured.

(** C10 on a text of 5000 units, with an option that is not [text]. *)
Lemma sendTelegram_text_limit_witness :
  Forall (fun kv : jsstring * value => kv.1 <> lit "text") silent
  /\ exists new : list request,
       sent (sendTelegram VUndefined long_text silent
               (start [answer true 200 "OK" None] [])).2
       = sent (start [answer true 200 "OK" None] []) ++ new
       /\ Forall (text_within long_text) new.
Proof.
  assert (H : Forall (fun kv : jsstring * value => kv.1 <> lit "text") silent)
    by (repeat constructor; discriminate).
  split; [exact H | ].
  destruct (sendTelegram_text_limit VUndefined long_text
              (start [answer true 200 "OK" None] [])) as [_ Hall].
  exact (Hall silent H).
Defined.

(** C1 on a channel with a stored session, a first answer "conversation
    not found" and a second answer that fails as well. *)
Lemma queryApollo_stale_session_witness :
  (conversationMap stale !! lit "chat-7" = Some (vstr "conv-1"))
  /\ sent (queryApollo (vstr " status? ") (lit "chat-7") stale).2
     = [converse_request (lit "status?") (vstr "conv-1");
        converse_request (lit "status?") VUndefined]
  /\ queryApollo (vstr " status? ") (lit "chat-7") stale
     = (Thrown (lit "Apollo API (500): upstream down"),
        {| conversationMap := delete (lit "chat-7") (conversationMap stale);
           outside := [];
           sent := [converse_request (lit "status?") (vstr "conv-1");
                    converse_request (lit "status?") VUndefined] |}).
Proof.
  assert (H1 : conversationMap stale !! lit "chat-7" = Some (vstr "conv-1"))
    by (vm_compute; reflexivity).
  split; [exact H1 | ].
  pose proof (queryApollo_stale_session
                O (vstr " status? ") (lit " status? ") (lit "chat-7")
                (vstr "conv-1")
                {| res_ok := false; res_status := 404;
                   res_text := lit "conversation not found";
                   res_json := None |}
                [answer false 500 "upstream down" None]
                stale eq_refl eq_refl H1 eq_refl eq_refl eq_refl eq_refl)
    as (_ & _ & _ & Hsent & _ & Hfail).
  split; [exact Hsent | ].
  exact (Hfail eq_refl).
Defined.

End ClientRuns.

(** ** The dispatcher *)

Section DispatcherFacts.
Import Gateway.
Context {R : Runtime} {C : Config} {H : Handlers}.

Lemma equals_true (v : value) (s : string) :
  equals v s = true -> v = vstr s.
Proof.
  destruct v; cbn; try discriminate. intros E.
  apply bool_decide_eq_true in E. by subst.
Qed.

(** The part of [mcp] behind [case "tools/call"]. *)
Lemma mcp_tools_call (body : value) (st : state) :
  nullish body = false ->
  equals (get body (lit "method")) "tools/call" = true ->
  nullish (get body (lit "params")) = false ->
  mcp body st
  = (let* result :=
       try_catch (call_tool (get (get body (lit "params")) (lit "name"))
                    (get (get body (lit "params")) (lit "arguments")))
         (fun message => ret (VObj [(lit "error", VStr message)])) in
     ret (rpc_result (get body (lit "id")) (tool_content result))) st.
Proof.
  intros Hbody Hmethod Hparams. unfold mcp, prop.
  rewrite Hbody, Hparams. unfold bind at 1. unfold ret at 1.
  apply equals_true in Hmethod. rewrite Hmethod.
  change (equals (vstr "tools/call") "initialize") with false.
  change (equals (vstr "tools/call") "tools/list") with false.
  change (equals (vstr "tools/call") "tools/call") with true.
  cbv iota. unfold bind at 1. unfold ret at 1. reflexivity.
Qed.

Lemma printed_returns (vs : list value) (st : state) :
  forallb printable vs = true -> printed vs st = (Returned tt, st).
Proof. intros Hall. unfold printed. by rewrite Hall. Qed.

Lemma printed_throws (vs : list value) (st : state) :
  forallb printable vs = false ->
  printed vs st
  = (Thrown (lit "Cannot convert object to primitive value"), st).
Proof. intros Hall. unfold printed. by rewrite Hall. Qed.

Lemma unknown_name (name : value) :
  Forall (fun known => equals name known = false) TOOL_NAMES ->
  forall args,
    call_tool name args
    = (let* _ := printed [name] in
       ret (VObj [(lit "error", VStr (lit "Unknown tool: " ++ tpl name))])).
Proof.
  intros Hall args. unfold TOOL_NAMES in Hall.
  repeat (apply Forall_cons in Hall as [? Hall]).
  unfold call_tool.
  repeat match goal with
         | E : equals name _ = false |- _ => rewrite E; clear E
         end.
  reflexivity.
Qed.

End DispatcherFacts.

(** ** Claims about the dispatcher *)

Section DispatcherClaims.
Import Gateway.
Context {R : Runtime} {C : Config} {H : Handlers}.

(** C6, as amended: when the handler named in a [tools/call] request
    throws, the dispatcher catches the error and answers with a normal
    result: the response is [{ jsonrpc: "2.0", id, result }] under the
    request's id, and the content of the result is one text, the
    serialisation of the object [{ error: message }] (an error message,
    with no [success] field); the response has no [error] member. *)
Theorem mcp_handler_throws (body : value) (message : jsstring)
    (st st' : state) :
  nullish body = false ->
  equals (get body (lit "method")) "tools/call" = true ->
  nullish (get body (lit "params")) = false ->
  call_tool (get (get body (lit "params")) (lit "name"))
    (get (get body (lit "params")) (lit "arguments")) st
  = (Thrown message, st') ->
  mcp body st
  = (Returned
       (VObj [(lit "jsonrpc", vstr "2.0");
              (lit "id", get body (lit "id"));
              (lit "result",
               VObj [(lit "content",
                      VArr [VObj [(lit "type", vstr "text");
                                  (lit "text",
                                   VStr (JSON_stringify
                                           (VObj [(lit "error",
                                                   VStr message)])))]])])]),
     st').
Proof.
  intros Hbody Hmethod Hparams Hthrow.
  rewrite mcp_tools_call by assumption.
  unfold bind, try_catch. rewrite Hthrow. reflexivity.
Qed.

(** C7, as amended: a [tools/call] request whose tool name is not in the
    catalogue is answered with a result under the request's id, whose
    content is one text, the serialisation of an object [{ error: message }];
    the state of the gateway and of the world is the same afterwards, no
    request has been sent, nothing is thrown and the response has no
    [error] member.  For a name that can be printed (a missing name
    included) the message is "Unknown tool: " followed by the name; a name
    that cannot be printed makes the template throw inside the [try], and
    the message is that of the [TypeError], which does not mention an
    unknown tool. *)
Theorem mcp_unknown_tool (body : value) (st : state) :
  nullish body = false ->
  equals (get body (lit "method")) "tools/call" = true ->
  nullish (get body (lit "params")) = false ->
  Forall (fun known =>
            equals (get (get body (lit "params")) (lit "name")) known = false)
    TOOL_NAMES ->
  exists message : jsstring,
    mcp body st
    = (Returned
         (VObj [(lit "jsonrpc", vstr "2.0");
                (lit "id", get body (lit "id"));
                (lit "result",
                 VObj [(lit "content",
                        VArr [VObj [(lit "type", vstr "text");
                                    (lit "text",
                                     VStr (JSON_stringify
                                             (VObj [(lit "error",
                                                     VStr message)])))]])])]),
       st)
    /\ (printable (get (get body (lit "params")) (lit "name")) = true ->
        message
        = lit "Unknown tool: "
          ++ tpl (get (get body (lit "params")) (lit "name")))
    /\ (printable (get (get body (lit "params")) (lit "name")) = false ->
        message = lit "Cannot convert object to primitive value").
Proof.
  intros Hbody Hmethod Hparams Hname.
  rewrite mcp_tools_call by assumption.
  rewrite (unknown_name _ Hname).
  destruct (printable (get (get body (lit "params")) (lit "name"))) eqn:Hprint.
  - eexists. split; [ | split; [by intros _ | discriminate]].
    unfold bind, try_catch.
    rewrite printed_returns by (cbn [forallb]; by rewrite Hprint).
    reflexivity.
  - eexists. split; [ | split; [discriminate | by intros _]].
    unfold bind, try_catch.
    rewrite printed_throws by (cbn [forallb]; by rewrite Hprint).
    reflexivity.
Qed.

End DispatcherClaims.

(** ** Health verification *)

Section HealthFacts.
Import Gateway.
Context {R : Runtime} {C : Config}.

Lemma metric_number (row : value) (column : string) :
  number_or_absent (get row (lit column)) ->
  exists q, metric row column = VNum q.
Proof.
  unfold metric, or_else. intros [Hfalsy | [q Hq]].
  - rewrite Hfalsy. by eexists.
  - rewrite Hq. destruct (truthy (VNum q)); by eexists.
Qed.

Lemma metric_below (row : value) (column : string) (q bound : Q) :
  get row (lit column) = VNum q ->
  (q < bound)%Q -> (0 < bound)%Q ->
  lt (to_number (metric row column)) (Some bound) = true.
Proof.
  intros Hq Hlt Hpos. unfold metric, or_else. rewrite Hq.
  destruct (truthy (VNum q)); cbn [to_number lt num];
    apply negb_true_iff; apply not_true_is_false; intros Hle;
    apply Qle_bool_iff in Hle.
  - by apply Qlt_not_le in Hlt.
  - by apply Qlt_not_le in Hpos.
Qed.

End HealthFacts.

Section HealthClaims.
Import Gateway.
Context {R : Runtime} {C : Config}.


End HealthClaims.

(** ** Scheduled scan *)

Section ScanFacts.
Import Gateway.
Context {R : Runtime} {C : Config}.

Lemma sendTelegram_finishes (chatId : value) (text : jsstring)
    (options : list (jsstring * value)) (st : state) :
  (sendTelegram chatId text options st).1 <> Unfinished.
Proof.
  unfold sendTelegram.
  destruct (configured TELEGRAM_BOT_TOKEN); cbn [negb]; [ | by cbn].
  unfold bind, do_fetch, ret.
  destruct (fetch _ (outside st)) as [[msg | res] w1]; [by cbn | ].
  destruct (res_ok res); cbn [negb]; [by cbn | ].
  destruct (includes _ _); [ | by cbn].
  cbn [outside sent conversationMap].
  destruct (fetch (plain_request chatId (safe_text text) options) w1)
    as [[msg | res2] w2]; [by cbn | ].
  by destruct (res_ok res2).
Qed.

Lemma scan_alert_length (rawResponse : jsstring) :
  js_length (scan_alert rawResponse) <= 3833.
Proof.
  unfold scan_alert, js_length. rewrite substring_prefix.
  rewrite length_app, length_take.
  change (length scan_header) with 33%nat. lia.
Qed.

Lemma safe_text_short (text : jsstring) :
  js_length text <= 4096 -> safe_text text = text.
Proof.
  intros H. unfold safe_text. apply Z.ltb_ge in H. by rewrite H.
Qed.

End ScanFacts.

Section ScanClaims.
Import Gateway.
Context {R : Runtime} {C : Config}.

(** C5: in a scan cycle with the alert channel configured, once the
    reasoning engine has replied: if the reply matches an "all clear"
    phrasing, nothing more is sent; otherwise [sendTelegram] is called
    exactly once, to the alert channel, with the header and the first 3800
    units of the formatted reply, a text of at most 3833 units that goes
    out as it is.  That one call submits the alert once, and once more as
    plain text only if Telegram answers the first submission with an
    entity-parsing error. *)
Theorem autonomousScan_alerts (rawResponse : jsstring) (st st1 : state) :
  configured TELEGRAM_BOT_TOKEN = true ->
  configured TELEGRAM_CHAT_ID = true ->
  queryApollo (VStr scan_prompt) (lit "scheduled-scan") st
  = (Returned rawResponse, st1) ->
  (test re_all_clear rawResponse = true ->
   autonomousScan st = (Returned tt, st1))
  /\ (test re_all_clear rawResponse = false ->
      let alert := scan_alert rawResponse in
      autonomousScan st
      = (Returned tt,
         (sendTelegram (VStr TELEGRAM_CHAT_ID) alert [] st1).2)
      /\ js_length alert <= 3833
      /\ exists resend : list request,
           sent (autonomousScan st).2
           = sent st1 ++ html_request (VStr TELEGRAM_CHAT_ID) alert [] :: resend
           /\ (resend = []
               \/ resend = [plain_request (VStr TELEGRAM_CHAT_ID) alert []])).
Proof.
  intros Htoken Hchat Hquery.
  unfold autonomousScan, try_catch, bind. rewrite Hquery, Htoken, Hchat.
  split; intros Htest; rewrite Htest; cbn [negb andb]; [reflexivity | ].
  set (alert := scan_alert rawResponse).
  pose proof (sendTelegram_finishes (VStr TELEGRAM_CHAT_ID) alert [] st1)
    as Hfin.
  destruct (sendTelegram_requests (VStr TELEGRAM_CHAT_ID) alert [] st1)
    as (new & Hsent & _ & Hnew & Hsome).
  pose proof (scan_alert_length rawResponse) as Hlen. fold alert in Hlen.
  rewrite (safe_text_short alert) in Hnew by lia.
  fold alert.
  destruct (sendTelegram (VStr TELEGRAM_CHAT_ID) alert [] st1)
    as [[v | message | ] st2]; cbn [fst snd] in *; [ | | done].
  all: split; [reflexivity | ]; split; [exact Hlen | ]; cbn [snd].
  all: destruct Hnew as [-> | [-> | ->]];
    [ by destruct (Hsome Htoken)
    | exists []; split; [exact Hsent | by left]
    | eexists; split; [exact Hsent | by right] ].
Qed.

End ScanClaims.

(** ** Rollback *)

Section RollbackFacts.
Import Gateway.
Context {R : Runtime} {C : Config}.

(** When no request is rejected, [sendTelegram] returns. *)
Lemma sendTelegram_returns (chatId : value) (text : jsstring)
    (options : list (jsstring * value)) (st : state) :
  always_answers ->
  exists v new,
    sendTelegram chatId text options st
    = (Returned v,
       {| conversationMap := conversationMap st;
          outside := outside (sendTelegram chatId text options st).2;
          sent := sent st ++ new |})
    /\ Forall (fun r => req_url r = telegram_url) new.
Proof.
  intros Hnet. unfold sendTelegram.
  destruct (configured TELEGRAM_BOT_TOKEN); cbn [negb].
  2:{ eexists _, []. rewrite app_nil_r. split; [ | constructor].
      unfold ret. by destruct st. }
  unfold bind, do_fetch, ret.
  destruct (Hnet (html_request chatId (safe_text text) options) (outside st))
    as (res & w1 & ->).
  destruct (res_ok res); cbn [negb].
  { eexists _, [_]. split; [reflexivity | ]. by repeat constructor. }
  destruct (includes _ _).
  2:{ eexists _, [_]. split; [reflexivity | ]. by repeat constructor. }
  cbn [outside sent conversationMap].
  destruct (Hnet (plain_request chatId (safe_text text) options) w1)
    as (res2 & w2 & ->).
  destruct (res_ok res2); eexists _, [_; _]; rewrite <- app_assoc;
    (split; [reflexivity | by repeat constructor]).
Qed.

Lemma text_printable (v : value) : text_or_absent v -> printable v = true.
Proof.
  intros [Hfalsy | [s ->]]; [ | reflexivity].
  destruct v; try reflexivity; discriminate.
Qed.

Lemma texts_printable (vs : list value) :
  Forall text_or_absent vs -> forallb printable vs = true.
Proof.
  induction 1 as [| v vs Hv _ IH]; [reflexivity | ].
  cbn [forallb]. by rewrite (text_printable v Hv), IH.
Qed.

(** Printing arguments that are strings or falsy never throws. *)
Lemma texts_printed (params : value) (names : list string) (st : state) :
  texts params names ->
  printed (map (fun name => get params (lit name)) names) st
  = (Returned tt, st).
Proof.
  intros Htexts. apply printed_returns, texts_printable.
  by apply Forall_map.
Qed.

Lemma texts_one (params : value) (names : list string) (name : string) :
  texts params names ->
  existsb (String.eqb name) names = true ->
  text_or_absent (get params (lit name)).
Proof.
  unfold texts. induction 1 as [| other names Hother _ IH]; [discriminate | ].
  cbn [existsb]. destruct (String.eqb name other) eqn:Heq; [ | exact IH].
  intros _. apply String.eqb_eq in Heq. by subst other.
Qed.

Lemma texts_weaken (params : value) (names some : list string) :
  texts params names ->
  forallb (fun name => existsb (String.eqb name) names) some = true ->
  texts params some.
Proof.
  intros Hall. induction some as [| name some IH]; [constructor | ].
  cbn [forallb]. intros [Hname Hsome]%andb_true_iff.
  apply Forall_cons_2; [ | by apply IH].
  exact (texts_one params names name Hall Hname).
Qed.

Lemma escapeHtml_returns (v : value) (st : state) :
  text_or_absent v -> exists s, escapeHtml v st = (Returned s, st).
Proof.
  unfold escapeHtml. intros [Hfalsy | [s ->]].
  - rewrite Hfalsy. by eexists.
  - destruct (truthy (VStr s)); by eexists.
Qed.

End RollbackFacts.

(** ** The handlers of several steps *)

Section StepFacts.
Import Gateway Tools Conditions.
Context {R : Runtime} {C : Config} {P : Prototype}.

Lemma runs_ret {A} (a : A) (Q : A -> list request -> Prop) :
  Q a [] -> runs (ret a) Q.
Proof.
  intros HQ st. exists a, st, []. rewrite app_nil_r. by repeat split.
Qed.

Lemma runs_bind {A B} (m : M A) (k : A -> M B)
    (Q : B -> list request -> Prop) :
  runs m (fun a new => runs (k a) (fun b more => Q b (new ++ more))) ->
  runs (bind m k) Q.
Proof.
  intros Hm st.
  destruct (Hm st) as (a & st1 & new & Hrun & Hsent & Hk).
  destruct (Hk st1) as (b & st2 & more & Hrun' & Hsent' & HQ).
  exists b, st2, (new ++ more). unfold bind. rewrite Hrun, Hrun'.
  split; [reflexivity | ]. split; [ | exact HQ].
  by rewrite Hsent', Hsent, app_assoc.
Qed.

Lemma runs_now (Q : Z -> list request -> Prop) :
  (forall t, Q t []) -> runs now Q.
Proof.
  intros HQ st. unfold now. destruct (Date_now (outside st)) as [t w].
  eexists t, _, []. split; [reflexivity | ].
  split; [cbn [sent]; by rewrite app_nil_r | apply HQ].
Qed.

Lemma runs_timestamp (Q : jsstring -> list request -> Prop) :
  (forall stamp, Q stamp []) -> runs timestamp Q.
Proof.
  intros HQ. unfold timestamp. apply runs_bind, runs_now. intros t.
  apply runs_ret. apply HQ.
Qed.

Lemma runs_random (Post : Q -> list request -> Prop) :
  (forall r, Post r []) -> runs random Post.
Proof.
  intros HQ st. unfold random. destruct (Math_random (outside st)) as [r w].
  eexists r, _, []. split; [reflexivity | ].
  split; [cbn [sent]; by rewrite app_nil_r | apply HQ].
Qed.

Lemma runs_prop (v : value) (key : string)
    (Q : value -> list request -> Prop) :
  nullish v = false -> Q (get v (lit key)) [] -> runs (prop v key) Q.
Proof.
  intros Hv HQ. unfold prop. rewrite Hv. by apply runs_ret.
Qed.

Lemma runs_printed (vs : list value) (Q : unit -> list request -> Prop) :
  forallb printable vs = true -> Q tt [] -> runs (printed vs) Q.
Proof.
  intros Hvs HQ. unfold printed. rewrite Hvs. by apply runs_ret.
Qed.

Lemma runs_escape (v : value) (Q : jsstring -> list request -> Prop) :
  text_or_absent v -> (forall s, Q s []) -> runs (escapeHtml v) Q.
Proof.
  intros Hv HQ st. destruct (escapeHtml_returns v st Hv) as [s Hrun].
  exists s, st, []. rewrite app_nil_r. split; [exact Hrun | ].
  split; [reflexivity | apply HQ].
Qed.

Lemma runs_receiver (s : jsstring) (name : string)
    (Q : jsstring -> list request -> Prop) :
  Q s [] -> runs (string_receiver (VStr s) name) Q.
Proof. intros HQ. by apply runs_ret. Qed.

Lemma runs_join (items : list value) (sep : jsstring)
    (Q : jsstring -> list request -> Prop) :
  forallb printable items = true ->
  Q (join_values sep items) [] ->
  runs (join_of (VArr items) sep) Q.
Proof.
  intros Hitems HQ. unfold join_of. apply runs_bind, runs_printed.
  - exact Hitems.
  - by apply runs_ret.
Qed.

Lemma runs_fetch (req : request) (Q : response -> list request -> Prop) :
  always_answers -> (forall res, Q res [req]) -> runs (do_fetch req) Q.
Proof.
  intros Hnet HQ st. unfold do_fetch.
  destruct (Hnet req (outside st)) as (res & w & ->).
  eexists res, _, [req]. split; [reflexivity | ].
  split; [reflexivity | apply HQ].
Qed.

Lemma runs_write (write : value -> request) (doc : value)
    (Q : response -> list request -> Prop) :
  accepts write ->
  (forall res stored,
     res_ok res = true ->
     res_json res = Some stored ->
     document stored ->
     (exists w w', fetch (write doc) w = (Responded res, w')) ->
     Q res [write doc]) ->
  runs (do_fetch (write doc)) Q.
Proof.
  intros Hstore HQ st. unfold do_fetch.
  destruct (Hstore doc (outside st))
    as (res & w & stored & Hfetch & Hok & Hjson & Hdoc).
  rewrite Hfetch.
  eexists res, _, [write doc]. split; [reflexivity | ].
  split; [reflexivity | ].
  apply (HQ res stored Hok Hjson Hdoc). by eexists _, _.
Qed.

Lemma runs_json (res : response) (stored : value)
    (Q : value -> list request -> Prop) :
  res_json res = Some stored -> Q stored [] -> runs (json_of res) Q.
Proof. intros Hjson HQ. unfold json_of. rewrite Hjson. by apply runs_ret. Qed.

Lemma runs_telegram (chatId : value) (text : jsstring)
    (options : list (jsstring * value))
    (Q : value -> list request -> Prop) :
  always_answers ->
  (forall v new,
     Forall notification new ->
     (configured TELEGRAM_BOT_TOKEN = true ->
      Exists (fun r => req_url r = telegram_url) new) ->
     Q v new) ->
  runs (sendTelegram chatId text options) Q.
Proof.
  intros Hnet HQ st. unfold sendTelegram.
  destruct (configured TELEGRAM_BOT_TOKEN); cbn [negb].
  2:{ eexists _, st, []. rewrite app_nil_r. split; [reflexivity | ].
      split; [reflexivity | ]. apply HQ; [constructor | discriminate]. }
  unfold bind, do_fetch, ret.
  destruct (Hnet (html_request chatId (safe_text text) options) (outside st))
    as (res & w1 & ->).
  assert (Hshape : forall (v : value) (more : list request),
             Forall (fun r => req_url r = telegram_url) more ->
             Q v (html_request chatId (safe_text text) options :: more)).
  { intros v more Hmore. apply HQ.
    - apply Forall_cons_2; [by right | ].
      eapply Forall_impl; [exact Hmore | ]. intros r Hr. by right.
    - intros _. by apply Exists_cons_hd. }
  destruct (res_ok res); cbn [negb].
  { eexists _, _, [_]. split; [reflexivity | ]. split; [reflexivity | ].
    apply Hshape. constructor. }
  destruct (includes _ _).
  2:{ eexists _, _, [_]. split; [reflexivity | ]. split; [reflexivity | ].
      apply Hshape. constructor. }
  cbn [outside sent conversationMap].
  destruct (Hnet (plain_request chatId (safe_text text) options) w1)
    as (res2 & w2 & ->).
  destruct (res_ok res2); eexists _, _, [_; _]; rewrite <- app_assoc;
    (split; [reflexivity | ]; split; [reflexivity | ];
     apply Hshape; by repeat constructor).
Qed.

Lemma runs_label (label : value) (Q : unit -> list request -> Prop) :
  always_answers -> (forall new, Q tt new) -> runs (ensure_label label) Q.
Proof.
  intros Hnet HQ st. unfold ensure_label, try_catch.
  destruct label as [ | | b | q | s | items | props];
    try (unfold string_receiver, bind, prop, ret, throw; cbn [nullish];
         eexists tt, st, []; rewrite app_nil_r;
         split; [reflexivity | ]; split; [reflexivity | apply HQ]).
  cbn [string_receiver]. unfold bind at 1. unfold ret at 1.
  unfold bind, do_fetch, ret.
  match goal with
  | |- context [fetch ?req (outside st)] =>
      destruct (Hnet req (outside st)) as (res & w & ->);
      eexists tt, _, [req]
  end.
  split; [reflexivity | ]. split; [reflexivity | apply HQ].
Qed.

Lemma runs_labels (labels : list value)
    (Q : unit -> list request -> Prop) :
  always_answers -> (forall new, Q tt new) -> runs (ensure_labels labels) Q.
Proof.
  intros Hnet. revert Q.
  induction labels as [| label labels IH]; intros Q HQ;
    cbn [ensure_labels].
  - apply runs_ret, HQ.
  - apply runs_bind, runs_label; [exact Hnet | ]. intros new.
    apply IH. intros more. apply HQ.
Qed.

Lemma text_or_else (v : value) (s : jsstring) :
  text_or_absent v -> text_or_absent (or_else v (VStr s)).
Proof.
  intros [Hfalsy | [t ->]]; unfold or_else.
  - rewrite Hfalsy. right. by eexists.
  - destruct (truthy (VStr t)); right; by eexists.
Qed.

Lemma document_object (stored : value) :
  document stored -> nullish stored = false.
Proof. by intros (props & -> & _). Qed.

Lemma document_printable (stored : value) (key : jsstring) :
  document stored -> printable (get stored key) = true.
Proof.
  intros (props & -> & Hprops). cbn [get].
  induction props as [| [k v] props IH]; [reflexivity | ].
  cbn [forallb] in Hprops. apply andb_true_iff in Hprops as [Hv Hprops].
  cbn [lookup_prop].
  destruct (lookup_prop key props) eqn:Hrest; try exact (IH Hprops);
    destruct (decide _); try exact Hv; try exact (IH Hprops).
Qed.

End StepFacts.

(** The side conditions of a run: an argument is a string or falsy, and a
    value can be printed. *)
Ltac text :=
  lazymatch goal with
  | |- Gateway.text_or_absent (or_else _ _) => apply text_or_else; text
  | |- Gateway.text_or_absent (VStr _) => right; eexists; reflexivity
  | H : Gateway.texts ?p _ |- Gateway.text_or_absent (get ?p _) =>
      apply (texts_one _ _ _ H); reflexivity
  end.

Ltac printing :=
  cbn [forallb]; repeat (apply andb_true_intro; split);
  first [ reflexivity
        | assumption
        | apply text_printable; text
        | apply document_printable; assumption ].

(** One step of a run that cannot throw. *)
Ltac step :=
  cbn beta;
  lazymatch goal with
  | |- Conditions.runs (Gateway.bind _ _) _ => apply runs_bind; step
  | |- Conditions.runs (Gateway.ret _) _ => apply runs_ret
  | |- Conditions.runs Gateway.now _ => apply runs_now; intros ?
  | |- Conditions.runs Tools.timestamp _ => apply runs_timestamp; intros ?
  | |- Conditions.runs Tools.random _ => apply runs_random; intros ?
  | |- Conditions.runs (Gateway.prop _ _) _ =>
      apply runs_prop;
      [first [assumption | apply document_object; assumption] | ]
  | |- Conditions.runs (Gateway.printed _) _ =>
      apply runs_printed; [printing | ]
  | |- Conditions.runs (Gateway.escapeHtml _) _ =>
      apply runs_escape; [text | intros ?]
  | |- Conditions.runs (Tools.string_receiver (VStr _) _) _ =>
      apply runs_receiver
  | |- Conditions.runs (Tools.join_of (VArr _) _) _ =>
      apply runs_join; [first [assumption | printing] | ]
  | |- Conditions.runs (Tools.iterate (VArr _)) _ => apply runs_ret
  | |- Conditions.runs (Gateway.sendTelegram _ _ _) _ =>
      apply runs_telegram; [assumption | intros ? ? ? ?]
  | |- Conditions.runs (Tools.ensure_labels _) _ =>
      apply runs_labels; [assumption | intros ?]
  | |- Conditions.runs (Gateway.json_of _) _ =>
      eapply runs_json; [eassumption | ]
  | H : Conditions.accepts ?write
    |- Conditions.runs (Gateway.do_fetch (?write _)) _ =>
      apply (runs_write write); [exact H | intros ? ? ? ? ? ?]
  | |- Conditions.runs (Gateway.do_fetch _) _ =>
      apply runs_fetch; [assumption | intros ?]
  | H : Gateway.res_ok ?res = true
    |- Conditions.runs (if Gateway.res_ok ?res then _ else _) _ =>
      rewrite H
  | H : Gateway.res_ok ?res = true
    |- Conditions.runs (if negb (Gateway.res_ok ?res) then _ else _) _ =>
      rewrite H; cbn [negb]
  | |- Conditions.runs (if ?b then _ else _) _ => destruct b eqn:?
  end.

(** The end of a run: the result and the requests sent are at hand. *)
Ltac finish_with before :=
  cbn beta; unfold Conditions.kept, Tools.channels; cbn [app];
  rewrite ?app_nil_r;
  try lazymatch goal with
      | Hc : Gateway.configured Gateway.SLACK_WEBHOOK_URL = _ |- _ =>
          rewrite Hc
      end;
  split; [reflexivity | ];
  split; [reflexivity | ];
  split; [reflexivity | ];
  eexists before, _, _;
  split; [reflexivity | ];
  split; [try reflexivity; intros Hother; by destruct Hother | ];
  split;
  [ lazymatch goal with
    | Hfetch : exists w w', _ = (Gateway.Responded ?res, w') |- _ =>
        destruct Hfetch as (w & w' & Hfetch);
        exists res, w, w'; split; assumption
    end
  | ];
  split;
  [ repeat (apply Forall_cons_2; [left; reflexivity | ]); assumption | ];
  split;
  [ first [ intros _; apply Exists_cons_hd; reflexivity | discriminate ]
  | intros Hbot; repeat apply Exists_cons_tl; auto ].

Ltac finish := finish_with (@nil Gateway.request).

Section StepRuns.
Import Gateway Tools Conditions.
Context {R : Runtime} {C : Config} {P : Prototype}.

Lemma createJiraTicket_runs (params : value) :
  nullish params = false ->
  well_typed CreateJiraTicket params ->
  primary_configured CreateJiraTicket = true ->
  always_answers ->
  accepts jira_request ->
  runs (createJiraTicket params) (kept CreateJiraTicket).
Proof.
  intros Hparams Htexts Hstore Hnet Hwrite.
  cbn [well_typed primary_configured] in Htexts, Hstore.
  unfold createJiraTicket. cbv zeta. rewrite Hstore.
  do 7 step.
  cbn beta. apply runs_bind, (runs_write jira_request); [exact Hwrite | ].
  intros res stored Hok Hjson Hdoc Hfetch. step.
  cbn beta. apply runs_bind.
  destruct (configured SLACK_WEBHOOK_URL) eqn:Hslack.
  - do 7 step. finish.
  - do 5 step. finish.
Qed.

Lemma createPagerDutyIncident_runs (params : value) :
  nullish params = false ->
  well_typed CreatePagerDutyIncident params ->
  primary_configured CreatePagerDutyIncident = true ->
  always_answers ->
  accepts pagerduty_request ->
  runs (createPagerDutyIncident params) (kept CreatePagerDutyIncident).
Proof.
  intros Hparams Htexts Hstore Hnet Hwrite.
  cbn [well_typed primary_configured] in Htexts, Hstore.
  unfold createPagerDutyIncident. cbv zeta. rewrite Hstore.
  do 5 step.
  cbn beta. apply runs_bind, (runs_write pagerduty_request); [exact Hwrite | ].
  intros res stored Hok Hjson Hdoc Hfetch. step.
  cbn beta. apply runs_bind.
  destruct (configured SLACK_WEBHOOK_URL) eqn:Hslack.
  - do 7 step. finish.
  - do 5 step. finish.
Qed.

Lemma generatePostmortem_runs (params : value) :
  nullish params = false ->
  well_typed GeneratePostmortem params ->
  primary_configured GeneratePostmortem = true ->
  always_answers ->
  accepts postmortem_request ->
  runs (generatePostmortem params) (kept GeneratePostmortem).
Proof.
  intros Hparams [Htexts Hstrings] Hstore Hnet Hwrite.
  cbn [primary_configured] in Hstore.
  apply Forall_cons in Hstrings as [[cause Hcause] Hstrings].
  apply Forall_cons in Hstrings as [[effect Heffect] Hstrings].
  apply Forall_cons in Hstrings as [[remedy Hremedy] _].
  unfold generatePostmortem. cbv zeta.
  rewrite Hstore, Hcause, Heffect, Hremedy.
  repeat step.
  all: finish.
Qed.

Lemma updateStatusPage_runs (params : value) :
  nullish params = false ->
  well_typed UpdateStatusPage params ->
  primary_configured UpdateStatusPage = true ->
  always_answers ->
  accepts status_request ->
  runs (updateStatusPage params) (kept UpdateStatusPage).
Proof.
  intros Hparams (Htexts & Hstrings & Hlist) Hstore Hnet Hwrite.
  cbn [primary_configured] in Hstore.
  apply Forall_cons in Hstrings as [[status Hstatus] _].
  assert (Hcomponents : exists items,
             or_else (get params (lit "affected_components"))
               (VArr [get params (lit "service")]) = VArr items
             /\ forallb printable items = true).
  { unfold or_else. destruct Hlist as [Hfalsy | (items & Hitems & Hprint)].
    - rewrite Hfalsy. eexists. split; [reflexivity | printing].
    - rewrite Hitems. cbn [truthy]. by exists items. }
  destruct Hcomponents as (items & Hitems & Hprint).
  unfold updateStatusPage. cbv zeta.
  rewrite Hstore, Hstatus.
  do 2 step. cbn beta. rewrite Hitems.
  repeat step.
  all: finish.
Qed.

Lemma createGithubIssue_runs (params : value) :
  nullish params = false ->
  well_typed CreateGithubIssue params ->
  primary_configured CreateGithubIssue = true ->
  always_answers ->
  accepts issue_request ->
  runs (createGithubIssue params) (kept CreateGithubIssue).
Proof.
  intros Hparams (Htexts & Hlist) Hstore Hnet Hwrite.
  cbn [primary_configured] in Hstore.
  apply andb_true_iff in Hstore as [Htoken Hrepo].
  assert (Hlabels : exists given,
             or_else (get params (lit "labels")) (VArr []) = VArr given
             /\ forallb printable given = true).
  { unfold or_else. destruct Hlist as [Hfalsy | (given & Hgiven & Hprint)].
    - rewrite Hfalsy. by exists [].
    - rewrite Hgiven. cbn [truthy]. by exists given. }
  destruct Hlabels as (given & Hgiven & Hprint).
  unfold createGithubIssue. cbv zeta.
  rewrite Htoken, Hrepo, Hgiven. cbn [negb orb].
  repeat step.
  all: finish_with new.
Qed.
End StepRuns.

Section StepClaims.
Import Gateway Tools Conditions.
Context {R : Runtime} {C : Config} {P : Prototype}.

Lemma executeRollback_runs (params : value) :
  nullish params = false ->
  well_typed ExecuteRollback params ->
  primary_configured ExecuteRollback = true ->
  always_answers ->
  accepts deployment_request ->
  runs (executeRollback params) (kept ExecuteRollback).
Proof.
  intros Hparams Htexts Hstore Hnet Hwrite.
  cbn [well_typed primary_configured] in Htexts, Hstore.
  unfold executeRollback. cbv zeta. rewrite Hstore.
  repeat step.
  all: finish.
Qed.

Lemma handler_runs (h : multi_step) (params : value) :
  nullish params = false ->
  well_typed h params ->
  primary_configured h = true ->
  always_answers ->
  accepts (primary h) ->
  runs (handler h params) (kept h).
Proof.
  destruct h; cbn [handler primary].
  - apply executeRollback_runs.
  - apply createJiraTicket_runs.
  - apply createPagerDutyIncident_runs.
  - apply generatePostmortem_runs.
  - apply updateStatusPage_runs.
  - apply createGithubIssue_runs.
Qed.


End StepClaims.

(** ** Concrete runs of the handlers *)

Section MoreRuns.
Import Gateway Scenario.
#[local] Existing Instance scripted.
#[local] Existing Instance all_configured.
#[local] Existing Instance inert.



(** C5 on two replies: one all clear, one reporting a spike. *)
Lemma autonomousScan_alerts_witness :
  (test re_all_clear (lit "All systems are normal.") = true
   /\ sent (autonomousScan
              (start [reply "All systems are normal."] [])).2
      = [converse_request scan_prompt VUndefined])
  /\ (test re_all_clear (lit "Error rate spike on checkout-api") = false
      /\ sent (autonomousScan
                 (start [reply "Error rate spike on checkout-api";
                         answer true 200 "OK" None] [])).2
         = [converse_request scan_prompt VUndefined;
            html_request (VStr TELEGRAM_CHAT_ID)
              (scan_alert (lit "Error rate spike on checkout-api")) []]).
Proof.
  split.
  - assert (Htest : test re_all_clear (lit "All systems are normal.") = true)
      by (vm_compute; reflexivity).
    split; [exact Htest | ].
    set (st := start [reply "All systems are normal."] []).
    destruct (autonomousScan_alerts (lit "All systems are normal.") st
                (queryApollo (VStr scan_prompt) (lit "scheduled-scan") st).2)
      as [Hquiet _];
      [reflexivity | reflexivity | vm_compute; reflexivity | ].
    rewrite (Hquiet Htest). vm_compute. reflexivity.
  - assert (Htest : test re_all_clear
                      (lit "Error rate spike on checkout-api") = false)
      by (vm_compute; reflexivity).
    split; [exact Htest | ].
    set (st := start [reply "Error rate spike on checkout-api";
                      answer true 200 "OK" None] []).
    destruct (autonomousScan_alerts (lit "Error rate spike on checkout-api")
                st
                (queryApollo (VStr scan_prompt) (lit "scheduled-scan") st).2)
      as [_ Hloud];
      [reflexivity | reflexivity | vm_compute; reflexivity | ].
    destruct (Hloud Htest) as (Hrun & _ & _).
    rewrite Hrun. vm_compute. reflexivity.
Defined.

(** C6 on a health check whose query is answered with an error. *)
Lemma mcp_handler_throws_witness :
  (mcp (call 7 "run_health_check" health_arguments)
     (start [answer false 500 "boom" None] [])).1
  = Returned
      (VObj [(lit "jsonrpc", vstr "2.0");
             (lit "id", num 7);
             (lit "result",
              VObj [(lit "content",
                     VArr [VObj [(lit "type", vstr "text");
                                 (lit "text",
                                  VStr (lit "{" ++ nl ++ lit "  " ++ dquote
                                        ++ lit "error" ++ dquote ++ lit ": "
                                        ++ dquote ++ lit "ES|QL error: boom"
                                        ++ dquote ++ nl ++ lit "}"))]])])]).
Proof.
  set (st := start [answer false 500 "boom" None] []).
  set (body := call 7 "run_health_check" health_arguments).
  rewrite (mcp_handler_throws body (lit "ES|QL error: boom") st
             (call_tool (get (get body (lit "params")) (lit "name"))
                (get (get body (lit "params")) (lit "arguments")) st).2);
    [vm_compute; reflexivity | reflexivity | reflexivity | reflexivity
    | vm_compute; reflexivity].
Defined.

(** C6 as stated fails on the same request: the object that is serialised
    into the result has the single field [error]; there is no
    [success: false] in it. *)
Lemma mcp_caught_error_without_success_flag :
  (call_tool (vstr "run_health_check") health_arguments
     (start [answer false 500 "boom" None] [])).1
  = Thrown (lit "ES|QL error: boom")
  /\ (mcp (call 7 "run_health_check" health_arguments)
        (start [answer false 500 "boom" None] [])).1
     = Returned
         (rpc_result (num 7)
            (VObj [(lit "content",
                    VArr [VObj [(lit "type", vstr "text");
                                (lit "text",
                                 VStr (lit "{" ++ nl ++ lit "  " ++ dquote
                                       ++ lit "error" ++ dquote ++ lit ": "
                                       ++ dquote ++ lit "ES|QL error: boom"
                                       ++ dquote ++ nl ++ lit "}"))]])]))
  /\ get (VObj [(lit "error", vstr "ES|QL error: boom")]) (lit "success")
     <> VBool false.
Proof.
  split; [vm_compute; reflexivity | ].
  split; [vm_compute; reflexivity | ].
  vm_compute. discriminate.
Qed.

(** C7 on a tool called "reboot_everything". *)
Lemma mcp_unknown_tool_witness :
  mcp (call 9 "reboot_everything" (VObj []))
    (start [answer true 200 "OK" None] [])
  = (Returned
       (VObj [(lit "jsonrpc", vstr "2.0");
              (lit "id", num 9);
              (lit "result",
               VObj [(lit "content",
                      VArr [VObj [(lit "type", vstr "text");
                                  (lit "text",
                                   VStr (lit "{" ++ nl ++ lit "  " ++ dquote
                                         ++ lit "error" ++ dquote ++ lit ": "
                                         ++ dquote
                                         ++ lit "Unknown tool: reboot_everything"
                                         ++ dquote ++ nl ++ lit "}"))]])])]),
     start [answer true 200 "OK" None] []).
Proof.
  destruct (mcp_unknown_tool (call 9 "reboot_everything" (VObj []))
              (start [answer true 200 "OK" None] []))
    as (message & Hrun & Hmessage & _);
    [reflexivity | reflexivity | reflexivity | repeat constructor | ].
  rewrite Hrun, Hmessage by reflexivity. vm_compute. reflexivity.
Defined.

(** C7 as stated fails on a name that cannot be printed, such as the
    object [{ toString: null }]: it is none of the names of the catalogue,
    the template of the unknown-tool message throws on it, and the result
    carries the message of that error; "Unknown tool" is not in it. *)
Lemma mcp_unprintable_tool_name :
  Forall (fun known => equals unprintable_name known = false) TOOL_NAMES
  /\ exists text : jsstring,
       mcp (call_named 9 unprintable_name (VObj [])) (start [] [])
       = (Returned
            (VObj [(lit "jsonrpc", vstr "2.0");
                   (lit "id", num 9);
                   (lit "result",
                    VObj [(lit "content",
                           VArr [VObj [(lit "type", vstr "text");
                                       (lit "text", VStr text)]])])]),
          start [] [])
       /\ includes text (lit "Unknown tool") = false.
Proof.
  split; [repeat constructor | ].
  eexists. split; vm_compute; reflexivity.
Qed.



End MoreRuns.

(** * Further properties *)

Section ChunkerMore.
Import Chunker Conditions.

Lemma lastIndexOf_down_found (s needle : jsstring) (start : nat) :
  0 <= lastIndexOf_down s needle start ->
  starts_with needle
    (drop (Z.to_nat (lastIndexOf_down s needle start)) s) = true.
Proof.
  induction start as [| start IH]; cbn [lastIndexOf_down].
  - destruct (starts_with needle (drop 0 s)) eqn:E; [ | lia].
    intros _. exact E.
  - destruct (starts_with needle (drop (S start) s)) eqn:E.
    + intros _. by rewrite Nat2Z.id.
    + exact IH.
Qed.

Lemma lastIndexOf_found (s needle : jsstring) (position : Z) :
  0 <= lastIndexOf s needle position ->
  starts_with needle (drop (Z.to_nat (lastIndexOf s needle position)) s)
  = true.
Proof.
  unfold lastIndexOf. destruct (_ <? 0); [lia | ].
  apply lastIndexOf_down_found.
Qed.

(** Where the loop cuts: not before 30% of the limit, and short of the
    limit only in front of a line break. *)
Lemma split_index_cut (remaining : jsstring) (maxLen : Z) :
  1 <= maxLen ->
  let k := split_index remaining maxLen in
  3 * maxLen <= 10 * k
  /\ (k = maxLen \/ break_removed (drop (Z.to_nat k) remaining) = true).
Proof.
  intros HL. unfold split_index, below_threshold.
  destruct (_ <? _) eqn:E; cbn zeta.
  - split; [lia | by left].
  - apply Z.ltb_ge in E. split; [exact E | right].
    apply lastIndexOf_found. lia.
Qed.

Lemma marked_loop_cuts (maxLen : Z) (fuel : nat) :
  1 <= maxLen ->
  forall (remaining : jsstring) (chunks : list (jsstring * bool)),
    (length remaining < fuel)%nat ->
    remaining <> [] ->
    exists init last,
      splitMessage_marked_loop fuel maxLen remaining chunks
      = Some (chunks ++ init ++ [last])
      /\ Forall (full_or_at_break maxLen) init
      /\ 1 <= js_length last.1.
Proof.
  intros HL. induction fuel as [| fuel IH]; intros remaining chunks Hfuel Hne;
    [lia | ].
  cbn [splitMessage_marked_loop].
  assert (Hpos : 0 < js_length remaining).
  { unfold js_length. destruct remaining; [done | simpl; lia]. }
  apply Z.ltb_lt in Hpos as Hpos'. rewrite Hpos'. cbn [negb].
  destruct (js_length remaining <=? maxLen) eqn:Hfit.
  { exists [], (remaining, false). split; [reflexivity | ].
    split; [constructor | simpl; lia]. }
  apply Z.leb_gt in Hfit.
  fold (split_index remaining maxLen).
  pose proof (split_index_range remaining maxLen HL) as Hidx.
  destruct (split_index_cut remaining maxLen HL) as [Hlow Hcut].
  set (k := split_index remaining maxLen) in *. clearbody k.
  rewrite substring_prefix, substring_from_suffix, replace_leading_newline.
  set (seg := (take (Z.to_nat k) remaining,
               break_removed (drop (Z.to_nat k) remaining))).
  assert (Hseg : js_length seg.1 = k).
  { unfold seg, js_length in *. cbn [fst]. rewrite length_take. lia. }
  destruct (strip_newline (drop (Z.to_nat k) remaining)) as [| y rest] eqn:Hrest.
  - exists [], seg.
    split; [by destruct fuel | ]. split; [constructor | rewrite Hseg; lia].
  - destruct (IH (y :: rest) (chunks ++ [seg])) as (init & last & Hrun & Hinit & Hlast).
    { pose proof (strip_newline_length (drop (Z.to_nat k) remaining)) as Hs.
      rewrite Hrest, length_drop in Hs. unfold js_length in Hpos. lia. }
    { discriminate. }
    exists (seg :: init), last. rewrite Hrun, <- app_assoc.
    split; [reflexivity | ]. split; [ | exact Hlast].
    constructor; [ | exact Hinit]. unfold full_or_at_break. rewrite Hseg.
    split; [lia | ].
    destruct Hcut as [Hcut | Hcut]; [left; lia | right; exact Hcut].
Qed.

End ChunkerMore.

Section ChunkerMoreClaims.
Import Chunker Conditions.

(** X1: for a limit of at least 1, every segment that [splitMessage]
    returns, but the last, has at least 30% of the limit, and is either
    full (its length is the limit) or ends where the text had a line break,
    which the split removes: a cut inside a line is only made at the limit.
    The last segment of a text that is not empty is not empty, so that no
    segment is; the empty text comes back as the one empty segment.  (The
    marked result is [splitMessage]'s result with, beside each segment,
    whether a line break was removed behind it.) *)
Theorem splitMessage_cuts (text : jsstring) (maxLen : Z) :
  1 <= maxLen ->
  exists (init : list (jsstring * bool)) (last : jsstring * bool),
    splitMessage_marked text maxLen = Some (init ++ [last])
    /\ splitMessage text maxLen = Some (map fst (init ++ [last]))
    /\ rejoin (init ++ [last]) = text
    /\ Forall (full_or_at_break maxLen) init
    /\ (text <> [] -> 1 <= js_length last.1)
    /\ (text = [] -> init = []).
Proof.
  intros HL.
  assert (Hex : exists init last,
             splitMessage_marked text maxLen = Some (init ++ [last])
             /\ rejoin (init ++ [last]) = text
             /\ Forall (full_or_at_break maxLen) init
             /\ (text <> [] -> 1 <= js_length last.1)
             /\ (text = [] -> init = [])).
  { unfold splitMessage_marked. destruct (_ <=? _) eqn:Hfit.
    - exists [], (text, false). split; [reflexivity | ].
      split; [simpl; by rewrite app_nil_r | ]. split; [constructor | ].
      split; [ | done]. intros Hne. cbn [fst]. unfold js_length.
      destruct text; [done | simpl; lia].
    - apply Z.leb_gt in Hfit.
      assert (Hne : text <> []).
      { intros ->. unfold js_length in Hfit. simpl in Hfit. lia. }
      destruct (marked_loop_cuts maxLen (S (length text)) HL text [])
        as (init & last & Hrun & Hinit & Hlast); [lia | exact Hne | ].
      destruct (marked_loop_spec maxLen (S (length text)) HL text [])
        as (segs & Hrun' & Hjoin & _); [lia | ].
      rewrite Hrun in Hrun'. injection Hrun' as <-.
      exists init, last. split; [exact Hrun | ]. split; [exact Hjoin | ].
      split; [exact Hinit | ]. split; [by intros _ | done]. }
  destruct Hex as (init & last & Hrun & Hjoin & Hcut & Hlast & Hempty).
  exists init, last. repeat split; try assumption.
  rewrite splitMessage_erase, Hrun. reflexivity.
Qed.

End ChunkerMoreClaims.

Section MatcherMore.

(** A repetition with no minimum left, in front of a continuation that
    always matches, matches. *)
Lemma rep_total {R} (g : bool) (c : cls)
    (k : option N -> jsstring -> option R) (s : jsstring) :
  (forall p t, k p t <> None) ->
  forall hi prev, rep g c k O hi prev s <> None.
Proof.
  intros Hk. induction s as [| x s IH]; intros hi prev; cbn [rep].
  - destruct (k prev []) eqn:E; [ | by apply Hk in E].
    by destruct g.
  - destruct (k prev (x :: s)) eqn:E; [ | by apply Hk in E].
    destruct g; cbn [fmap option_fmap option_map]; [ | done].
    by destruct (if c x && allows hi then _ else None).
Qed.

(** A greedy unbounded repetition in front of such a continuation takes
    the whole run. *)
Lemma rep_greedy_max {R} (c : cls)
    (k : option N -> jsstring -> option R) (s : jsstring) :
  (forall p t, k p t <> None) ->
  forall lo prev n r,
    rep true c k lo None prev s = Some (n, r) ->
    match drop n s with x :: _ => c x = false | [] => True end.
Proof.
  intros Hk. induction s as [| x s IH]; intros lo prev n r H.
  - by destruct n.
  - cbn [rep] in H. destruct (c x) eqn:Hc; cbn [andb allows dec] in H.
    + destruct (rep true c k (pred lo) None (Some x) s) as [[n' r'] | ] eqn:Hrec;
        cbn [fmap option_fmap option_map] in H.
      * injection H as <- <-. cbn [drop]. by eapply IH.
      * destruct lo; [ | discriminate].
        by apply (rep_total true c k s Hk) in Hrec.
    + destruct lo; [ | discriminate].
      destruct (k prev (x :: s)); [ | discriminate].
      injection H as <- <-. exact Hc.
Qed.

(** Passing over the units of a match. *)
Lemma replace_go_skip (re : regex) (tmpl : list piece) (s : jsstring) :
  forall prev k,
    (k <= length s)%nat ->
    replace_go re tmpl prev s k
    = replace_go re tmpl (last_or prev (take k s)) (drop k s) O.
Proof.
  induction s as [| x s IH]; intros prev k Hk.
  - destruct k; [reflexivity | simpl in Hk; lia].
  - destruct k as [| k]; [reflexivity | ].
    cbn [replace_go take drop last_or]. apply IH. simpl in Hk. lia.
Qed.

End MatcherMore.

Section FormatterShape.
Import Formatter.

Lemma blank_run_found prev s f :
  match_re re_blank_run prev s = Some f ->
  (3 <= f.1)%nat /\ (f.1 <= length s)%nat
  /\ starts_with (nl ++ nl ++ nl) s = true
  /\ starts_with nl (drop f.1 s) = false.
Proof.
  unfold re_blank_run. cbn [match_re match_seq].
  match goal with
  | |- context [@rep ?R ?g ?c ?k ?lo ?hi ?p ?t] =>
      destruct (@rep R g c k lo hi p t) as [[n r] | ] eqn:Hrep;
      [pose proof (rep_greedy_max c k t
                     ltac:(intros ? ?; discriminate) _ _ _ _ Hrep) as Hmax;
       apply rep_sound in Hrep as (Hlo & Hlen & Hall & Hk)
      | simpl; discriminate]
  end.
  unfold fmap, option_fmap, option_map. cbn beta iota.
  intros [= <-]. cbn [fst snd].
  injection Hk as <-. cbn [fst].
  replace (n + 0)%nat with n by lia.
  repeat split; try assumption.
  - destruct s as [| a [| b [| c s]]]; simpl in Hlen; try lia.
    destruct n as [| [| [| n]]]; try lia. cbn [take forallb] in Hall.
    unfold one in Hall. change (N_of_ascii "010") with 10%N in Hall.
    apply andb_true_iff in Hall as [Ha Hall].
    apply andb_true_iff in Hall as [Hb Hall].
    apply andb_true_iff in Hall as [Hc _].
    apply N.eqb_eq in Ha, Hb, Hc. by subst.
  - destruct (drop n s) as [| y t]; [reflexivity | ].
    unfold nl. cbn [starts_with]. unfold code_eqb, one in *.
    change (N_of_ascii "010") with 10%N in Hmax.
    rewrite N.eqb_sym, Hmax. reflexivity.
Qed.

Lemma blank_run_missed prev s :
  match_re re_blank_run prev s = None ->
  starts_with (nl ++ nl ++ nl) s = false.
Proof.
  intros H. destruct (starts_with (nl ++ nl ++ nl) s) eqn:E; [ | reflexivity].
  exfalso. unfold nl in E.
  destruct s as [| a [| b [| c s]]]; cbn [app starts_with] in E;
    rewrite ?andb_false_r in E; try discriminate.
  unfold code_eqb in E.
  repeat (apply andb_true_iff in E as [?%N.eqb_eq E]). subst.
  unfold re_blank_run in H. cbn [match_re match_seq rep] in H.
  change (one "010" 10%N) with true in H.
  cbn [andb allows dec pred] in H.
  match type of H with
  | context [@rep ?R ?g ?c ?k ?lo ?hi ?p ?t] =>
      pose proof (@rep_total R g c k t ltac:(intros ? ?; discriminate) hi p) as Ht;
      destruct (@rep R g c k lo hi p t) as [[n r] | ]; [ | congruence]
  end.
  discriminate.
Qed.


Lemma starts_with_nl (x : N) (t : jsstring) :
  starts_with nl (x :: t) = (10 =? x)%N.
Proof. unfold nl. cbn [starts_with]. unfold code_eqb. apply andb_true_r. Qed.

Lemma starts_with_nl2 (x : N) (t : jsstring) :
  starts_with (nl ++ nl) (x :: t) = (10 =? x)%N && starts_with nl t.
Proof. reflexivity. Qed.

Lemma starts_with_nl3 (x : N) (t : jsstring) :
  starts_with (nl ++ nl ++ nl) (x :: t)
  = (10 =? x)%N && starts_with (nl ++ nl) t.
Proof. reflexivity. Qed.

(** The last replacement of the formatter leaves no three line feeds in a
    row, and no more line feeds in front than there were. *)
Lemma collapse_blank_runs (m : nat) :
  forall (s : jsstring) (prev : option N),
    (length s <= m)%nat ->
    let out := replace_go re_blank_run [Lit (nl ++ nl)] prev s O in
    (forall p, every_position single_spaced_at p out = true)
    /\ (starts_with nl out = true -> starts_with nl s = true)
    /\ (starts_with (nl ++ nl) out = true -> starts_with (nl ++ nl) s = true).
Proof.
  induction m as [| m IH]; intros s prev Hm out.
  - destruct s; [ | simpl in Hm; lia]. subst out. cbn [replace_go].
    destruct (match_re re_blank_run prev []) as [[n caps] | ] eqn:E.
    + apply blank_run_found in E as (H3 & Hlen & _). simpl in *. lia.
    + repeat split; try done.
  - destruct s as [| x s].
    { apply (IH [] prev). simpl. lia. }
    subst out. cbn [replace_go].
    destruct (match_re re_blank_run prev (x :: s)) as [[n caps] | ] eqn:E.
    + apply blank_run_found in E as (H3 & Hlen & Hstart & Hend).
      cbn [fst] in *. destruct n as [| n]; [lia | ].
      rewrite replace_go_skip by (simpl in Hlen; lia).
      change (drop n s) with (drop (S n) (x :: s)).
      destruct (IH (drop (S n) (x :: s))
                  (last_or (Some x) (take n s))) as (Hall & H1 & H2).
      { rewrite length_drop. simpl in *. lia. }
      set (rest := replace_go _ _ _ (drop (S n) (x :: s)) O) in *.
      assert (Hrest : starts_with nl rest = false).
      { destruct (starts_with nl rest); [ | reflexivity].
        rewrite H1 in Hend; done. }
      cbn [expand map concat app]. rewrite app_nil_r.
      change ((nl ++ nl) ++ rest) with (10%N :: 10%N :: rest).
      split; [ | split].
      * assert (Hrest2 : starts_with (nl ++ nl) rest = false).
        { destruct rest as [| y r]; [reflexivity | ].
          rewrite starts_with_nl2. rewrite starts_with_nl in Hrest.
          by rewrite Hrest. }
        intros p. cbn [every_position]. unfold single_spaced_at at 1 2.
        rewrite (starts_with_nl3 10 (10%N :: rest)), starts_with_nl2, Hrest.
        rewrite (starts_with_nl3 10 rest), Hrest2, Hall. reflexivity.
      * intros _. rewrite starts_with_nl3 in Hstart.
        apply andb_true_iff in Hstart as [Hx _]. by rewrite starts_with_nl.
      * intros _. rewrite starts_with_nl3 in Hstart.
        apply andb_true_iff in Hstart as [Hx Hs].
        destruct s as [| y s]; [discriminate | ].
        rewrite starts_with_nl2 in Hs. apply andb_true_iff in Hs as [Hy _].
        by rewrite starts_with_nl2, starts_with_nl, Hx, Hy.
    + apply blank_run_missed in E. rewrite starts_with_nl3 in E.
      destruct (IH s (Some x)) as (Hall & H1 & H2); [simpl in Hm; lia | ].
      set (rest := replace_go _ _ _ s O) in *.
      split; [ | split].
      * intros p. cbn [every_position]. unfold single_spaced_at at 1.
        rewrite starts_with_nl3, Hall, andb_true_r.
        destruct (10 =? x)%N; [ | reflexivity]. cbn [andb] in *.
        destruct (starts_with (nl ++ nl) rest) eqn:E2; [ | reflexivity].
        rewrite H2 in E; done.
      * by rewrite !starts_with_nl.
      * rewrite !starts_with_nl2. intros [Hx Hr]%andb_true_iff.
        rewrite Hx. cbn [andb]. destruct rest as [| y rest]; [discriminate | ].
        apply H1. exact Hr.
Qed.

Lemma single_spaced_any (s : jsstring) (p q : option N) :
  every_position single_spaced_at p s = every_position single_spaced_at q s.
Proof. destruct s; reflexivity. Qed.

Lemma no_blank_run_apart (s : jsstring) :
  (forall p, every_position single_spaced_at p s = true) ->
  forall pre post, s <> pre ++ nl ++ nl ++ nl ++ post.
Proof.
  intros Hall pre. revert s Hall.
  induction pre as [| x pre IH]; intros s Hall post ->.
  - specialize (Hall None). apply every_position_here in Hall.
    unfold single_spaced_at in Hall. simpl in Hall. discriminate.
  - apply (IH (pre ++ nl ++ nl ++ nl ++ post)) with (post := post);
      [ | reflexivity].
    intros p. specialize (Hall p). cbn [app every_position] in Hall.
    apply andb_true_iff in Hall as [_ Hall].
    by rewrite (single_spaced_any _ p (Some x)).
Qed.

Lemma trim_start_suffix (s : jsstring) :
  exists a, s = a ++ trim_start s /\ forallb is_space a = true.
Proof.
  induction s as [| x s (a & IH & Ha)]; [by exists [] | ].
  cbn [trim_start]. destruct (is_space x) eqn:E.
  - exists (x :: a). cbn [forallb]. rewrite E, Ha. split; [ | reflexivity].
    simpl. by rewrite <- IH.
  - by exists [].
Qed.

Lemma trim_start_head (s : jsstring) (x : N) :
  head (trim_start s) = Some x -> is_space x = false.
Proof.
  induction s as [| y s IH]; [discriminate | ].
  cbn [trim_start]. destruct (is_space y) eqn:E; [exact IH | ].
  intros [= <-]. exact E.
Qed.

(** [trim] cuts white space off both ends, and nothing else. *)
Lemma trim_infix (s : jsstring) :
  exists a b, s = a ++ trim s ++ b
              /\ forallb is_space a = true /\ forallb is_space b = true.
Proof.
  unfold trim.
  destruct (trim_start_suffix s) as (a & Ha & Hsa).
  destruct (trim_start_suffix (rev (trim_start s))) as (b & Hb & Hsb).
  exists a, (rev b). split; [ | split; [exact Hsa | ]].
  - rewrite Ha at 1. f_equal.
    apply (f_equal (@rev N)) in Hb.
    rewrite rev_involutive, rev_app_distr in Hb. exact Hb.
  - rewrite forallb_forall in *. intros x Hx. apply Hsb. by apply in_rev.
Qed.

Lemma last_rev (l : jsstring) : last (rev l) = head l.
Proof. destruct l as [| x l]; [reflexivity | ]. simpl. apply last_snoc. Qed.

Lemma head_rev (l : jsstring) : head (rev l) = last l.
Proof. by rewrite <- (last_rev (rev l)), rev_involutive. Qed.

Lemma trim_ends (s : jsstring) (x : N) :
  (head (trim s) = Some x -> is_space x = false)
  /\ (last (trim s) = Some x -> is_space x = false).
Proof.
  unfold trim. split.
  - rewrite head_rev.
    destruct (trim_start_suffix (rev (trim_start s))) as (b & Hb & Hsb).
    intros Hlast.
    assert (Hl : last (rev (trim_start s)) = Some x).
    { rewrite Hb, last_app. by rewrite Hlast. }
    rewrite last_rev in Hl. by apply trim_start_head in Hl.
  - rewrite last_rev. apply trim_start_head.
Qed.

Lemma blank_runs_collapsed (r pre post : jsstring) :
  replace_all re_blank_run [Lit (nl ++ nl)] r
  <> pre ++ nl ++ nl ++ nl ++ post.
Proof.
  destruct (collapse_blank_runs (length r) r None (Nat.le_refl _))
    as (Hall & _).
  apply (no_blank_run_apart _ Hall).
Qed.

End FormatterShape.

Section FormatterShapeClaims.
Import Formatter.

(** X2: whatever the input, the text that [mdToTelegramHtml] returns has no
    white space at either end and never three line feeds in a row. *)
Theorem mdToTelegramHtml_shape (text : jsstring) :
  (forall x, head (mdToTelegramHtml text) = Some x -> is_space x = false)
  /\ (forall x, last (mdToTelegramHtml text) = Some x -> is_space x = false)
  /\ (forall pre post,
        mdToTelegramHtml text <> pre ++ nl ++ nl ++ nl ++ post).
Proof.
  unfold mdToTelegramHtml. destruct text as [| c text].
  { repeat split; try discriminate. intros [| ? ?] ?; discriminate. }
  cbv zeta. set (t := c :: text).
  match goal with
  | |- context [trim (replace_all re_blank_run ?tmpl ?r)] =>
      set (inner := r)
  end.
  split; [ | split].
  - intros x. apply trim_ends.
  - intros x. apply trim_ends.
  - intros pre post Heq.
    destruct (trim_infix (replace_all re_blank_run [Lit (nl ++ nl)] inner))
      as (a & b & Hout & _).
    rewrite Heq in Hout.
    apply (blank_runs_collapsed inner (a ++ pre) (post ++ b)).
    rewrite Hout at 1. by rewrite <- !app_assoc.
Qed.

End FormatterShapeClaims.

Section UnitReplacement.

(** Replacing every occurrence of one unit. *)
Lemma replace_unit (a : ascii) (r s : jsstring) :
  forall prev,
    replace_go [[Chr (one a)]] [Lit r] prev s O
    = flat_map (fun x => if one a x then r else [x]) s.
Proof.
  induction s as [| x s IH]; intros prev; [reflexivity | ].
  cbn [replace_go match_re match_seq flat_map].
  destruct (one a x); cbn [fmap option_fmap option_map fst snd].
  - cbn [expand map concat]. rewrite app_nil_r. by rewrite IH.
  - by rewrite IH.
Qed.

End UnitReplacement.

Section TagFacts.
Import Gateway Conditions.

Lemma tag_found prev s f :
  match_re re_tag prev s = Some f ->
  exists y t, s = 60%N :: y :: t /\ y <> 62%N /\ In 62%N t
              /\ (1 <= f.1)%nat /\ (f.1 <= length s)%nat.
Proof.
  unfold re_tag. cbn [match_re match_seq].
  destruct s as [| x s]; [discriminate | ].
  destruct (one "<" x) eqn:Hx; [ | discriminate].
  apply one_true in Hx. change (N_of_ascii "<") with 60%N in Hx. subst x.
  match goal with
  | |- context [@rep ?R ?g ?c ?k ?lo ?hi ?p ?t] =>
      destruct (@rep R g c k lo hi p t) as [[n r] | ] eqn:Hrep;
      [apply rep_sound in Hrep as (Hlo & Hlen & Hall & Hk)
      | simpl; discriminate]
  end.
  unfold fmap, option_fmap, option_map. cbn beta iota.
  intros [= <-]. cbn [fst snd].
  destruct (forallb_take_head _ _ _ Hlo Hlen Hall) as (y & t & -> & Hy).
  exists y, t. split; [reflexivity | ].
  assert (Hd : exists u, drop n (y :: t) = 62%N :: u /\ r.1 = 1%nat).
  { revert Hk. destruct (drop n (y :: t)) as [| z u]; [discriminate | ].
    destruct (one ">" z) eqn:Hz; [ | discriminate].
    apply one_true in Hz. change (N_of_ascii ">") with 62%N in Hz. subst z.
    intros [= <-]. by exists u. }
  destruct Hd as (u & Hd & Hr). rewrite Hr.
  assert (Hdl : (length (drop n (y :: t)) = S (length u))%nat)
    by (by rewrite Hd).
  rewrite length_drop in Hdl. cbn [length] in *.
  split; [ | split; [ | lia]].
  - intros ->. discriminate.
  - destruct n as [| n]; [lia | ]. cbn [drop] in Hd.
    assert (Hin : In 62%N (drop n t)) by (rewrite Hd; by left).
    clear -Hin. revert n Hin. induction t as [| z t IH]; intros n H.
    + by destruct n.
    + destruct n; [exact H | ]. right. by apply (IH n).
Qed.

(** A repetition of units other than [>] reaches a [>] that is there. *)
Lemma rep_reaches_gt (t : jsstring) :
  In 62%N t ->
  forall prev,
    rep true (none_of (lit ">")) (match_seq [Chr (one ">")]) O None prev t
    <> None.
Proof.
  induction t as [| z t IH]; intros Hin prev; [destruct Hin | ].
  cbn [rep match_seq allows dec pred].
  destruct (N.eq_dec z 62%N) as [-> | Hz].
  - change (none_of (lit ">") 62%N) with false.
    change (one ">" 62%N) with true. cbn [andb]. discriminate.
  - destruct Hin as [-> | Hin]; [done | ].
    assert (Hc : none_of (lit ">") z = true).
    { unfold none_of, any_of. change (lit ">") with [62%N].
      cbn [existsb]. rewrite orb_false_r. apply negb_true_iff.
      by apply N.eqb_neq. }
    rewrite Hc. cbn [andb]. specialize (IH Hin (Some z)).
    destruct (rep true _ _ O None (Some z) t) as [[n r] | ]; [ | done].
    discriminate.
Qed.

Lemma tag_missed prev y t :
  match_re re_tag prev (60%N :: y :: t) = None ->
  y = 62%N \/ ~ In 62%N t.
Proof.
  intros H. destruct (N.eq_dec y 62%N) as [-> | Hy]; [by left | right].
  intros Hin. revert H. unfold re_tag.
  cbn [match_re match_seq rep allows dec pred].
  change (one "<" 60%N) with true. cbv iota.
  assert (Hc : none_of (lit ">") y = true).
  { unfold none_of, any_of. change (lit ">") with [62%N].
    cbn [existsb]. rewrite orb_false_r. apply negb_true_iff.
    by apply N.eqb_neq. }
  rewrite Hc. cbn [andb].
  pose proof (rep_reaches_gt t Hin (Some y)) as Hrep.
  cbn [match_seq] in Hrep.
  match goal with
  | |- context [@rep ?R ?g ?c ?k ?lo ?hi ?p ?u] =>
      destruct (@rep R g c k lo hi p u) as [[n r] | ]; [ | done]
  end.
  discriminate.
Qed.


(** Removing the tags leaves no tag behind, and brings no [>] in. *)
Lemma strip_tags_spec (m : nat) :
  forall (s : jsstring) (prev : option N),
    (length s <= m)%nat ->
    let out := replace_go re_tag [] prev s O in
    (forall p, search re_tag p out = false)
    /\ (In 62%N out -> In 62%N s)
    /\ (head s = Some 62%N -> head out = Some 62%N).
Proof.
  induction m as [| m IH]; intros s prev Hm out.
  - destruct s; [ | simpl in Hm; lia]. subst out. cbn [replace_go].
    destruct (match_re re_tag prev []) as [[n caps] | ] eqn:E.
    + apply tag_found in E as (y & t & ? & _). discriminate.
    + repeat split; done.
  - destruct s as [| x s].
    { apply (IH [] prev). simpl. lia. }
    subst out. cbn [replace_go].
    destruct (match_re re_tag prev (x :: s)) as [[n caps] | ] eqn:E.
    + apply tag_found in E as (y & t & Hs & Hy & Hin & Hn & Hlen).
      cbn [fst] in *. injection Hs as -> ->.
      destruct n as [| n]; [lia | ].
      rewrite expand_nil, app_nil_l.
      rewrite replace_go_skip by (cbn [length] in *; lia).
      destruct (IH (drop n (y :: t)) (last_or (Some 60%N) (take n (y :: t))))
        as (Hall & Hgt & _).
      { rewrite length_drop. simpl in *. lia. }
      split; [exact Hall | ]. split; [ | discriminate].
      intros H. apply Hgt in H. right.
      clear -H. revert H. generalize (y :: t). intros l. revert n.
      induction l as [| z l IHl]; intros n H; [by destruct n | ].
      destruct n; [exact H | ]. right. by apply (IHl n).
    + destruct (IH s (Some x)) as (Hall & Hgt & Hhead); [simpl in Hm; lia | ].
      set (rest := replace_go re_tag [] (Some x) s O) in *.
      split; [ | split].
      * intros p. cbn [search]. rewrite Hall.
        destruct (match_re re_tag p (x :: rest)) eqn:E'; [ | reflexivity].
        exfalso.
        apply tag_found in E' as (y & t & Hs & Hy & Hin & _).
        injection Hs as -> Hrest.
        assert (Hin' : In 62%N s).
        { apply Hgt. rewrite Hrest. by right. }
        destruct s as [| y' t']; [destruct Hin' | ].
        apply tag_missed in E as [-> | Hno].
        -- rewrite Hrest in Hhead. specialize (Hhead eq_refl).
           injection Hhead as ->. done.
        -- destruct Hin' as [-> | Hin'']; [ | done].
           rewrite Hrest in Hhead. specialize (Hhead eq_refl).
           injection Hhead as ->. done.
      * intros [<- | H]; [by left | right; by apply Hgt].
      * intros [= ->]. reflexivity.
Qed.

Lemma strip_tags_clean (s : jsstring) :
  test re_tag (replace_all re_tag [] s) = false.
Proof.
  destruct (strip_tags_spec (length s) s None (Nat.le_refl _)) as (H & _).
  apply H.
Qed.

End TagFacts.

Section EscapeFacts.
Import Gateway Conditions.
Context {R : Runtime} {C : Config}.

Lemma escape_passes (s : jsstring) :
  replace_all [str ">"] [Lit (lit "&gt;")]
    (replace_all [str "<"] [Lit (lit "&lt;")]
       (replace_all [str "&"] [Lit (lit "&amp;")] s))
  = flat_map escape_unit s.
Proof.
  unfold replace_all. change (str ">") with [Chr (one ">")].
  change (str "<") with [Chr (one "<")]. change (str "&") with [Chr (one "&")].
  rewrite !replace_unit.
  induction s as [| x s IH]; [reflexivity | ].
  cbn [flat_map]. rewrite !flat_map_app, IH. f_equal.
  unfold escape_unit, one.
  change (N_of_ascii "&") with 38%N. change (N_of_ascii "<") with 60%N.
  change (N_of_ascii ">") with 62%N.
  destruct (x =? 38)%N eqn:E1; [reflexivity | ].
  cbn [flat_map app]. destruct (x =? 60)%N eqn:E2; [reflexivity | ].
  rewrite app_nil_r. cbn [flat_map app]. rewrite app_nil_r.
  destruct (x =? 62)%N; reflexivity.
Qed.

Lemma escape_unit_brackets (s : jsstring) :
  Forall (fun x => x <> 60%N /\ x <> 62%N) (flat_map escape_unit s).
Proof.
  induction s as [| x s IH]; [constructor | ].
  cbn [flat_map]. apply Forall_app. split; [ | exact IH].
  unfold escape_unit.
  destruct (x =? 38)%N eqn:E1; [by repeat constructor | ].
  destruct (x =? 60)%N eqn:E2; [by repeat constructor | ].
  destruct (x =? 62)%N eqn:E3; [by repeat constructor | ].
  apply N.eqb_neq in E2, E3. by repeat constructor.
Qed.

Lemma no_tag_without_lt (s : jsstring) :
  Forall (fun x => x <> 60%N) s -> forall p, search re_tag p s = false.
Proof.
  induction s as [| x s IH]; intros Hall p; cbn [search].
  - destruct (match_re re_tag p []) eqn:E; [ | reflexivity].
    apply tag_found in E as (y & t & ? & _). discriminate.
  - apply Forall_cons in Hall as [Hx Hall].
    destruct (match_re re_tag p (x :: s)) eqn:E; [ | by apply IH].
    apply tag_found in E as (y & t & [= -> _] & _). done.
Qed.

End EscapeFacts.

Section EscapeClaims.
Import Gateway Conditions.
Context {R : Runtime} {C : Config}.

(** X3: [escapeHtml] on a string is the substitution, unit by unit, of
    [&amp;] for [&], [&lt;] for [<] and [&gt;] for [>]: the three passes
    never escape what an earlier pass wrote.  The result contains neither
    [<] nor [>], so that the Telegram tag pattern of [sendTelegram] finds
    nothing in it; and the state is left as it is. *)
Theorem escapeHtml_units (s : jsstring) (st : state) :
  escapeHtml (VStr s) st = (Returned (flat_map escape_unit s), st)
  /\ Forall (fun x => x <> 60%N /\ x <> 62%N) (flat_map escape_unit s)
  /\ test re_tag (flat_map escape_unit s) = false.
Proof.
  split; [ | split].
  - unfold escapeHtml. destruct s as [| x s]; [reflexivity | ].
    cbn [truthy is_empty negb]. by rewrite escape_passes.
  - apply escape_unit_brackets.
  - apply no_tag_without_lt.
    eapply Forall_impl; [apply escape_unit_brackets | ]. by intros x [H _].
Qed.

(** X4: the second request of [sendTelegram], the one sent when Telegram
    cannot parse the first, has no [parse_mode], and no match of the tag
    pattern is left in its text. *)
Theorem sendTelegram_resubmission (chatId : value) (text : jsstring)
    (st : state) :
  exists new : list request,
    sent (sendTelegram chatId text [] st).2 = sent st ++ new
    /\ (length new <= 2)%nat
    /\ forall r, new !! 1%nat = Some r ->
         get (req_body r) (lit "parse_mode") = VUndefined
         /\ exists t, get (req_body r) (lit "text") = VStr t
                      /\ test re_tag t = false
                      /\ js_length t <= js_length text.
Proof.
  destruct (sendTelegram_requests chatId text [] st)
    as (new & Hsent & _ & Hnew & _).
  exists new. split; [exact Hsent | ].
  destruct Hnew as [-> | [-> | ->]]; (split; [simpl; lia | ]);
    intros r Hr; try discriminate.
  injection Hr as <-. split; [reflexivity | ].
  eexists. split; [reflexivity | ]. split; [apply strip_tags_clean | ].
  pose proof (replace_all_erase_length re_tag (safe_text text)) as H1.
  pose proof (safe_text_length text) as [H2 H3].
  unfold safe_text in *. destruct (4096 <? js_length text) eqn:E.
  - apply Z.ltb_lt in E. specialize (H3 E). lia.
  - lia.
Qed.

End EscapeClaims.

Section QueryMore.
Import Gateway Conditions.
Context {R : Runtime} {C : Config}.

(** One call of [queryApollo] on a prompt that is not blank. *)
Lemma queryApollo_step (fuel : nat) (userMessage : value)
    (input chatId : jsstring) (st : state) :
  or_else userMessage (VStr []) = VStr input ->
  is_empty (trim input) = false ->
  let existing := default VUndefined (conversationMap st !! chatId) in
  let first := converse_request (trim input) existing in
  let after w :=
    {| conversationMap := conversationMap st; outside := w;
       sent := sent st ++ [first] |} in
  let cleared w :=
    {| conversationMap := delete chatId (conversationMap st); outside := w;
       sent := sent st ++ [first] |} in
  queryApollo_fuel fuel userMessage chatId st
  = match fetch first (outside st) with
    | (Rejected message, w) => (Thrown message, after w)
    | (Responded res, w) =>
        if res_ok res then read_reply chatId res (after w)
        else if includes (res_text res) (lit "not found") && truthy existing
             then match fuel with
                  | O => (Unfinished, cleared w)
                  | S fuel' => queryApollo_fuel fuel' userMessage chatId
                                 (cleared w)
                  end
             else (Thrown (lit "Apollo API (" ++ ToString (num (res_status res))
                           ++ lit "): " ++ substring (res_text res) 0 200),
                   after w)
    end.
Proof.
  intros Hmsg Hinput existing first after cleared.
  destruct fuel; cbn [queryApollo_fuel]; rewrite Hmsg, Hinput;
    unfold bind, conversation_get, do_fetch;
    cbn [outside sent conversationMap]; fold existing; fold first;
    destruct (fetch first (outside st)) as [[message | res] w];
    try reflexivity;
    destruct (res_ok res); cbn [negb]; try reflexivity;
    destruct (includes _ _ && truthy existing); reflexivity.
Qed.

(** What a successful response does to the sessions: nothing, or it stores
    the session id it carries. *)
Lemma read_reply_sessions (chatId : jsstring) (res : response) (st : state) :
  conversationMap (read_reply chatId res st).2
  = match res_json res with
    | Some data =>
        if nullish data then conversationMap st
        else if truthy (get data (lit "conversation_id"))
             then <[chatId := get data (lit "conversation_id")]>
                    (conversationMap st)
             else conversationMap st
    | None => conversationMap st
    end.
Proof.
  unfold read_reply, json_of, prop, bind, ret, throw.
  destruct (res_json res) as [data | ]; [ | reflexivity].
  destruct (nullish data); [reflexivity | ].
  destruct (truthy (get data (lit "conversation_id")));
    cbn -[filter insert];
    destruct (or_else (get data (lit "steps")) (VArr []))
      as [ | | | | | items | ];
    try reflexivity; destruct (existsb nullish items); reflexivity.
Qed.

(** The recursive call, which finds no session. *)
Lemma queryApollo_retry (fuel : nat) (userMessage : value)
    (input chatId : jsstring) (st : state) :
  or_else userMessage (VStr []) = VStr input ->
  is_empty (trim input) = false ->
  conversationMap st !! chatId = None ->
  queryApollo_fuel fuel userMessage chatId st
  = queryApollo_fuel O userMessage chatId st
  /\ (queryApollo_fuel fuel userMessage chatId st).1 <> Unfinished
  /\ (exists req, sent (queryApollo_fuel fuel userMessage chatId st).2
                  = sent st ++ [req])
  /\ forall other, other <> chatId ->
       conversationMap (queryApollo_fuel fuel userMessage chatId st).2 !! other
       = conversationMap st !! other.
Proof.
  intros Hmsg Hinput Hnone.
  rewrite !(queryApollo_without_session _ userMessage input chatId st
              Hmsg Hinput Hnone).
  split; [reflexivity | ].
  destruct (fetch _ (outside st)) as [[message | res] w].
  - split; [done | ]. split; [by eexists | done].
  - destruct (res_ok res).
    + match goal with
      | |- context [read_reply chatId res ?s] =>
          destruct (read_reply_quiet chatId res s) as (Hsent & _ & Hfin);
          pose proof (read_reply_sessions chatId res s) as Hmap
      end.
      split; [exact Hfin | ]. split; [rewrite Hsent; by eexists | ].
      intros other Hne. rewrite Hmap. cbn [conversationMap].
      destruct (res_json res) as [data | ]; [ | reflexivity].
      destruct (nullish data); [reflexivity | ].
      destruct (truthy _); [ | reflexivity].
      by apply lookup_insert_ne.
    + split; [done | ]. split; [by eexists | done].
Qed.

End QueryMore.

Section QueryMoreClaims.
Import Gateway Conditions.
Context {R : Runtime} {C : Config}.

Lemma trim_blank (s : jsstring) : forallb is_space s = true -> trim s = [].
Proof.
  intros H. unfold trim.
  assert (Hs : trim_start s = []).
  { induction s as [| x s IH]; [reflexivity | ]. cbn [forallb] in H.
    apply andb_true_iff in H as [Hx H]. cbn [trim_start]. rewrite Hx. by apply IH. }
  by rewrite Hs.
Qed.

(** X5: a prompt that is absent, empty or made of white space is answered
    with the greeting; no request is sent and nothing changes. *)
Theorem queryApollo_blank_prompt (userMessage : value)
    (input chatId : jsstring) (st : state) :
  or_else userMessage (VStr []) = VStr input ->
  forallb is_space input = true ->
  queryApollo userMessage chatId st = (Returned greeting, st).
Proof.
  intros Hmsg Hblank. unfold queryApollo. cbn [queryApollo_fuel].
  rewrite Hmsg, (trim_blank input Hblank). reflexivity.
Qed.

Lemma queryApollo_runs (fuel : nat) (userMessage : value)
    (chatId : jsstring) (st : state) :
  queryApollo_fuel (S fuel) userMessage chatId st
  = queryApollo userMessage chatId st
  /\ (queryApollo userMessage chatId st).1 <> Unfinished
  /\ exists new : list request,
       sent (queryApollo userMessage chatId st).2 = sent st ++ new
       /\ (length new <= 2)%nat.
Proof.
  unfold queryApollo.
  assert (Hnone : forall o : outcome jsstring,
             o <> Unfinished ->
             (o, st) = (o, st) /\ (o, st).1 <> Unfinished
             /\ exists new : list request,
                  sent (o, st).2 = sent st ++ new /\ (length new <= 2)%nat).
  { intros o Ho. split; [reflexivity | split; [exact Ho | ]].
    exists []. split; [by rewrite app_nil_r | simpl; lia]. }
  destruct (or_else userMessage (VStr [])) as [ | | | | input | | ] eqn:Hmsg;
    try (cbn [queryApollo_fuel]; rewrite Hmsg; by apply Hnone).
  destruct (is_empty (trim input)) eqn:Hinput.
  { cbn [queryApollo_fuel]. rewrite Hmsg, Hinput. by apply Hnone. }
  clear Hnone.
  rewrite !(queryApollo_step _ userMessage input chatId st Hmsg Hinput).
  cbv zeta.
  set (first := converse_request _ _).
  destruct (fetch first (outside st)) as [[message | res] w].
  { split; [reflexivity | split; [done | ]]. exists [first].
    split; [reflexivity | simpl; lia]. }
  destruct (res_ok res).
  { match goal with
    | |- context [read_reply chatId res ?s] =>
        destruct (read_reply_quiet chatId res s) as (Hsent & _ & Hfin)
    end.
    split; [reflexivity | split; [exact Hfin | ]].
    exists [first]. rewrite Hsent. split; [reflexivity | simpl; lia]. }
  destruct (includes _ _ && truthy _).
  2:{ split; [reflexivity | split; [done | ]]. exists [first].
      split; [reflexivity | simpl; lia]. }
  match goal with
  | |- context [queryApollo_fuel O userMessage chatId ?s] =>
      destruct (queryApollo_retry fuel userMessage input chatId s Hmsg Hinput)
        as (Hsame & _);
      [apply lookup_delete_eq | ];
      destruct (queryApollo_retry O userMessage input chatId s Hmsg Hinput)
        as (_ & Hfin & (req & Hsent) & _);
      [apply lookup_delete_eq | ]
  end.
  split; [exact Hsame | split; [exact Hfin | ]].
  exists [first; req]. rewrite Hsent. cbn [sent].
  split; [by rewrite <- app_assoc | simpl; lia].
Qed.

(** X6: [queryApollo] never calls itself more than once: whatever budget of
    recursive calls it is given beyond one, the run is the same; it always
    finishes, and it sends at most two requests. *)
Theorem queryApollo_bounded (fuel : nat) (userMessage : value)
    (chatId : jsstring) (st : state) :
  queryApollo_fuel (S fuel) userMessage chatId st
  = queryApollo userMessage chatId st
  /\ (queryApollo userMessage chatId st).1 <> Unfinished
  /\ exists new : list request,
       sent (queryApollo userMessage chatId st).2 = sent st ++ new
       /\ (length new <= 2)%nat.
Proof. apply queryApollo_runs. Qed.

(** X7: a query on one channel leaves the sessions of all other channels
    as they are, however the query ends. *)
Theorem queryApollo_other_channels (userMessage : value)
    (chatId other : jsstring) (st : state) :
  other <> chatId ->
  conversationMap (queryApollo userMessage chatId st).2 !! other
  = conversationMap st !! other.
Proof.
  intros Hne. unfold queryApollo.
  destruct (or_else userMessage (VStr [])) as [ | | | | input | | ] eqn:Hmsg;
    try (cbn [queryApollo_fuel]; by rewrite Hmsg).
  destruct (is_empty (trim input)) eqn:Hinput.
  { cbn [queryApollo_fuel]. by rewrite Hmsg, Hinput. }
  rewrite (queryApollo_step _ userMessage input chatId st Hmsg Hinput).
  cbv zeta.
  set (first := converse_request _ _).
  destruct (fetch first (outside st)) as [[message | res] w]; [reflexivity | ].
  destruct (res_ok res).
  { rewrite read_reply_sessions. cbn [conversationMap].
    destruct (res_json res) as [data | ]; [ | reflexivity].
    destruct (nullish data); [reflexivity | ].
    destruct (truthy _); [ | reflexivity].
    by apply lookup_insert_ne. }
  destruct (includes _ _ && truthy _); [ | reflexivity].
  match goal with
  | |- context [queryApollo_fuel O userMessage chatId ?s] =>
      destruct (queryApollo_retry O userMessage input chatId s Hmsg Hinput)
        as (_ & _ & _ & Hmap);
      [apply lookup_delete_eq | ]
  end.
  rewrite (Hmap other Hne). cbn [conversationMap].
  by apply lookup_delete_ne.
Qed.

(** X8: the session id that a successful response carries is stored for
    the channel, and the next query on that channel sends it. *)
Theorem queryApollo_keeps_session (userMessage next : value)
    (input input2 chatId : jsstring) (res : response) (w : world)
    (data : value) (st : state) :
  or_else userMessage (VStr []) = VStr input ->
  is_empty (trim input) = false ->
  or_else next (VStr []) = VStr input2 ->
  is_empty (trim input2) = false ->
  fetch (converse_request (trim input)
           (default VUndefined (conversationMap st !! chatId))) (outside st)
  = (Responded res, w) ->
  res_ok res = true ->
  res_json res = Some data ->
  nullish data = false ->
  truthy (get data (lit "conversation_id")) = true ->
  let id := get data (lit "conversation_id") in
  let st1 := (queryApollo userMessage chatId st).2 in
  conversationMap st1 = <[chatId := id]> (conversationMap st)
  /\ get (req_body (converse_request (trim input2) id)) (lit "conversation_id")
     = id
  /\ exists rest : list request,
       sent (queryApollo next chatId st1).2
       = sent st1 ++ converse_request (trim input2) id :: rest.
Proof.
  intros Hmsg Hinput Hnext Hinput2 Hfetch Hok Hjson Hdata Hid id st1.
  assert (Hmap : conversationMap st1 = <[chatId := id]> (conversationMap st)).
  { subst st1. unfold queryApollo.
    rewrite (queryApollo_step _ userMessage input chatId st Hmsg Hinput).
    cbv zeta. rewrite Hfetch, Hok, read_reply_sessions, Hjson, Hdata, Hid.
    reflexivity. }
  split; [exact Hmap | ].
  split; [by apply converse_request_with_id | ].
  unfold queryApollo.
  rewrite (queryApollo_step _ next input2 chatId st1 Hnext Hinput2).
  cbv zeta. rewrite Hmap, lookup_insert_eq. cbn [default from_option].
  change (Datatypes.id id) with id.
  set (second := converse_request (trim input2) id).
  destruct (fetch second (outside st1)) as [[message | res2] w2].
  { by exists []. }
  destruct (res_ok res2).
  { match goal with
    | |- context [read_reply chatId res2 ?s] =>
        destruct (read_reply_quiet chatId res2 s) as (Hsent & _)
    end.
    exists []. by rewrite Hsent. }
  destruct (includes _ _ && truthy _); [ | by exists []].
  match goal with
  | |- context [queryApollo_fuel O next chatId ?s] =>
      destruct (queryApollo_retry O next input2 chatId s Hnext Hinput2)
        as (_ & _ & (req & Hsent) & _);
      [apply lookup_delete_eq | ]
  end.
  exists [req]. rewrite Hsent. cbn [sent]. by rewrite <- app_assoc.
Qed.

(** X9: a failure that does not point at a forgotten session (its text
    has no "not found", or no session was stored) is thrown after the one
    request, as "Apollo API (status): " and the first 200 units of the
    response text; the sessions stay as they are. *)
Theorem queryApollo_failure (userMessage : value) (input chatId : jsstring)
    (res : response) (w : world) (st : state) :
  or_else userMessage (VStr []) = VStr input ->
  is_empty (trim input) = false ->
  let existing := default VUndefined (conversationMap st !! chatId) in
  fetch (converse_request (trim input) existing) (outside st)
  = (Responded res, w) ->
  res_ok res = false ->
  includes (res_text res) (lit "not found") && truthy existing = false ->
  queryApollo userMessage chatId st
  = (Thrown (lit "Apollo API (" ++ ToString (num (res_status res))
             ++ lit "): " ++ take 200 (res_text res)),
     {| conversationMap := conversationMap st; outside := w;
        sent := sent st ++ [converse_request (trim input) existing] |}).
Proof.
  intros Hmsg Hinput existing Hfetch Hfail Hother. unfold queryApollo.
  rewrite (queryApollo_step _ userMessage input chatId st Hmsg Hinput).
  cbv zeta. fold existing. rewrite Hfetch, Hfail, Hother.
  by rewrite substring_prefix.
Qed.

End QueryMoreClaims.

Section ScanMore.
Import Gateway Conditions.
Context {R : Runtime} {C : Config}.

(** X10: the scheduled scan never throws: whatever the reasoning engine and
    Telegram do, rejected requests included, [autonomousScan] returns. *)
Theorem autonomousScan_returns (st : state) :
  exists st', autonomousScan st = (Returned tt, st').
Proof.
  unfold autonomousScan, try_catch, bind.
  destruct (queryApollo_runs O (VStr scan_prompt) (lit "scheduled-scan") st)
    as (_ & Hfin & _).
  destruct (queryApollo (VStr scan_prompt) (lit "scheduled-scan") st)
    as [[rawResponse | message | ] st1]; [ | by eexists | done].
  destruct (negb _ && _ && _); [ | by eexists].
  pose proof (sendTelegram_finishes (VStr TELEGRAM_CHAT_ID)
                (scan_alert rawResponse) [] st1) as Hfin2.
  destruct (sendTelegram _ _ _ st1) as [[v | message | ] st2];
    [by eexists | by eexists | done].
Qed.

End ScanMore.

Section RowFacts.
Import Gateway Conditions.
Context {R : Runtime} {C : Config}.

Lemma lookup_set_prop_eq (k : jsstring) (v : value) props :
  lookup_prop k (set_prop k v props) = v.
Proof.
  induction props as [| [k0 w] props IH]; simpl.
  - by destruct (decide (k = k)).
  - destruct (decide (k0 = k)) as [-> | Hk0]; simpl.
    + by destruct (decide (k = k)).
    + by destruct (decide (k0 = k)).
Qed.

(** Filling a row object, column by column from position [k]: a name that
    is not a column keeps what it had. *)
Lemma row_fill_other (names : list jsstring) (row : value) (name : jsstring) :
  name ∉ names ->
  forall (k : nat) (acc : list (jsstring * value)),
    lookup_prop name
      (fold_left (fun obj ci => set_prop (tpl ci.1) (index row ci.2) obj)
         (zip (map VStr names) (seq k (length names))) acc)
    = lookup_prop name acc.
Proof.
  induction names as [| n names IH]; intros Hn k acc; [reflexivity | ].
  apply not_elem_of_cons in Hn as [Hne Hn].
  cbn [map length seq zip zip_with fold_left fst snd tpl].
  rewrite (IH Hn). by apply lookup_set_prop_ne.
Qed.

(** A column gets the cell at its position. *)
Lemma row_fill (names : list jsstring) (row : value) :
  forall (k : nat) (acc : list (jsstring * value)) (j : nat) (name : jsstring),
    NoDup names ->
    names !! j = Some name ->
    lookup_prop name
      (fold_left (fun obj ci => set_prop (tpl ci.1) (index row ci.2) obj)
         (zip (map VStr names) (seq k (length names))) acc)
    = index row (k + j).
Proof.
  induction names as [| n names IH]; intros k acc j name Hnd Hj;
    [discriminate | ].
  apply NoDup_cons in Hnd as [Hn Hnd].
  cbn [map length seq zip zip_with fold_left fst snd tpl].
  destruct j as [| j].
  - injection Hj as ->. replace (k + 0)%nat with k by lia.
    rewrite (row_fill_other names row name Hn). apply lookup_set_prop_eq.
  - replace (k + S j)%nat with (S k + j)%nat by lia. by apply IH.
Qed.

Lemma row_object_cell (names : list jsstring) (row : list value)
    (j : nat) (name : jsstring) :
  NoDup names ->
  names !! j = Some name ->
  get (VObj (row_object (map VStr names) (VArr row))) name
  = nth j row VUndefined.
Proof.
  intros Hnd Hj. unfold row_object. cbn [get]. rewrite length_map.
  by rewrite (row_fill names (VArr row) 0 [] j name Hnd Hj).
Qed.

End RowFacts.

Section RowClaims.
Import Gateway Conditions.
Context {R : Runtime} {C : Config}.


End RowClaims.

Section HealthMore.
Import Gateway Conditions.
Context {R : Runtime} {C : Config}.

Lemma metric_at_least (row : value) (column : string) (q bound : Q) :
  get row (lit column) = VNum q ->
  (bound <= q)%Q -> (0 < bound)%Q ->
  lt (to_number (metric row column)) (Some bound) = false.
Proof.
  intros Hq Hle Hpos. unfold metric, or_else. rewrite Hq.
  cbn [truthy]. destruct (Qeq_bool q 0) eqn:E; cbn [negb to_number lt num].
  - apply Qeq_bool_iff in E. rewrite E in Hle.
    by apply Qlt_not_le in Hpos.
  - apply negb_false_iff. by apply Qle_bool_iff.
Qed.



End HealthMore.

Section RollbackMore.
Import Gateway Conditions.
Context {R : Runtime} {C : Config}.

(** X14: for an arguments object whose reason, service and versions are
    strings or absent, and a network that answers every request: a
    rollback whose record is not stored, because no store is configured or
    because the store answers the write with a failure, still notifies
    and reports success; the id of the record is then [null]. *)
Theorem executeRollback_unrecorded (params : value) (st : state) :
  nullish params = false ->
  texts params ["reason"; "service"; "current_version"; "target_version"]%string ->
  always_answers ->
  configured ELASTIC_URL && configured ELASTIC_API_KEY = false
  \/ store_refuses ->
  exists (result : value) (st' : state),
    executeRollback params st = (Returned result, st')
    /\ get result (lit "success") = VBool true
    /\ get result (lit "deployment_id") = VNull
    /\ conversationMap st' = conversationMap st.
Proof.
  intros Hparams Htexts Hnet Hstore.
  assert (Hreason : text_or_absent (get params (lit "reason"))).
  { by apply Forall_cons in Htexts as [? _]. }
  unfold executeRollback.
  unfold bind at 1. unfold now at 1.
  destruct (Date_now (outside st)) as [startTime w0].
  unfold bind at 1. unfold now at 1. cbn [outside sent conversationMap].
  destruct (Date_now w0) as [timestamp w1].
  unfold bind at 1. unfold prop at 1. rewrite Hparams. unfold ret at 1.
  set (st1 := {| conversationMap := conversationMap st; outside := w1;
                 sent := sent st |}).
  unfold bind at 1.
  pose proof (texts_printed params _ st1 Htexts) as Hprinted.
  cbn [map] in Hprinted. rewrite Hprinted. clear Hprinted.
  match goal with
  | |- context [do_fetch (deployment_request ?d)] => set (doc := d)
  end.
  assert (Hid : exists st2,
             (if configured ELASTIC_URL && configured ELASTIC_API_KEY
              then
                let* res := do_fetch (deployment_request doc) in
                if res_ok res
                then let* result := json_of res in prop result "_id"
                else ret VNull
              else ret VNull) st1 = (Returned VNull, st2)
             /\ conversationMap st2 = conversationMap st).
  { destruct (configured ELASTIC_URL && configured ELASTIC_API_KEY) eqn:E.
    - destruct Hstore as [? | Hstore]; [discriminate | ].
      destruct (Hstore doc w1) as (res & w2 & Hwrite & Hfail).
      unfold bind, do_fetch. cbn [outside sent conversationMap st1].
      rewrite Hwrite, Hfail. by eexists.
    - by eexists. }
  destruct Hid as (st2 & Hid & Hmap2).
  unfold bind at 1. rewrite Hid.
  unfold bind at 1. unfold now at 1.
  destruct (Date_now (outside st2)) as [endTime w3].
  set (duration := toFixed _ 1).
  unfold bind at 1.
  set (st3 := {| conversationMap := conversationMap st2; outside := w3;
                 sent := sent st2 |}).
  assert (Hslack : exists st4,
             (if configured SLACK_WEBHOOK_URL
              then
                let* _ := do_fetch
                  (rollback_slack_request (get params (lit "service"))
                     (get params (lit "current_version"))
                     (get params (lit "target_version"))
                     (get params (lit "reason")) duration) in
                ret tt
              else ret tt) st3 = (Returned tt, st4)
             /\ conversationMap st4 = conversationMap st).
  { destruct (configured SLACK_WEBHOOK_URL).
    - unfold bind, do_fetch, ret. cbn [outside sent conversationMap st3].
      destruct (Hnet (rollback_slack_request (get params (lit "service"))
                        (get params (lit "current_version"))
                        (get params (lit "target_version"))
                        (get params (lit "reason")) duration) w3)
        as (res4 & w4 & ->).
      by eexists.
    - by exists st3. }
  destruct Hslack as (st4 & -> & Hmap4).
  unfold bind at 1.
  match goal with
  | |- context [escapeHtml ?v ?s] =>
      destruct (escapeHtml_returns v s Hreason) as [escaped ->]
  end.
  unfold bind at 1.
  match goal with
  | |- context [sendTelegram ?c ?t ?o ?s] =>
      destruct (sendTelegram_returns c t o s Hnet)
        as (v & telegram & -> & _)
  end.
  unfold ret. eexists _, _.
  split; [reflexivity | ]. split; [reflexivity | ].
  split; [reflexivity | ]. exact Hmap4.
Qed.

End RollbackMore.

Section DispatcherMore.
Import Gateway Conditions.
Context {R : Runtime} {C : Config} {H : Handlers}.

(** X15: every response of the [/mcp] endpoint is a JSON-RPC 2.0 envelope
    under the id of the request, with either a result or an error, never
    both and never neither; whatever the handlers are. *)
Theorem mcp_envelope (body response : value) (st st' : state) :
  mcp body st = (Returned response, st') ->
  get response (lit "jsonrpc") = vstr "2.0"
  /\ get response (lit "id") = get body (lit "id")
  /\ ((exists result, response = rpc_result (get body (lit "id")) result
                      /\ result <> VUndefined)
      \/ (exists code message,
            response = rpc_error (get body (lit "id")) code message)).
Proof.
  unfold mcp, prop. destruct (nullish body); [discriminate | ].
  unfold bind at 1. unfold ret at 1.
  destruct (equals _ "initialize").
  { intros [= <- <-]. repeat split. left. by eexists. }
  destruct (equals _ "tools/list").
  { intros [= <- <-]. repeat split. left. by eexists. }
  destruct (equals _ "tools/call").
  2:{ unfold bind, printed. destruct (forallb printable _); [ | discriminate].
      intros [= <- <-]. repeat split. right. by eexists _, _. }
  destruct (nullish (get body (lit "params"))); [discriminate | ].
  unfold bind at 1. unfold ret at 1. unfold bind, try_catch.
  destruct (call_tool _ _ st) as [[result | message | ] st1];
    [ | | discriminate];
    intros [= <- <-]; repeat split; left; by eexists.
Qed.

End DispatcherMore.

Section ToolFacts.
Import Gateway Tools Conditions.
Context {R : Runtime} {C : Config} {P : Prototype}.

Lemma timestamp_returns (st : state) :
  exists stamp w,
    timestamp st
    = (Returned stamp,
       {| conversationMap := conversationMap st; outside := w;
          sent := sent st |}).
Proof.
  unfold timestamp, bind, now, ret.
  destruct (Date_now (outside st)) as [t w]. by eexists _, _.
Qed.

Lemma timestamp_run (st : state) :
  timestamp st
  = (Returned (toISOString (Date_now (outside st)).1),
     {| conversationMap := conversationMap st;
        outside := (Date_now (outside st)).2; sent := sent st |}).
Proof.
  unfold timestamp, bind, now, ret.
  by destruct (Date_now (outside st)) as [t w].
Qed.

Lemma sendTelegram_unconfigured (chatId : value) (text : jsstring)
    (options : list (jsstring * value)) (st : state) :
  configured TELEGRAM_BOT_TOKEN = false ->
  sendTelegram chatId text options st
  = (Returned (VObj [(lit "success", VBool false);
                     (lit "error", vstr "Bot not configured")]), st).
Proof. intros H. unfold sendTelegram. by rewrite H. Qed.

End ToolFacts.

Section ToolClaims.
Import Gateway Tools Conditions.
Context {R : Runtime} {C : Config} {P : Prototype}.

(** X16: with the store configured, for an arguments object whose tags
    are a list or absent: when the store answers the new incident with a
    failure, [createIncidentRecord] returns [success: false] with the text
    of that response behind "Elasticsearch: ", and notifies nobody: the
    write is the only request sent. *)
Theorem createIncidentRecord_refused (params : value) (tags : list value)
    (res : response) (w : world) (st : state) :
  nullish params = false ->
  or_else (get params (lit "tags")) (VArr []) = VArr tags ->
  configured ELASTIC_URL = true ->
  configured ELASTIC_API_KEY = true ->
  let clock := Date_now (outside st) in
  let doc := incident_doc params (toISOString clock.1) tags in
  fetch (incident_request doc) clock.2 = (Responded res, w) ->
  res_ok res = false ->
  createIncidentRecord params st
  = (Returned
       (VObj [(lit "success", VBool false);
              (lit "error", VStr (lit "Elasticsearch: " ++ res_text res))]),
     {| conversationMap := conversationMap st; outside := w;
        sent := sent st ++ [incident_request doc] |}).
Proof.
  intros Hparams Htags Hurl Hkey clock doc Hwrite Hfail.
  unfold createIncidentRecord.
  unfold bind at 1. rewrite timestamp_run. fold clock.
  unfold bind at 1. unfold prop at 1. rewrite Hparams. unfold ret at 1.
  unfold bind at 1. rewrite Htags. unfold iterate, ret at 1.
  rewrite Hurl, Hkey. cbn [negb orb]. fold doc.
  unfold bind, do_fetch. cbn [outside sent conversationMap].
  rewrite Hwrite, Hfail. reflexivity.
Qed.

(** X17: with the store configured, for an arguments object whose tags are
    a list or absent and whose title, severity and service are strings or
    absent: when the store accepts the new incident and answers with a
    document whose [_id] is a string or absent, and every request is
    answered,
    [createIncidentRecord] reports success with that [_id], whatever
    Telegram answers to the notification; the two links of the result are
    the same, the Discover link of the document, or [null] when no Kibana
    address is configured; every request after the write goes to
    Telegram. *)
Theorem createIncidentRecord_stored (params : value) (tags : list value)
    (res : response) (stored : value) (w : world) (st : state) :
  nullish params = false ->
  or_else (get params (lit "tags")) (VArr []) = VArr tags ->
  texts params ["title"; "severity"; "service"]%string ->
  configured ELASTIC_URL = true ->
  configured ELASTIC_API_KEY = true ->
  always_answers ->
  let clock := Date_now (outside st) in
  let doc := incident_doc params (toISOString clock.1) tags in
  fetch (incident_request doc) clock.2 = (Responded res, w) ->
  res_ok res = true ->
  res_json res = Some stored ->
  nullish stored = false ->
  text_or_absent (get stored (lit "_id")) ->
  exists (result : value) (st' : state) (notifications : list request),
    createIncidentRecord params st = (Returned result, st')
    /\ get result (lit "success") = VBool true
    /\ get result (lit "document_id") = get stored (lit "_id")
    /\ get result (lit "view_url") = get result (lit "kibana_link")
    /\ get result (lit "kibana_link")
       = (if configured KIBANA_URL
          then VStr (incident_link (get stored (lit "_id")))
          else VNull)
    /\ sent st' = sent st ++ incident_request doc :: notifications
    /\ Forall (fun r => req_url r = telegram_url) notifications.
Proof.
  intros Hparams Htags Htexts Hurl Hkey Hnet clock doc Hwrite Hok Hjson
    Hstored Hid.
  assert (Htitle : text_or_absent (get params (lit "title"))).
  { by apply Forall_cons in Htexts as [? _]. }
  unfold createIncidentRecord.
  unfold bind at 1. rewrite timestamp_run. fold clock.
  unfold bind at 1. unfold prop at 1. rewrite Hparams. unfold ret at 1.
  unfold bind at 1. rewrite Htags. unfold iterate, ret at 1.
  rewrite Hurl, Hkey. cbn [negb orb]. fold doc.
  unfold bind at 1. unfold do_fetch at 1. cbn [outside sent conversationMap].
  rewrite Hwrite, Hok. cbn [negb].
  unfold bind at 1. unfold json_of. rewrite Hjson. unfold ret at 1.
  unfold bind at 1. unfold prop at 1. rewrite Hstored. unfold ret at 1.
  set (st2 := {| conversationMap := conversationMap st; outside := w;
                 sent := sent st ++ [incident_request doc] |}).
  set (link := if configured KIBANA_URL
               then VStr (incident_link (get stored (lit "_id")))
               else VNull).
  assert (Hlink : (if configured KIBANA_URL
                   then
                     let* _ := printed [get stored (lit "_id")] in
                     ret (VStr (incident_link (get stored (lit "_id"))))
                   else ret VNull) st2 = (Returned link, st2)).
  { subst link. destruct (configured KIBANA_URL); [ | reflexivity].
    unfold bind.
    rewrite printed_returns
      by (cbn [forallb]; by rewrite (text_printable _ Hid)).
    reflexivity. }
  unfold bind at 1. rewrite Hlink.
  unfold bind at 1.
  match goal with
  | |- context [(if configured TELEGRAM_BOT_TOKEN && configured TELEGRAM_CHAT_ID
                 then ?m else ret tt) st2] =>
      assert (Hnote : exists st3 notifications,
                 (if configured TELEGRAM_BOT_TOKEN
                     && configured TELEGRAM_CHAT_ID
                  then m else ret tt) st2 = (Returned tt, st3)
                 /\ sent st3 = sent st ++ incident_request doc :: notifications
                 /\ Forall (fun r => req_url r = telegram_url) notifications)
  end.
  { destruct (configured TELEGRAM_BOT_TOKEN && configured TELEGRAM_CHAT_ID).
    - unfold bind at 1.
      destruct (escapeHtml_returns (get params (lit "title")) st2 Htitle)
        as [escaped ->].
      unfold bind at 1.
      pose proof (texts_printed params ["severity"; "service"]%string st2)
        as Hprinted.
      cbn [map] in Hprinted. rewrite Hprinted; clear Hprinted.
      2:{ eapply texts_weaken; [exact Htexts | reflexivity]. }
      unfold bind at 1.
      match goal with
      | |- context [sendTelegram ?c ?t ?o ?s] =>
          destruct (sendTelegram_returns c t o s Hnet)
            as (v & telegram & -> & Htelegram)
      end.
      unfold ret. eexists _, telegram. split; [reflexivity | ].
      split; [ | exact Htelegram]. cbn [sent st2]. by rewrite <- app_assoc.
    - exists st2, []. split; [reflexivity | ]. split; [ | constructor].
      reflexivity. }
  destruct Hnote as (st3 & notifications & -> & Hsent & Hall).
  unfold ret. eexists _, _, notifications.
  split; [reflexivity | ]. split; [reflexivity | ].
  split; [reflexivity | ]. split; [reflexivity | ].
  split; [reflexivity | ].
  split; [exact Hsent | exact Hall].
Qed.

(** X18: for an arguments object whose service, versions and reason are
    strings or absent, and a network that answers: [recommendRollback]
    reports success and "Team notified" with whatever status Telegram
    answers, and also when no bot is configured and nothing is sent; it
    contacts no other service. *)
Theorem recommendRollback_reports_success (params : value) (st : state) :
  nullish params = false ->
  texts params ["service"; "current_version"; "target_version"; "reason"]%string ->
  always_answers ->
  exists (result : value) (st' : state) (new : list request),
    recommendRollback params st = (Returned result, st')
    /\ get result (lit "success") = VBool true
    /\ get result (lit "message")
       = VStr (lit "Rollback recommended: "
               ++ tpl (get params (lit "service")) ++ lit " "
               ++ tpl (get params (lit "current_version")) ++ lit " -> "
               ++ tpl (get params (lit "target_version"))
               ++ lit ". Team notified.")
    /\ sent st' = sent st ++ new
    /\ Forall (fun r => req_url r = telegram_url) new
    /\ (configured TELEGRAM_BOT_TOKEN = false -> new = []).
Proof.
  intros Hparams Htexts Hnet.
  assert (Hreason : text_or_absent (get params (lit "reason"))).
  { by apply (texts_one params _ "reason" Htexts). }
  unfold recommendRollback.
  destruct (timestamp_returns st) as (stamp & w0 & Hstamp).
  unfold bind at 1. rewrite Hstamp.
  unfold bind at 1. unfold prop at 1. rewrite Hparams. unfold ret at 1.
  unfold bind at 1.
  match goal with
  | |- context [printed [get params (lit "service")] ?s] =>
      pose proof (texts_printed params ["service"]%string s) as Hprinted;
      cbn [map] in Hprinted; rewrite Hprinted; clear Hprinted;
      [ | eapply texts_weaken; [exact Htexts | reflexivity]]
  end.
  unfold bind at 1.
  match goal with
  | |- context [printed [get params (lit "current_version"); _] ?s] =>
      pose proof (texts_printed params
                    ["current_version"; "target_version"]%string s)
        as Hprinted;
      cbn [map] in Hprinted; rewrite Hprinted; clear Hprinted;
      [ | eapply texts_weaken; [exact Htexts | reflexivity]]
  end.
  unfold bind at 1.
  match goal with
  | |- context [escapeHtml ?v ?s] =>
      destruct (escapeHtml_returns v s Hreason) as [escaped ->]
  end.
  unfold bind at 1.
  match goal with
  | |- context [sendTelegram ?c ?t ?o ?s] =>
      destruct (sendTelegram_returns c t o s Hnet)
        as (v & new & Hrun & Htelegram);
      pose proof (sendTelegram_unconfigured c t o s) as Hoff
  end.
  rewrite Hrun in Hoff |- *.
  unfold ret. eexists _, _, new.
  split; [reflexivity | ]. split; [reflexivity | ].
  split; [reflexivity | ]. split; [reflexivity | ].
  split; [exact Htelegram | ].
  intros Hunset. specialize (Hoff Hunset).
  apply (f_equal (fun r => sent r.2)) in Hoff. cbn [snd sent] in Hoff.
  rewrite <- (app_nil_r (sent st)) in Hoff at 2.
  by apply app_inv_head in Hoff.
Qed.

End ToolClaims.

Section NotifyFacts.
Import Gateway Tools Conditions.
Context {R : Runtime} {C : Config} {P : Prototype}.

(** What [sendTelegram] returns: success, or a failure with its text. *)
Lemma sendTelegram_result (chatId : value) (text : jsstring)
    (options : list (jsstring * value)) (st : state) (v : value) :
  (sendTelegram chatId text options st).1 = Returned v ->
  v = VObj [(lit "success", VBool true)]
  \/ exists e, v = VObj [(lit "success", VBool false); (lit "error", VStr e)].
Proof.
  unfold sendTelegram.
  destruct (configured TELEGRAM_BOT_TOKEN); cbn [negb].
  2:{ intros [= <-]. right. by eexists. }
  unfold bind, do_fetch, ret.
  destruct (fetch _ (outside st)) as [[msg | res] w1]; [discriminate | ].
  destruct (res_ok res); cbn [negb]; [intros [= <-]; by left | ].
  destruct (includes _ _); [ | intros [= <-]; right; by eexists].
  cbn [outside sent conversationMap].
  destruct (fetch (plain_request chatId (safe_text text) options) w1)
    as [[msg | res2] w2]; [discriminate | ].
  destruct (res_ok res2); intros [= <-]; [by left | right; by eexists].
Qed.

Lemma opt_fixed_returns (v : value) (digits : nat) (st : state) :
  nullish v = true \/ (exists q, v = VNum q) ->
  exists s, opt_fixed v digits st = (Returned s, st).
Proof.
  unfold opt_fixed. intros [-> | [q ->]]; by eexists.
Qed.

Lemma service_entry_returns (r : value) (st : state) :
  figures_or_absent r ->
  exists s,
    service_entry r st = (Returned s, st)
    /\ get s (lit "service") = get r (lit "service")
    /\ get s (lit "status")
       = (if unhealthy r then vstr "UNHEALTHY" else vstr "HEALTHY").
Proof.
  unfold figures_or_absent. intros Hall.
  repeat (apply Forall_cons in Hall as [? Hall]).
  unfold service_entry.
  repeat (unfold bind at 1;
          match goal with
          | |- context [opt_fixed ?v ?d ?s] =>
              destruct (opt_fixed_returns v d s) as [? ->]; [assumption | ]
          end).
  eexists. split; [reflexivity | ]. split; reflexivity.
Qed.

Lemma service_entries (rows : list value) (st : state) :
  Forall figures_or_absent rows ->
  exists services,
    map_m service_entry rows st = (Returned services, st)
    /\ Forall2 (fun r s =>
                  get s (lit "service") = get r (lit "service")
                  /\ get s (lit "status")
                     = (if unhealthy r then vstr "UNHEALTHY"
                        else vstr "HEALTHY"))
         rows services.
Proof.
  induction rows as [| r rows IH]; intros Hall.
  - exists []. split; [reflexivity | constructor].
  - apply Forall_cons in Hall as [Hr Hall].
    destruct (service_entry_returns r st Hr) as (s & Hs & Hfields).
    destruct (IH Hall) as (services & Hrun & Hrel).
    exists (s :: services). cbn [map_m]. unfold bind. rewrite Hs, Hrun.
    split; [reflexivity | by constructor].
Qed.

Lemma unhealthy_entries (rows services : list value) :
  Forall2 (fun r s =>
             get s (lit "service") = get r (lit "service")
             /\ get s (lit "status")
                = (if unhealthy r then vstr "UNHEALTHY" else vstr "HEALTHY"))
    rows services ->
  existsb is_unhealthy services = existsb unhealthy rows.
Proof.
  induction 1 as [| r s rows services [_ Hstatus] _ IH]; [reflexivity | ].
  cbn [existsb]. rewrite IH. f_equal. unfold is_unhealthy. rewrite Hstatus.
  by destruct (unhealthy r).
Qed.

End NotifyFacts.

Section NotifyClaims.
Import Gateway Tools Conditions.
Context {R : Runtime} {C : Config} {P : Prototype}.

(** X19: without a webhook, [sendSlackNotification] sends nothing and
    reports success all the same, whatever its arguments.  With a webhook
    and no arguments object it throws before any request.  With a webhook
    and an arguments object whose severity, title, service, root cause and
    recommended action are strings or absent, it sends one request to the
    webhook, and when that request is answered it reports success exactly
    when the response is a success, the response text being passed on
    behind "Slack: " otherwise. *)
Theorem sendSlackNotification_outcomes (params : value) (st : state) :
  (configured SLACK_WEBHOOK_URL = false ->
   sendSlackNotification params st
   = (Returned
        (VObj [(lit "success", VBool true);
               (lit "message",
                vstr "Slack not configured (would send in production)")]),
      st))
  /\ (configured SLACK_WEBHOOK_URL = true ->
      nullish params = true ->
      exists message, sendSlackNotification params st = (Thrown message, st))
  /\ (configured SLACK_WEBHOOK_URL = true ->
      nullish params = false ->
      texts params ["severity"; "title"; "service"; "root_cause";
                    "recommended_action"]%string ->
      exists body : value,
        req_url (slack_request body) = SLACK_WEBHOOK_URL
        /\ forall (res : response) (w : world),
             fetch (slack_request body) (outside st) = (Responded res, w) ->
             exists result,
               sendSlackNotification params st
               = (Returned result,
                  {| conversationMap := conversationMap st; outside := w;
                     sent := sent st ++ [slack_request body] |})
               /\ get result (lit "success") = VBool (res_ok res)
               /\ (res_ok res = false ->
                   get result (lit "error")
                   = VStr (lit "Slack: " ++ res_text res))).
Proof.
  split; [ | split].
  - intros Hoff. unfold sendSlackNotification. by rewrite Hoff.
  - intros Hon Hparams. unfold sendSlackNotification. rewrite Hon.
    cbn [negb]. unfold prop. rewrite Hparams. by eexists.
  - intros Hon Hparams Htexts. unfold sendSlackNotification. rewrite Hon.
    cbn [negb]. unfold prop. rewrite Hparams.
    unfold bind at 1. unfold ret at 1.
    assert (Hprinted :
              printed ([get params (lit "severity");
                        get params (lit "title");
                        get params (lit "service");
                        get params (lit "root_cause")]
                       ++ (if truthy (get params (lit "recommended_action"))
                           then [get params (lit "recommended_action")]
                           else [])) st
              = (Returned tt, st)).
    { apply printed_returns, texts_printable.
      repeat (apply Forall_cons in Htexts as [? Htexts]).
      destruct (truthy _); cbn [app];
        repeat (apply Forall_cons_2; [assumption | ]); apply Forall_nil_2. }
    unfold bind at 1. rewrite Hprinted.
    match goal with
    | |- context [do_fetch (slack_request ?b)] => exists b
    end.
    split; [reflexivity | ].
    intros res w Hfetch. unfold bind, do_fetch. rewrite Hfetch.
    destruct (res_ok res); cbn [negb]; eexists;
      (split; [reflexivity | split; [reflexivity | ]]); [discriminate | ].
    reflexivity.
Qed.

(** X20: for an arguments object whose severity, title, service, root
    cause and recommended action are strings or absent, and a network that
    answers: [sendTelegramAlert] reports what [sendTelegram] reports,
    success when Telegram accepted the alert, otherwise a failure with its
    text, which is "Bot not configured" when there is no bot token,
    nothing being sent then; it contacts Telegram only. *)
Theorem sendTelegramAlert_mirrors_delivery (params : value) (st : state) :
  nullish params = false ->
  texts params ["severity"; "title"; "service"; "root_cause";
                "recommended_action"]%string ->
  always_answers ->
  exists (result : value) (st' : state) (new : list request),
    sendTelegramAlert params st = (Returned result, st')
    /\ sent st' = sent st ++ new
    /\ Forall (fun r => req_url r = telegram_url) new
    /\ (result
        = VObj [(lit "success", VBool true);
                (lit "message", vstr "Telegram alert sent to on-call team")]
        \/ exists e,
             result = VObj [(lit "success", VBool false);
                            (lit "error", VStr e)])
    /\ (configured TELEGRAM_BOT_TOKEN = false ->
        new = []
        /\ result = VObj [(lit "success", VBool false);
                          (lit "error", vstr "Bot not configured")]).
Proof.
  intros Hparams Htexts Hnet.
  pose proof (texts_one params _ "title" Htexts eq_refl) as Htitle.
  pose proof (texts_one params _ "root_cause" Htexts eq_refl) as Hcause.
  pose proof (texts_one params _ "recommended_action" Htexts eq_refl)
    as Haction.
  unfold sendTelegramAlert.
  unfold bind at 1. unfold prop at 1. rewrite Hparams. unfold ret at 1.
  unfold bind at 1.
  pose proof (texts_printed params ["severity"]%string st) as Hprinted.
  cbn [map] in Hprinted. rewrite Hprinted; clear Hprinted;
    [ | eapply texts_weaken; [exact Htexts | reflexivity]].
  unfold bind at 1.
  destruct (escapeHtml_returns _ st Htitle) as [title ->].
  unfold bind at 1.
  pose proof (texts_printed params ["service"]%string st) as Hprinted.
  cbn [map] in Hprinted. rewrite Hprinted; clear Hprinted;
    [ | eapply texts_weaken; [exact Htexts | reflexivity]].
  unfold bind at 1.
  destruct (escapeHtml_returns _ st Hcause) as [root_cause ->].
  unfold bind at 1.
  match goal with
  | |- context [(if truthy ?a then ?m else ret []) st] =>
      assert (Hact : exists action,
                 (if truthy a then m else ret []) st = (Returned action, st))
  end.
  { destruct (truthy _); [ | by eexists]. unfold bind.
    destruct (escapeHtml_returns _ st Haction) as [recommended ->].
    by eexists. }
  destruct Hact as [action ->].
  unfold bind at 1.
  match goal with
  | |- context [sendTelegram ?c ?t ?o ?s] =>
      destruct (sendTelegram_returns c t o s Hnet)
        as (v & new & Hrun & Htelegram);
      pose proof (sendTelegram_unconfigured c t o s) as Hoff;
      pose proof (sendTelegram_result c t o s v) as Hshape
  end.
  rewrite Hrun in Hoff, Hshape |- *. specialize (Hshape eq_refl).
  assert (Hnew : configured TELEGRAM_BOT_TOKEN = false ->
                 new = []
                 /\ v = VObj [(lit "success", VBool false);
                              (lit "error", vstr "Bot not configured")]).
  { intros Hunset. specialize (Hoff Hunset). injection Hoff as -> Hst.
    split; [ | reflexivity].
    apply (f_equal sent) in Hst. cbn [sent] in Hst.
    rewrite <- (app_nil_r (sent st)) in Hst at 2.
    by apply app_inv_head in Hst. }
  destruct Hshape as [-> | [e ->]]; unfold ret; eexists _, _, new;
    (split; [reflexivity | ]); (split; [reflexivity | ]);
    (split; [exact Htelegram | ]).
  - split; [by left | ]. intros Hunset. by destruct (Hnew Hunset).
  - split; [right; by eexists | exact Hnew].
Qed.

End NotifyClaims.

Section ReadClaims.
Import Gateway Tools Conditions.
Context {R : Runtime} {C : Config} {P : Prototype}.


End ReadClaims.

Section BotFacts.
Import Gateway Tools Bot Conditions.
Context {R : Runtime} {C : Config} {P : Prototype}.

Lemma splitMessage_total (text : jsstring) (maxLen : Z) :
  1 <= maxLen ->
  exists chunks,
    Chunker.splitMessage text maxLen = Some chunks
    /\ Forall (fun c => js_length c <= maxLen) chunks.
Proof.
  intros HL. rewrite splitMessage_erase. unfold Chunker.splitMessage_marked.
  destruct (_ <=? _) eqn:Hfit.
  - exists [text]. split; [reflexivity | ].
    apply Forall_singleton. by apply Z.leb_le.
  - destruct (marked_loop_spec maxLen (S (length text)) HL text [])
      as (segs & -> & _ & Hlen); [lia | ].
    exists (map fst segs). split; [reflexivity | ].
    apply Forall_map. apply Hlen. constructor.
Qed.

(** One message of the bot, when Telegram answers. *)
Lemma send_returns (chatId : value) (text : jsstring) (st : state) :
  always_answers ->
  configured TELEGRAM_BOT_TOKEN = true ->
  exists (st' : state) (batch : list request),
    send chatId text st = (Returned tt, st')
    /\ sent st' = sent st ++ batch
    /\ conversationMap st' = conversationMap st
    /\ (batch = [html_request chatId (safe_text text) []]
        \/ batch = [html_request chatId (safe_text text) [];
                    plain_request chatId (safe_text text) []]).
Proof.
  intros Hnet Htoken. unfold send, bind.
  destruct (sendTelegram_returns chatId text [] st Hnet)
    as (v & new & Hrun & _).
  destruct (sendTelegram_requests chatId text [] st)
    as (batch & Hsent & _ & Hbatch & Hsome).
  rewrite Hrun in Hsent |- *. cbn [snd sent] in Hsent.
  apply app_inv_head in Hsent. subst new.
  unfold ret. eexists _, batch. split; [reflexivity | ].
  split; [reflexivity | ]. split; [reflexivity | ].
  destruct Hbatch as [-> | Hbatch]; [by destruct (Hsome Htoken) | exact Hbatch].
Qed.

Lemma for_each_send (chatId : value) (chunks : list jsstring) :
  always_answers ->
  configured TELEGRAM_BOT_TOKEN = true ->
  Forall (fun c => js_length c <= 4096) chunks ->
  forall st : state,
    exists (st' : state) (batches : list (list request)),
      for_each chunks (send chatId) st = (Returned tt, st')
      /\ sent st' = sent st ++ concat batches
      /\ conversationMap st' = conversationMap st
      /\ Forall2 (fun chunk batch =>
                    batch = [html_request chatId chunk []]
                    \/ batch = [html_request chatId chunk [];
                                plain_request chatId chunk []])
           chunks batches.
Proof.
  intros Hnet Htoken Hall. induction Hall as [| c chunks Hc _ IH]; intros st.
  - exists st, []. cbn. rewrite app_nil_r. repeat split. constructor.
  - destruct (send_returns chatId c st Hnet Htoken)
      as (st1 & batch & Hrun & Hsent & Hmap & Hbatch).
    rewrite (safe_text_short c Hc) in Hbatch.
    destruct (IH st1) as (st' & batches & Hrest & Hsent' & Hmap' & Hrel).
    exists st', (batch :: batches). cbn [for_each]. unfold bind.
    rewrite Hrun, Hrest. split; [reflexivity | ].
    split; [rewrite Hsent', Hsent; cbn [concat]; by rewrite app_assoc | ].
    split; [congruence | by constructor].
Qed.

End BotFacts.

Section BotClaims.
Import Gateway Tools Bot Conditions.
Context {R : Runtime} {C : Config} {P : Prototype}.


End BotClaims.

Section FinishFacts.
Import Gateway Tools Bot Conditions.
Context {R : Runtime} {C : Config} {P : Prototype}.

Lemma finishes_ret {A} (a : A) : finishes (ret a).
Proof. by intros st. Qed.

Lemma finishes_throw {A} (e : jsstring) : finishes (throw (A := A) e).
Proof. by intros st. Qed.

Lemma finishes_bind {A A'} (m : M A) (k : A -> M A') :
  finishes m -> (forall a, finishes (k a)) -> finishes (bind m k).
Proof.
  intros Hm Hk st. unfold bind. specialize (Hm st).
  destruct (m st) as [[a | e | ] st1]; [apply Hk | done | done].
Qed.

Lemma finishes_try_catch {A} (m : M A) (handler : jsstring -> M A) :
  finishes m -> (forall e, finishes (handler e)) ->
  finishes (try_catch m handler).
Proof.
  intros Hm Hh st. unfold try_catch. specialize (Hm st).
  destruct (m st) as [[a | e | ] st1]; [done | apply Hh | done].
Qed.

Lemma finishes_do_fetch (req : request) : finishes (do_fetch req).
Proof.
  intros st. unfold do_fetch.
  by destruct (fetch req (outside st)) as [[e | res] w].
Qed.

Lemma finishes_json_of (res : response) : finishes (json_of res).
Proof. intros st. unfold json_of. by destruct (res_json res). Qed.

Lemma finishes_prop (v : value) (key : string) : finishes (prop v key).
Proof. intros st. unfold prop. by destruct (nullish v). Qed.

Lemma finishes_iterate (v : value) : finishes (iterate v).
Proof. intros st. by destruct v. Qed.

Lemma finishes_escapeHtml (v : value) : finishes (escapeHtml v).
Proof.
  intros st. unfold escapeHtml. destruct (negb (truthy v)); [done | ].
  by destruct v.
Qed.

Lemma finishes_send (chatId : value) (text : jsstring) :
  finishes (send chatId text).
Proof.
  apply finishes_bind; [ | intros; apply finishes_ret].
  intros st. apply sendTelegram_finishes.
Qed.

Lemma finishes_queryApollo (userMessage : value) (chatId : jsstring) :
  finishes (queryApollo userMessage chatId).
Proof. intros st. apply (queryApollo_runs O userMessage chatId st). Qed.

Lemma finishes_for_each {A} (items : list A) (body : A -> M unit) :
  (forall item, finishes (body item)) -> finishes (for_each items body).
Proof.
  intros Hbody. induction items as [| item items IH]; cbn [for_each].
  - apply finishes_ret.
  - apply finishes_bind; [apply Hbody | intros; exact IH].
Qed.

Lemma finishes_respond (chatId prompt : value) :
  finishes (respond chatId prompt).
Proof.
  apply finishes_try_catch.
  - apply finishes_bind; [apply finishes_queryApollo | ].
    intros rawResponse. cbv zeta.
    destruct (splitMessage_total (Formatter.mdToTelegramHtml rawResponse) 4000)
      as (chunks & -> & _); [lia | ].
    apply finishes_for_each. intros chunk. apply finishes_send.
  - intros e. apply finishes_bind; [apply finishes_escapeHtml | ].
    intros escaped. apply finishes_send.
Qed.

Lemma finishes_handle_message (update : value) :
  finishes (handle_message update).
Proof.
  unfold handle_message.
  destruct (negb (truthy _)); [apply finishes_ret | ].
  apply finishes_bind; [apply finishes_prop | ]. intros chatId.
  destruct (if nullish _ then VUndefined else _);
    try apply finishes_throw.
  destruct (bool_decide _); [apply finishes_send | ].
  destruct (bool_decide _).
  { apply finishes_bind; [done | intros; apply finishes_send]. }
  destruct (_ && _); [ | apply finishes_send].
  apply finishes_bind; [apply finishes_send | intros; apply finishes_respond].
Qed.

Lemma finishes_lift {A} (m : M A) : finishes m -> finishes_b (lift m).
Proof.
  intros Hm last st. unfold lift. specialize (Hm st).
  by destruct (m st).
Qed.

Lemma finishes_bind_b {A A'} (m : Poll A) (k : A -> Poll A') :
  finishes_b m -> (forall a, finishes_b (k a)) -> finishes_b (bind_b m k).
Proof.
  intros Hm Hk last st. unfold bind_b. specialize (Hm last st).
  destruct (m last st) as [[[a | e | ] last1] st1]; [apply Hk | done | done].
Qed.

Lemma finishes_for_each_b {A} (items : list A) (body : A -> Poll unit) :
  (forall item, finishes_b (body item)) -> finishes_b (for_each_b items body).
Proof.
  intros Hbody. induction items as [| item items IH]; cbn [for_each_b].
  - by intros last st.
  - apply finishes_bind_b; [apply Hbody | intros; exact IH].
Qed.

(** The cycle of the poller, behind the test of the token. *)
Lemma finishes_cycle :
  finishes_b
    (do* lastUpdateId := get_last in
     do* res := lift (do_fetch (updates_request lastUpdateId)) in
     do* data := lift (json_of res) in
     do* result := lift (prop data "result") in
     do* updates := lift (iterate (or_else result (VArr []))) in
     for_each_b updates
       (fun update =>
          do* update_id := lift (prop update "update_id") in
          do* _ := set_last update_id in
          lift (handle_message update))).
Proof.
  apply finishes_bind_b; [by intros last st | ]. intros lastUpdateId.
  apply finishes_bind_b; [apply finishes_lift, finishes_do_fetch | ].
  intros res.
  apply finishes_bind_b; [apply finishes_lift, finishes_json_of | ].
  intros data.
  apply finishes_bind_b; [apply finishes_lift, finishes_prop | ].
  intros result.
  apply finishes_bind_b; [apply finishes_lift, finishes_iterate | ].
  intros updates. apply finishes_for_each_b. intros update.
  apply finishes_bind_b; [apply finishes_lift, finishes_prop | ].
  intros update_id.
  apply finishes_bind_b; [by intros last st | ]. intros _.
  apply finishes_lift, finishes_handle_message.
Qed.

End FinishFacts.

Section PollerClaims.
Import Gateway Tools Bot Conditions.
Context {R : Runtime} {C : Config} {P : Prototype}.

(** X23: a cycle of the poller never throws: whatever Telegram and the
    reasoning engine send back, updates of any shape and rejected requests
    included, [pollTelegram] returns. *)
Theorem pollTelegram_returns (lastUpdateId : value) (st : state) :
  exists (lastUpdateId' : value) (st' : state),
    pollTelegram lastUpdateId st = ((Returned tt, lastUpdateId'), st').
Proof.
  unfold pollTelegram.
  destruct (negb (configured TELEGRAM_BOT_TOKEN)); [by eexists _, _ | ].
  unfold try_catch_b. pose proof (finishes_cycle lastUpdateId st) as Hfin.
  match goal with
  | |- context [match ?m with _ => _ end] =>
      destruct m as [[[[] | e | ] last1] st1]
  end; [by eexists _, _ | by eexists _, _ | done].
Qed.

(** X24: an update whose handling throws ends the cycle there.  It counts
    as received ([lastUpdateId] is its id), so that it is not handled
    again, and the updates behind it are left for the next cycle. *)
Theorem pollTelegram_failing_update (lastUpdateId : value) (res : response)
    (w : world) (data update : value) (later : list value)
    (message : jsstring) (st st' : state) :
  configured TELEGRAM_BOT_TOKEN = true ->
  fetch (updates_request lastUpdateId) (outside st) = (Responded res, w) ->
  res_json res = Some data ->
  get data (lit "result") = VArr (update :: later) ->
  nullish update = false ->
  handle_message update
    {| conversationMap := conversationMap st; outside := w;
       sent := sent st ++ [updates_request lastUpdateId] |}
  = (Thrown message, st') ->
  pollTelegram lastUpdateId st
  = ((Returned tt, get update (lit "update_id")), st').
Proof.
  intros Htoken Hfetch Hjson Hresult Hupdate Hthrow.
  assert (Hdata : nullish data = false).
  { destruct data; try discriminate; reflexivity. }
  unfold pollTelegram. rewrite Htoken. cbn [negb].
  unfold try_catch_b.
  unfold bind_b at 1. unfold get_last at 1.
  unfold bind_b at 1. unfold lift at 1. unfold do_fetch at 1.
  rewrite Hfetch.
  unfold bind_b at 1. unfold lift at 1. unfold json_of. rewrite Hjson.
  unfold ret at 1.
  unfold bind_b at 1. unfold lift at 1. unfold prop at 1.
  rewrite Hdata, Hresult. unfold ret at 1.
  unfold bind_b at 1. unfold lift at 1. cbn [or_else truthy iterate].
  unfold ret at 1. cbn [for_each_b].
  unfold bind_b at 1. unfold bind_b at 1. unfold lift at 1. unfold prop at 1.
  rewrite Hupdate. unfold ret at 1.
  unfold bind_b at 1. unfold set_last at 1. unfold lift at 1.
  rewrite Hthrow. reflexivity.
Qed.

(** X25: the command [/newthread] from a chat deletes the session stored
    for that chat, whatever Telegram answers to the confirmation; the next
    question from the chat goes to the reasoning engine without a session
    id. *)
Theorem handle_message_newthread (update chatId next : value)
    (raw input : jsstring) (st : state) :
  get (get update (lit "message")) (lit "text") = VStr raw ->
  trim raw = lit "/newthread" ->
  nullish (get (get update (lit "message")) (lit "chat")) = false ->
  get (get (get update (lit "message")) (lit "chat")) (lit "id") = chatId ->
  or_else next (VStr []) = VStr input ->
  is_empty (trim input) = false ->
  let st' := (handle_message update st).2 in
  conversationMap st' = delete (chat_key chatId) (conversationMap st)
  /\ (exists new : list request,
        sent st' = sent st ++ new
        /\ (new = []
            \/ new = [html_request chatId fresh_text []]
            \/ new = [html_request chatId fresh_text [];
                      plain_request chatId fresh_text []]))
  /\ get (req_body (converse_request (trim input) VUndefined))
       (lit "conversation_id") = VUndefined
  /\ exists rest : list request,
       sent (queryApollo next (chat_key chatId) st').2
       = sent st' ++ converse_request (trim input) VUndefined :: rest.
Proof.
  intros Htext Hcommand Hchat Hid Hnext Hinput st'.
  assert (Hmsg : nullish (get update (lit "message")) = false).
  { destruct (get update (lit "message")); try discriminate; reflexivity. }
  assert (Hrun : handle_message update st
                 = (let* _ := conversation_delete (chat_key chatId) in
                    send chatId fresh_text) st).
  { unfold handle_message. rewrite Hmsg, Htext.
    assert (Hraw : truthy (VStr raw) = true).
    { destruct raw; [discriminate | reflexivity]. }
    rewrite Hraw. cbn [negb]. unfold prop. rewrite Hchat, Hid.
    unfold bind at 1. unfold ret at 1. rewrite Hcommand. reflexivity. }
  assert (Hsafe : safe_text fresh_text = fresh_text) by reflexivity.
  assert (Hstate : st' = (sendTelegram chatId fresh_text []
                            {| conversationMap :=
                                 delete (chat_key chatId) (conversationMap st);
                               outside := outside st;
                               sent := sent st |}).2).
  { subst st'. rewrite Hrun. unfold bind, conversation_delete, send, bind.
    by destruct (sendTelegram _ _ _ _) as [[v | e | ] st1]. }
  destruct (sendTelegram_requests chatId fresh_text []
              {| conversationMap :=
                   delete (chat_key chatId) (conversationMap st);
                 outside := outside st;
                 sent := sent st |})
    as (new & Hsent & Hmap & Hnew & _).
  rewrite <- Hstate in Hsent, Hmap. cbn [conversationMap sent] in Hsent, Hmap.
  rewrite Hsafe in Hnew. clearbody st'.
  split; [exact Hmap | ]. split; [by exists new | ].
  split; [reflexivity | ].
  unfold queryApollo.
  rewrite (queryApollo_without_session _ next input (chat_key chatId) st'
             Hnext Hinput) by (rewrite Hmap; apply lookup_delete_eq).
  destruct (fetch _ (outside st')) as [[m | res] w]; [by exists [] | ].
  destruct (res_ok res); [ | by exists []].
  match goal with
  | |- context [read_reply ?c res ?s] =>
      destruct (read_reply_quiet c res s) as (Hq & _)
  end.
  exists []. by rewrite Hq.
Qed.

End PollerClaims.

Section ListingFacts.
Import Gateway Tools Conditions.
Context {R : Runtime} {C : Config} {P : Prototype}.

Lemma error_entries (rows : list value) (st : state) :
  Forall latency_or_absent rows ->
  exists errors,
    map_m error_entry rows st = (Returned errors, st)
    /\ Forall2 (fun r e =>
                  get e (lit "service") = get r (lit "service")
                  /\ get e (lit "count") = get r (lit "error_count"))
         rows errors.
Proof.
  induction rows as [| r rows IH]; intros Hall.
  - exists []. split; [reflexivity | constructor].
  - apply Forall_cons in Hall as [Hr Hall].
    destruct (IH Hall) as (errors & Hrun & Hrel).
    assert (He : exists e, error_entry r st = (Returned e, st)
                   /\ get e (lit "service") = get r (lit "service")
                   /\ get e (lit "count") = get r (lit "error_count")).
    { unfold error_entry, bind. destruct Hr as [-> | [q Hq]].
      - eexists. split; [reflexivity | split; reflexivity].
      - rewrite Hq. cbn [nullish to_fixed]. eexists.
        split; [reflexivity | split; reflexivity]. }
    destruct He as (e & He & Hfields).
    exists (e :: errors). cbn [map_m]. unfold bind. rewrite He, Hrun.
    split; [reflexivity | by constructor].
Qed.

Lemma picked (fields : list string) (rows : list value) :
  Forall2 (fun r e => get e (lit "timestamp") = get r (lit "@timestamp"))
    rows (map (pick fields) rows).
Proof. induction rows; constructor; [reflexivity | assumption]. Qed.

End ListingFacts.

Section ListingClaims.
Import Gateway Tools Conditions.
Context {R : Runtime} {C : Config} {P : Prototype}.

(** X26: the three listings, called with an arguments object whose
    service, severity, limit and hours can be printed.  The query
    of [getRecentIncidents] looks at the last 7 days, has a filter on the
    service only if a service is given and one on the severity only if a
    severity is given, and asks for the newest rows, as many as the limit
    given, or 10 when the limit is absent or 0; that of
    [getRecentDeployments] is the same without the severity; that of
    [searchErrorLogs] looks at the last hours, as many as given, or 2 when
    the number is absent or 0, which is also what its [window] says.  When
    its query returns rows, each listing returns one entry per row, in
    order, and the number of rows beside them. *)
Theorem listings_count_rows (params : value) (rows : list value)
    (st st1 : state) :
  nullish params = false ->
  forallb (fun name => printable (get params (lit name)))
    ["service"; "severity"; "limit"; "hours"]%string = true ->
  let service := get params (lit "service") in
  let severity := get params (lit "severity") in
  let by_service :=
    if truthy service
    then lit " AND service == " ++ dquote ++ tpl service ++ dquote
    else [] in
  let by_severity :=
    if truthy severity
    then lit " AND severity == " ++ dquote ++ tpl severity ++ dquote
    else [] in
  let limit :=
    tpl (if truthy (get params (lit "limit")) then get params (lit "limit")
         else num 10) in
  let hours :=
    tpl (if truthy (get params (lit "hours")) then get params (lit "hours")
         else num 2) in
  (esqlQuery (lit "FROM incidents | WHERE @timestamp > NOW() - 7 days"
              ++ by_service ++ by_severity
              ++ lit " | SORT @timestamp DESC | LIMIT " ++ limit) st
   = (Returned rows, st1) ->
   exists incidents : list value,
     getRecentIncidents params st
     = (Returned
          (VObj [(lit "count", num (Z.of_nat (length rows)));
                 (lit "incidents", VArr incidents)]),
        st1)
     /\ Forall2 (fun r i =>
                   get i (lit "timestamp") = get r (lit "@timestamp")
                   /\ get i (lit "title") = get r (lit "title")
                   /\ get i (lit "severity") = get r (lit "severity"))
          rows incidents)
  /\ (esqlQuery (lit "FROM deployments | WHERE @timestamp > NOW() - 7 days"
                 ++ by_service
                 ++ lit " | SORT @timestamp DESC | LIMIT " ++ limit) st
      = (Returned rows, st1) ->
      exists deployments : list value,
        getRecentDeployments params st
        = (Returned
             (VObj [(lit "count", num (Z.of_nat (length rows)));
                    (lit "deployments", VArr deployments)]),
           st1)
        /\ Forall2 (fun r d =>
                      get d (lit "timestamp") = get r (lit "@timestamp")
                      /\ get d (lit "service") = get r (lit "service")
                      /\ get d (lit "version") = get r (lit "version"))
             rows deployments)
  /\ (esqlQuery (lit "FROM app-logs | WHERE @timestamp > NOW() - " ++ hours
                 ++ lit " hours AND level == " ++ dquote ++ lit "ERROR"
                 ++ dquote ++ by_service
                 ++ lit " | STATS error_count = COUNT(*), avg_latency = AVG(latency_ms) BY service, message, status_code | SORT error_count DESC | LIMIT 20")
        st
      = (Returned rows, st1) ->
      Forall latency_or_absent rows ->
      exists errors : list value,
        searchErrorLogs params st
        = (Returned
             (VObj [(lit "window",
                     VStr (lit "last " ++ hours ++ lit " hours"));
                    (lit "total_error_types", num (Z.of_nat (length rows)));
                    (lit "errors", VArr errors)]),
           st1)
        /\ Forall2 (fun r e =>
                      get e (lit "service") = get r (lit "service")
                      /\ get e (lit "count") = get r (lit "error_count"))
             rows errors).
Proof.
  intros Hparams Hprint service severity by_service by_severity limit hours.
  cbn [forallb] in Hprint.
  apply andb_true_iff in Hprint as [Hservice Hprint].
  apply andb_true_iff in Hprint as [Hseverity Hprint].
  apply andb_true_iff in Hprint as [Hlimit Hprint].
  apply andb_true_iff in Hprint as [Hhours _].
  split; [ | split].
  - intros Hquery. unfold getRecentIncidents, prop. rewrite Hparams.
    unfold bind at 1. unfold ret at 1.
    unfold bind at 1.
    rewrite printed_returns
      by (cbn [forallb]; by rewrite Hservice, Hseverity, Hlimit).
    unfold bind, ret.
    match goal with
    | |- context [esqlQuery ?q st] =>
        assert (Hq : esqlQuery q st = (Returned rows, st1));
        [ unfold week_filter, service_filter, severity_filter, or_else;
          rewrite <- !app_assoc; exact Hquery
        | rewrite Hq ]
    end.
    eexists. split; [reflexivity | ].
    clear. induction rows; constructor; [by repeat split | assumption].
  - intros Hquery. unfold getRecentDeployments, prop. rewrite Hparams.
    unfold bind at 1. unfold ret at 1.
    unfold bind at 1.
    rewrite printed_returns by (cbn [forallb]; by rewrite Hservice, Hlimit).
    unfold bind, ret.
    match goal with
    | |- context [esqlQuery ?q st] =>
        assert (Hq : esqlQuery q st = (Returned rows, st1));
        [ unfold week_filter, service_filter, or_else;
          rewrite <- !app_assoc; exact Hquery
        | rewrite Hq ]
    end.
    eexists. split; [reflexivity | ].
    clear. induction rows; constructor; [by repeat split | assumption].
  - intros Hquery Hrows. unfold searchErrorLogs, prop. rewrite Hparams.
    unfold bind at 1. unfold ret at 1.
    unfold bind at 1.
    rewrite printed_returns by (cbn [forallb]; by rewrite Hhours, Hservice).
    unfold bind at 1.
    match goal with
    | |- context [esqlQuery ?q st] =>
        assert (Hq : esqlQuery q st = (Returned rows, st1));
        [ unfold service_filter, or_else;
          rewrite <- ?app_assoc; exact Hquery
        | rewrite Hq ]
    end.
    destruct (error_entries rows st1 Hrows) as (errors & Hrun & Hrel).
    unfold bind. rewrite Hrun. unfold ret.
    exists errors. split; [reflexivity | exact Hrel].
Qed.

End ListingClaims.

Section EndpointClaims.
Import Gateway Tools Bot Conditions.
Context {R : Runtime} {C : Config} {H : Handlers}.

(** X27: [GET /health] changes nothing; it reports 16 tools, which is the
    number of tools that [tools/list] lists, under the sixteen names of the
    catalogue, and as active conversations the number of channels that
    have a session stored. *)
Theorem health_report (body : value) (st : state) :
  exists (report : value) (tools : list value),
    health st = (Returned report, st)
    /\ get report (lit "tools") = num 16
    /\ get report (lit "active_conversations")
       = num (Z.of_nat (size (conversationMap st)))
    /\ length tools = 16%nat
    /\ map (fun tool => get tool (lit "name")) tools = map vstr TOOL_NAMES
    /\ (nullish body = false ->
        equals (get body (lit "method")) "tools/list" = true ->
        mcp body st
        = (Returned (rpc_result (get body (lit "id"))
                       (VObj [(lit "tools", VArr tools)])), st)).
Proof.
  eexists _, TOOLS. split; [reflexivity | ].
  split; [reflexivity | ]. split; [reflexivity | ].
  split; [reflexivity | ]. split; [reflexivity | ].
  intros Hbody Hlist. unfold mcp, prop. rewrite Hbody.
  unfold bind at 1. unfold ret at 1.
  apply equals_true in Hlist. rewrite Hlist. reflexivity.
Qed.

(** X28: for a request with a body: outside a [tools/call] request that
    has its [params], the endpoint does nothing.  A request with another
    method, one that can be printed,
    is answered and the state is left as it is; when the method is none of
    the three known, the answer is the JSON-RPC error -32601, "Method not
    found: " followed by the method, under the request's id.  A method
    that cannot be printed makes the template of that message throw, and a
    [tools/call] request without [params] throws before the dispatcher's
    [try]: in both cases the request gets no JSON-RPC answer, and the
    state is left as it is. *)
Theorem mcp_effects_only_in_calls (body : value) (st : state) :
  nullish body = false ->
  (equals (get body (lit "method")) "tools/call" = false ->
   printable (get body (lit "method")) = true ->
   exists response,
     mcp body st = (Returned response, st)
     /\ (equals (get body (lit "method")) "initialize" = false ->
         equals (get body (lit "method")) "tools/list" = false ->
         response
         = VObj [(lit "jsonrpc", vstr "2.0");
                 (lit "id", get body (lit "id"));
                 (lit "error",
                  VObj [(lit "code", num (-32601));
                        (lit "message",
                         VStr (lit "Method not found: "
                               ++ tpl (get body (lit "method"))))])]))
  /\ (printable (get body (lit "method")) = false ->
      exists message, mcp body st = (Thrown message, st))
  /\ (equals (get body (lit "method")) "tools/call" = true ->
      nullish (get body (lit "params")) = true ->
      exists message, mcp body st = (Thrown message, st)).
Proof.
  intros Hbody. split; [ | split].
  - intros Hcall Hprint. unfold mcp, prop. rewrite Hbody.
    unfold bind at 1. unfold ret at 1.
    destruct (equals _ "initialize"); [by eexists | ].
    destruct (equals _ "tools/list"); [by eexists | ].
    rewrite Hcall. unfold bind.
    rewrite printed_returns by (cbn [forallb]; by rewrite Hprint).
    by eexists.
  - intros Hprint. unfold mcp, prop. rewrite Hbody.
    unfold bind at 1. unfold ret at 1.
    assert (Hno : forall s, equals (get body (lit "method")) s = false).
    { intros s. destruct (get body (lit "method")); try reflexivity.
      discriminate. }
    rewrite !Hno. unfold bind.
    rewrite printed_throws by (cbn [forallb]; by rewrite Hprint).
    by eexists.
  - intros Hcall Hparams. unfold mcp, prop. rewrite Hbody.
    unfold bind at 1. unfold ret at 1.
    apply equals_true in Hcall. rewrite Hcall.
    change (equals (vstr "tools/call") "initialize") with false.
    change (equals (vstr "tools/call") "tools/list") with false.
    change (equals (vstr "tools/call") "tools/call") with true.
    cbv iota. rewrite Hparams. by eexists.
Qed.

End EndpointClaims.

Section HealthMore2.
Import Gateway Conditions.
Context {R : Runtime} {C : Config}.

(** X29: [runHealthCheck], called with an arguments object, reports
    "HEALTHY" when nothing was measured: without a configured store it asks
    nothing and says so in its message; and with a store and a service
    that can be printed, when its two queries find no data every metric
    counts as 0, so that the service comes out "HEALTHY", though not
    recovered.  Called without an arguments object it throws, before any
    request. *)
Theorem runHealthCheck_nothing_measured (params : value) (st st1 st2 : state) :
  (nullish params = true ->
   exists message, runHealthCheck params st = (Thrown message, st))
  /\ (nullish params = false ->
      configured ELASTIC_URL && configured ELASTIC_API_KEY = false ->
      exists result,
        runHealthCheck params st = (Returned result, st)
        /\ get result (lit "status") = vstr "HEALTHY"
        /\ get result (lit "message")
           = vstr "Health check simulated (no ES connection)")
  /\ (nullish params = false ->
      printable (get params (lit "service")) = true ->
      configured ELASTIC_URL = true ->
      configured ELASTIC_API_KEY = true ->
      esqlQuery (recent_query (get params (lit "service"))) st
      = (Returned [], st1) ->
      esqlQuery (baseline_query (get params (lit "service"))) st1
      = (Returned [], st2) ->
      exists result,
        runHealthCheck params st = (Returned result, st2)
        /\ get result (lit "status") = vstr "HEALTHY"
        /\ get result (lit "recovered") = VBool false
        /\ get (get result (lit "current")) (lit "data_points") = num 0).
Proof.
  split; [ | split].
  - intros Hparams. unfold runHealthCheck, prop. rewrite Hparams.
    destruct (negb _ || negb _); by eexists.
  - intros Hparams Hoff. unfold runHealthCheck.
    assert (Hunset : negb (configured ELASTIC_URL)
                     || negb (configured ELASTIC_API_KEY) = true).
    { destruct (configured ELASTIC_URL), (configured ELASTIC_API_KEY); done. }
    rewrite Hunset. unfold prop. rewrite Hparams.
    eexists. split; [reflexivity | ]. split; reflexivity.
  - intros Hparams _ Hurl Hkey Hrecent Hbaseline.
    unfold runHealthCheck. rewrite Hurl, Hkey. cbn [negb orb].
    unfold prop. rewrite Hparams.
    unfold bind at 1. unfold ret at 1.
    unfold bind at 1. rewrite Hrecent.
    unfold bind at 1. rewrite Hbaseline.
    eexists. split; [reflexivity | ]. repeat split; reflexivity.
Qed.

End HealthMore2.

Section PromptClaims.
Import Gateway Tools Bot Conditions.
Context {R : Runtime} {C : Config} {P : Prototype}.


End PromptClaims.

(** ** Further runs *)

Section TextRuns.
Import Chunker Conditions.

(** X1 on three lines of 5, 3 and 5 units with the limit 10: the cut is
    made at the second line break. *)
Lemma splitMessage_cuts_witness :
  exists (init : list (jsstring * bool)) (last : jsstring * bool),
    splitMessage (lit "abcde" ++ nl ++ lit "fgh" ++ nl ++ lit "ijklm") 10
    = Some (map fst (init ++ [last]))
    /\ Forall (full_or_at_break 10) init
    /\ 1 <= js_length last.1.
Proof.
  destruct (splitMessage_cuts
              (lit "abcde" ++ nl ++ lit "fgh" ++ nl ++ lit "ijklm") 10)
    as (init & last & _ & Hrun & _ & Hcut & Hlast & _); [lia | ].
  exists init, last. split; [exact Hrun | ]. split; [exact Hcut | ].
  apply Hlast. discriminate.
Defined.

End TextRuns.

Section ScriptedRuns.
Import Gateway Tools Bot Conditions Scenario Cases.
#[local] Existing Instance scripted.
#[local] Existing Instance all_configured.
#[local] Existing Instance inert.
#[local] Existing Instance standard.

(** X5 on a prompt of three blanks. *)
Lemma queryApollo_blank_prompt_witness :
  queryApollo (vstr "   ") (lit "chat-7") stale = (Returned greeting, stale).
Proof.
  apply (queryApollo_blank_prompt (vstr "   ") (lit "   ") (lit "chat-7") stale);
    reflexivity.
Defined.

(** X7 on two channels: the query on "chat-7" loses its session, and
    "chat-8" keeps its own. *)
Lemma queryApollo_other_channels_witness :
  conversationMap
    (queryApollo (vstr "status?") (lit "chat-7") two_channels).2
  !! lit "chat-8"
  = conversationMap two_channels !! lit "chat-8".
Proof.
  apply (queryApollo_other_channels (vstr "status?") (lit "chat-7")
           (lit "chat-8") two_channels).
  discriminate.
Defined.

(** X8 on a first reply under the session "conv-9". *)
Lemma queryApollo_keeps_session_witness :
  let st := start [reply_in_session "On it." "conv-9"; reply "Done."] [] in
  let st1 := (queryApollo (vstr "status?") (lit "chat-7") st).2 in
  conversationMap st1 = <[lit "chat-7" := vstr "conv-9"]> (conversationMap st)
  /\ exists rest : list request,
       sent (queryApollo (vstr "and now?") (lit "chat-7") st1).2
       = sent st1 ++ converse_request (lit "and now?") (vstr "conv-9") :: rest.
Proof.
  intros st st1.
  destruct (queryApollo_keeps_session (vstr "status?") (vstr "and now?")
              (lit "status?") (lit "and now?") (lit "chat-7")
              {| res_ok := true; res_status := 200; res_text := lit "OK";
                 res_json :=
                   Some (VObj [(lit "conversation_id", vstr "conv-9");
                               (lit "response",
                                VObj [(lit "message", vstr "On it.")])]) |}
              ([reply "Done."] : @world scripted)
              (VObj [(lit "conversation_id", vstr "conv-9");
                     (lit "response", VObj [(lit "message", vstr "On it.")])])
              st)
    as (Hmap & _ & Hnext).
  - reflexivity.
  - reflexivity.
  - reflexivity.
  - reflexivity.
  - vm_compute. reflexivity.
  - reflexivity.
  - reflexivity.
  - reflexivity.
  - reflexivity.
  - split; [exact Hmap | exact Hnext].
Defined.

(** X9 on a reasoning engine that answers 500. *)
Lemma queryApollo_failure_witness :
  (queryApollo (vstr "status?") (lit "chat-7")
     (start [answer false 500 "upstream down" None] [])).1
  = Thrown (lit "Apollo API (500): upstream down").
Proof.
  rewrite (queryApollo_failure (vstr "status?") (lit "status?") (lit "chat-7")
             {| res_ok := false; res_status := 500;
                res_text := lit "upstream down"; res_json := None |}
             ([] : @world scripted)
             (start [answer false 500 "upstream down" None] []));
    reflexivity.
Defined.

End ScriptedRuns.

Section ScriptedRuns2.
Import Gateway Tools Bot Conditions Scenario Cases.
#[local] Existing Instance scripted.
#[local] Existing Instance all_configured.
#[local] Existing Instance inert.
#[local] Existing Instance standard.




(** X15 on a call of a tool that is not in the catalogue. *)
Lemma mcp_envelope_witness :
  exists response st',
    mcp (call 7 "restart_cluster" (VObj [])) (start [] [])
    = (Returned response, st')
    /\ get response (lit "jsonrpc") = vstr "2.0"
    /\ get response (lit "id") = num 7.
Proof.
  eexists _, _. split; [vm_compute; reflexivity | ].
  match goal with
  | |- get ?response _ = _ /\ _ =>
      destruct (mcp_envelope (call 7 "restart_cluster" (VObj [])) response
                  (start [] []) (start [] []))
        as (Hversion & Hid & _);
      [vm_compute; reflexivity | split; [exact Hversion | exact Hid]]
  end.
Defined.


(** X24 on two updates, of which the first has no chat: the cycle ends
    with the first update counted, and nothing sent for the second. *)
Lemma pollTelegram_failing_update_witness :
  exists st',
    pollTelegram (num 4)
      (start [updates [chatless_update 5 "/status";
                       message_update 6 42 "/status"]] [])
    = ((Returned tt, num 5), st')
    /\ length (sent st') = 1%nat.
Proof.
  eexists. split.
  - eapply (pollTelegram_failing_update (num 4)
              {| res_ok := true; res_status := 200; res_text := lit "OK";
                 res_json :=
                   Some (VObj [(lit "ok", VBool true);
                               (lit "result",
                                VArr [chatless_update 5 "/status";
                                      message_update 6 42 "/status"])]) |}
              ([] : @world scripted)
              (VObj [(lit "ok", VBool true);
                     (lit "result",
                      VArr [chatless_update 5 "/status";
                            message_update 6 42 "/status"])])
              (chatless_update 5 "/status")
              [message_update 6 42 "/status"]).
    + reflexivity.
    + reflexivity.
    + reflexivity.
    + reflexivity.
    + reflexivity.
    + vm_compute. reflexivity.
  - reflexivity.
Defined.

(** X25 on a chat with a stored session. *)
Lemma handle_message_newthread_witness :
  let st := start [answer true 200 "OK" None; reply "Done."]
              [(lit "42", vstr "conv-1")] in
  let st' := (handle_message (message_update 5 42 " /newthread ") st).2 in
  conversationMap st' !! lit "42" = None
  /\ exists rest : list request,
       sent (queryApollo (vstr "status?") (lit "42") st').2
       = sent st' ++ converse_request (lit "status?") VUndefined :: rest.
Proof.
  intros st st'.
  destruct (handle_message_newthread (message_update 5 42 " /newthread ")
              (num 42) (vstr "status?") (lit " /newthread ") (lit "status?") st)
    as (Hmap & _ & _ & Hnext); try reflexivity.
  split; [ | exact Hnext].
  fold st' in Hmap. rewrite Hmap. vm_compute. reflexivity.
Defined.

(** X26 on a listing of incidents without arguments and one row. *)
Lemma listings_count_rows_witness :
  exists incidents : list value,
    (getRecentIncidents (VObj [])
       (start [table ["@timestamp"; "title"]%string
                 [[vstr "2026-01-01T00:00:00Z"; vstr "Checkout down"]]] [])).1
    = Returned (VObj [(lit "count", num 1);
                      (lit "incidents", VArr incidents)]).
Proof.
  set (st := start _ []).
  set (query := lit "FROM incidents | WHERE @timestamp > NOW() - 7 days"
                ++ lit " | SORT @timestamp DESC | LIMIT " ++ lit "10").
  destruct (listings_count_rows (VObj [])
              [VObj [(lit "@timestamp", vstr "2026-01-01T00:00:00Z");
                     (lit "title", vstr "Checkout down")]]
              st
              {| conversationMap := conversationMap st;
                 outside := ([] : @world scripted);
                 sent := sent st ++ [esql_request query] |})
    as (Hrun & _); [reflexivity | reflexivity | ].
  destruct Hrun as (incidents & Hlist & _); [reflexivity | ].
  exists incidents. by rewrite Hlist.
Defined.

(** X28 on a method that the endpoint does not know, and on a method that
    cannot be printed. *)
Lemma mcp_effects_only_in_calls_witness :
  mcp (request_of 3 "resources/list") (start [] [])
  = (Returned (rpc_error (num 3) (-32601)
                 (lit "Method not found: resources/list")),
     start [] [])
  /\ exists message,
       mcp (VObj [(lit "jsonrpc", vstr "2.0");
                  (lit "method", unprintable_name);
                  (lit "id", num 4)])
         (start [] [])
       = (Thrown message, start [] []).
Proof.
  split.
  - destruct (mcp_effects_only_in_calls (request_of 3 "resources/list")
                (start [] [])) as (Hother & _ & _); [reflexivity | ].
    destruct Hother as (response & Hrun & Hshape);
      [reflexivity | reflexivity | ].
    rewrite Hrun, Hshape; reflexivity.
  - destruct (mcp_effects_only_in_calls
                (VObj [(lit "jsonrpc", vstr "2.0");
                       (lit "method", unprintable_name);
                       (lit "id", num 4)])
                (start [] [])) as (_ & Hthrow & _); [reflexivity | ].
    apply Hthrow. reflexivity.
Defined.

(** X29 on two queries that find no row. *)
Lemma runHealthCheck_nothing_measured_witness :
  exists result,
    (runHealthCheck health_arguments
       (start [table recent_columns []; table baseline_columns []] [])).1
    = Returned result
    /\ get result (lit "status") = vstr "HEALTHY"
    /\ get result (lit "recovered") = VBool false.
Proof.
  set (st := start [table recent_columns []; table baseline_columns []] []).
  set (q1 := esqlQuery
               (recent_query (get health_arguments (lit "service"))) st).
  set (q2 := esqlQuery
               (baseline_query (get health_arguments (lit "service"))) q1.2).
  destruct (runHealthCheck_nothing_measured health_arguments st q1.2 q2.2)
    as (_ & _ & Hempty).
  destruct Hempty as (result & Hrun & Hstatus & Hrecovered & _);
    try (vm_compute; reflexivity).
  exists result. split; [by rewrite Hrun | ]. by split.
Defined.

End ScriptedRuns2.

Section DownRuns.
Import Gateway Tools Bot Conditions Scenario Cases.
#[local] Existing Instance all_down.
#[local] Existing Instance all_configured.
#[local] Existing Instance standard.

(** X14 on a network in which the store answers 503, like every other
    service. *)
Lemma executeRollback_unrecorded_witness :
  exists (result : value) (st' : state),
    executeRollback rollback_arguments idle = (Returned result, st')
    /\ get result (lit "success") = VBool true
    /\ get result (lit "deployment_id") = VNull.
Proof.
  destruct (executeRollback_unrecorded rollback_arguments idle)
    as (result & st' & Hrun & Hok & Hid & _).
  - reflexivity.
  - repeat first
      [ apply Forall_nil_2 | apply Forall_cons_2
      | (right; eexists; reflexivity) ].
  - intros req w. by eexists _, _.
  - right. intros doc w. eexists _, _. split; reflexivity.
  - exists result, st'. by repeat split.
Defined.

(** X16 on the same network. *)
Lemma createIncidentRecord_refused_witness :
  (createIncidentRecord incident_arguments idle).1
  = Returned
      (VObj [(lit "success", VBool false);
             (lit "error", vstr "Elasticsearch: Service Unavailable")])
  /\ length (sent (createIncidentRecord incident_arguments idle).2) = 1%nat.
Proof.
  rewrite (createIncidentRecord_refused incident_arguments [vstr "database"]
             {| res_ok := false; res_status := 503;
                res_text := lit "Service Unavailable"; res_json := None |}
             (tt : @world all_down) idle);
    try reflexivity.
  split; reflexivity.
Defined.

End DownRuns.

Section HalfRuns.
Import Gateway Tools Bot Conditions Scenario Cases.
#[local] Existing Instance notifications_down.
#[local] Existing Instance all_configured.
#[local] Existing Instance standard.

Lemma notifications_down_answers : always_answers.
Proof.
  intros req w. unfold fetch, notifications_down.
  destruct (starts_with _ _); by eexists _, _.
Qed.

(** X17 on a network in which the store works and Telegram answers 503. *)
Lemma createIncidentRecord_stored_witness :
  exists (result : value) (st' : state),
    createIncidentRecord incident_arguments quiet = (Returned result, st')
    /\ get result (lit "success") = VBool true
    /\ get result (lit "document_id") = vstr "dep-1"
    /\ Forall (fun r => req_url r = telegram_url) (drop 1 (sent st')).
Proof.
  destruct (createIncidentRecord_stored incident_arguments [vstr "database"]
              {| res_ok := true; res_status := 201; res_text := [];
                 res_json := Some (VObj [(lit "_id", vstr "dep-1")]) |}
              (VObj [(lit "_id", vstr "dep-1")])
              (tt : @world notifications_down) quiet)
    as (result & st' & notifications & Hrun & Hok & Hid & _ & _ & Hsent & Hurls).
  - reflexivity.
  - reflexivity.
  - by repeat first
      [ apply Forall_nil_2 | apply Forall_cons_2
      | (right; eexists; reflexivity) ].
  - reflexivity.
  - reflexivity.
  - exact notifications_down_answers.
  - reflexivity.
  - reflexivity.
  - reflexivity.
  - reflexivity.
  - right. by eexists.
  - exists result, st'. split; [exact Hrun | ]. split; [exact Hok | ].
    split; [exact Hid | by rewrite Hsent].
Defined.

(** X18 on the same network. *)
Lemma recommendRollback_reports_success_witness :
  exists (result : value) (st' : state),
    recommendRollback rollback_arguments quiet = (Returned result, st')
    /\ get result (lit "success") = VBool true
    /\ get result (lit "message")
       = vstr "Rollback recommended: checkout-api v1.21.0 -> v1.20.9. Team notified."
    /\ Forall (fun r => req_url r = telegram_url) (sent st').
Proof.
  destruct (recommendRollback_reports_success rollback_arguments quiet)
    as (result & st' & new & Hrun & Hok & Hmessage & Hsent & Hurls & _).
  - reflexivity.
  - by repeat first
      [ apply Forall_nil_2 | apply Forall_cons_2
      | (right; eexists; reflexivity) ].
  - exact notifications_down_answers.
  - exists result, st'. split; [exact Hrun | ]. split; [exact Hok | ].
    split; [exact Hmessage | by rewrite Hsent].
Defined.

(** X20 on the same network: the alert is reported as failed. *)
Lemma sendTelegramAlert_mirrors_delivery_witness :
  exists (result : value) (st' : state),
    sendTelegramAlert incident_arguments quiet = (Returned result, st')
    /\ (exists e, result = VObj [(lit "success", VBool false);
                                 (lit "error", VStr e)])
    /\ Forall (fun r => req_url r = telegram_url) (sent st').
Proof.
  destruct (sendTelegramAlert_mirrors_delivery incident_arguments quiet)
    as (result & st' & new & Hrun & Hsent & Hurls & Hresult & _).
  - reflexivity.
  - by repeat first
      [ apply Forall_nil_2 | apply Forall_cons_2
      | (right; eexists; reflexivity) | (left; reflexivity) ].
  - exact notifications_down_answers.
  - exists result, st'. split; [exact Hrun | ].
    split; [ | by rewrite Hsent].
    destruct Hresult as [Hsuccess | Hfailure]; [ | exact Hfailure].
    assert (Hvalue : (sendTelegramAlert incident_arguments quiet).1
                     = Returned result) by (by rewrite Hrun).
    rewrite Hsuccess in Hvalue. vm_compute in Hvalue. discriminate.
Defined.

End HalfRuns.

Section UpRuns.
Import Gateway Tools Bot Conditions Scenario Cases.
#[local] Existing Instance all_up.
#[local] Existing Instance all_configured.
#[local] Existing Instance standard.


End UpRuns.

Section UpRuns2.
Import Gateway Tools Bot Conditions Scenario Cases.
#[local] Existing Instance all_up.
#[local] Existing Instance all_configured.
#[local] Existing Instance standard.


End UpRuns2.
